(** * Presence-aware routing core of the socket.io exposure-notification server

    A shallow embedding of [server.js] (the router and its event handlers) and
    of [radar.js] (the [ServerProxy] class), followed by the properties of the
    routing core: open rooms, occupancy, the deferred-delivery cache and the
    acknowledgments of the inbound events.

    JavaScript values are a small JSON-like datatype, in which a lookup on a
    plain object also finds what the object inherits and numbers print as
    doubles do.  The handlers run in a state-and-exception monad over the
    server's state: the connected sockets, the adapter's table of groups, the
    two [pendingWarnings] maps (the one [server.js] creates and the
    module-level one of [radar.js]), and the log of what was emitted and
    acknowledged.  Logging is left out, except where
    building the log line can throw.  The listener server.js registers for
    'reconnect' on [io] is left out as well: the server side of the transport
    has no such event. *)

From stdpp Require Import base strings list gmap pretty.
From Stdlib Require Import ZArith Lia.

Open Scope string_scope.
Open Scope list_scope.

Declare Scope js_scope.
Delimit Scope js_scope with js.
(** String concatenation, as in a template literal. *)
Notation "a ^ b" := (String.append a b) : js_scope.
Open Scope js_scope.

(* ===================================================================== *)
(** ** JavaScript values *)
(* ===================================================================== *)

(** What the server handles: JSON values, and the built-in functions a
    lookup on a plain object can come across.  [VNum n] is the number whose
    value is the double nearest to the integer [n]; numbers with a fractional
    part are not modelled.  [VFun name arity] is a built-in function, known by
    its name and by the number of parameters it declares. *)
#[warnings="-register-all"]
Inductive value : Type :=
| VUndef
| VNull
| VBool (b : bool)
| VNum (n : Z)
| VStr (s : string)
| VArr (items : list value)
| VObj (fields : list (string * value))
| VFun (name : string) (arity : Z).

(** What [throw] carries. *)
Inductive JsError : Type :=
| TypeError (msg : string)
| ReferenceError (name : string)
| Thrown (v : value).

Inductive outcome (A : Type) : Type :=
| Ok (a : A)
| Throw (e : JsError).
Arguments Ok {A} a.
Arguments Throw {A} e.

(** [if (v)], [!v], [a || b]: JavaScript truthiness. *)
Definition truthy (v : value) : bool :=
  match v with
  | VUndef | VNull => false
  | VBool b => b
  | VNum n => negb (n =? 0)%Z
  | VStr s => negb (String.eqb s "")
  | VArr _ | VObj _ | VFun _ _ => true
  end.

(** [a || b]. *)
Definition js_or (a b : value) : value := if truthy a then a else b.

(** [l.length] as a condition. *)
Definition has_length {A} (l : list A) : bool := negb (Nat.eqb (length l) 0).

(** A query-string field or an identity name: a string, or absent
    ([undefined]). *)
Definition of_opt (o : option string) : value :=
  match o with Some s => VStr s | None => VUndef end.

Definition truthy_opt (o : option string) : bool := truthy (of_opt o).

(** Own named properties of an object literal, first match. *)
Fixpoint assoc (k : string) (fields : list (string * value)) : option value :=
  match fields with
  | [] => None
  | (k', v) :: rest => if String.eqb k k' then Some v else assoc k rest
  end.

(** The methods of [Object.prototype]: every plain object answers to these
    names, whatever properties it has of its own. *)
Definition object_prototype_methods : list (string * value) :=
  [("constructor", VFun "Object" 1);
   ("__defineGetter__", VFun "__defineGetter__" 2);
   ("__defineSetter__", VFun "__defineSetter__" 2);
   ("hasOwnProperty", VFun "hasOwnProperty" 1);
   ("__lookupGetter__", VFun "__lookupGetter__" 1);
   ("__lookupSetter__", VFun "__lookupSetter__" 1);
   ("isPrototypeOf", VFun "isPrototypeOf" 1);
   ("propertyIsEnumerable", VFun "propertyIsEnumerable" 1);
   ("toString", VFun "toString" 0);
   ("valueOf", VFun "valueOf" 0);
   ("toLocaleString", VFun "toLocaleString" 0)].

(** [Object.prototype] itself, whose own prototype is [null]. *)
Definition object_prototype : value :=
  VObj (object_prototype_methods ++ [("__proto__", VNull)]).

(** [o[k]] for a plain object [o] that has no property [k] of its own: the
    lookup goes on in [Object.prototype], and '__proto__' answers the
    prototype. *)
Definition inherited (k : string) : value :=
  if String.eqb k "__proto__" then object_prototype
  else default VUndef (assoc k object_prototype_methods).

(** [v.k] and [v[k]].  Reading a property of [undefined] or [null] throws.
    An object answers with its own property or with what it inherits;
    strings and arrays answer [length], functions [length] and [name].  The
    methods of strings, arrays, numbers, booleans and functions, and the
    indices of strings and arrays, are not modelled: of such values the
    server reads fixed names only ('room', 'dates', 'text' and the like). *)
Definition get_prop (v : value) (k : string) : outcome value :=
  match v with
  | VUndef => Throw (TypeError ("Cannot read property '" ^ k ^ "' of undefined"))
  | VNull => Throw (TypeError ("Cannot read property '" ^ k ^ "' of null"))
  | VObj fields =>
      Ok (match assoc k fields with Some x => x | None => inherited k end)
  | VStr s => Ok (if String.eqb k "length" then VNum (Z.of_nat (String.length s)) else VUndef)
  | VArr l => Ok (if String.eqb k "length" then VNum (Z.of_nat (length l)) else VUndef)
  | VFun name arity =>
      Ok (if String.eqb k "length" then VNum arity
          else if String.eqb k "name" then VStr name else VUndef)
  | VBool _ | VNum _ => Ok VUndef
  end.

Definition join_with (sep : string) (l : list string) : string :=
  match l with
  | [] => ""
  | x :: rest => fold_left (fun acc y => acc ^ sep ^ y) rest x
  end.

(* ===================================================================== *)
(** ** Numbers as text *)
(* ===================================================================== *)

(** JavaScript numbers are doubles.  An integer below 2^53 is a double and
    prints with all its digits; above, a double prints with the fewest digits
    that still single it out among the doubles, and from 10^21 on in
    exponent form. *)

(** The double nearest to the integer [n >= 0], ties to the even mantissa;
    [None] is [Infinity]. *)
Definition nearest_double (n : Z) : option Z :=
  if (n <? 9007199254740992)%Z then Some n
  else
    let e := Z.log2 n in
    let ulp := (2 ^ (e - 52))%Z in
    let q := (n / ulp)%Z in
    let r := (n mod ulp)%Z in
    let q' := if (2 * r <? ulp)%Z then q
              else if (ulp <? 2 * r)%Z then (q + 1)%Z
              else if Z.even q then q else (q + 1)%Z in
    let x := (q' * ulp)%Z in
    if (2 ^ 1024 <=? x)%Z then None else Some x.

Definition rounds_to (x c : Z) : bool :=
  match nearest_double c with
  | Some y => (y =? x)%Z
  | None => false
  end.

(** Number of decimal digits of [n > 0]. *)
Definition digits (n : Z) : Z := Z.of_nat (String.length (pretty n)).

(** The decimal with the fewest significant digits that rounds to the double
    [x]; [k] is the number of digits tried, and the nearer candidate wins
    when two of them round to [x]. *)
Fixpoint shortest (x : Z) (k : Z) (fuel : nat) : Z :=
  match fuel with
  | O => x
  | S fuel' =>
      let m := (digits x - k)%Z in
      if (m <? 0)%Z then x
      else
        let p := (10 ^ m)%Z in
        let lo := (x / p * p)%Z in
        let hi := (lo + p)%Z in
        match rounds_to x lo, rounds_to x hi with
        | true, true =>
            if (x - lo <? hi - x)%Z then lo
            else if (hi - x <? x - lo)%Z then hi
            else if Z.even (x / p) then lo else hi
        | true, false => lo
        | false, true => hi
        | false, false => shortest x (k + 1) fuel'
        end
  end.

Fixpoint strip_zeros (n : Z) (fuel : nat) : Z :=
  match fuel with
  | O => n
  | S fuel' => if (n mod 10 =? 0)%Z then strip_zeros (n / 10) fuel' else n
  end.

(** [d.ddd] followed by the exponent, for [c >= 10^21]. *)
Definition exponent_form (c : Z) : string :=
  let mantissa :=
    match pretty (strip_zeros c 400) with
    | EmptyString => ""
    | String d EmptyString => String d EmptyString
    | String d rest => String d ("." ^ rest)
    end in
  mantissa ^ "e+" ^ pretty (digits c - 1)%Z.

(** [String(n)] for the number [VNum n]. *)
Definition number_to_string (n : Z) : string :=
  if (Z.abs n <? 9007199254740992)%Z then pretty n
  else
    let sign := if (n <? 0)%Z then "-" else "" in
    match nearest_double (Z.abs n) with
    | None => sign ^ "Infinity"
    | Some x =>
        let c := shortest x 1 17 in
        sign ^ (if (digits c <=? 21)%Z then pretty c else exponent_form c)
    end.
Arguments number_to_string : simpl never.

(** String conversion of a template literal, [`${v}`], and of a property
    key.  An object prints as '[object Object]': objects arrive as JSON, and
    one that carries a property 'toString' of its own, on which the
    conversion throws, is outside the model. *)
Fixpoint to_string (v : value) : string :=
  match v with
  | VUndef => "undefined"
  | VNull => "null"
  | VBool true => "true"
  | VBool false => "false"
  | VNum n => number_to_string n
  | VStr s => s
  | VArr l =>
      join_with ","
        (map (fun x => match x with VUndef | VNull => "" | _ => to_string x end) l)
  | VObj _ => "[object Object]"
  | VFun name _ => "function " ^ name ^ "() { [native code] }"
  end.

(** The value a [catch (error)] clause binds. *)
Definition error_value (e : JsError) : value :=
  match e with
  | TypeError msg => VObj [("name", VStr "TypeError"); ("message", VStr msg)]
  | ReferenceError n =>
      VObj [("name", VStr "ReferenceError"); ("message", VStr (n ^ " is not defined"))]
  | Thrown v => v
  end.

(* ===================================================================== *)
(** ** The JavaScript [Map] behind [pendingWarnings] *)
(* ===================================================================== *)

(** Entries in insertion order.  Keys are room names and visitor identities. *)
Module JsMap.

Definition t := list (string * value).

Definition keys (m : t) : list string := map fst m.

Fixpoint get (k : string) (m : t) : option value :=
  match m with
  | [] => None
  | (k', v) :: rest => if String.eqb k k' then Some v else get k rest
  end.

Definition has (k : string) (m : t) : bool :=
  match get k m with Some _ => true | None => false end.

(** [m.set(k, v)]: an existing key keeps its place and takes the new value;
    a new key goes to the end. *)
Fixpoint set (k : string) (v : value) (m : t) : t :=
  match m with
  | [] => [(k, v)]
  | (k', v') :: rest =>
      if String.eqb k k' then (k', v) :: rest else (k', v') :: set k v rest
  end.

(** [m.delete(k)]: the entry under [k] goes; there is at most one. *)
Fixpoint delete (k : string) (m : t) : t :=
  match m with
  | [] => []
  | (k', v') :: rest =>
      if String.eqb k k' then rest else (k', v') :: delete k rest
  end.

Definition size (m : t) : nat := length m.

End JsMap.

(* ===================================================================== *)
(** ** Connections, groups and the server state *)
(* ===================================================================== *)

(** [socket.handshake.query]. *)
Module Query.
Record t : Type := mk {
  id : option string;
  room : option string;
  visitor : option string;
  admin : option string;
  state : option string;
  nsp : option string
}.
End Query.

Record Socket : Type := mkSocket {
  socket_id : string;           (* socket.id *)
  handshake_query : Query.t     (* socket.handshake.query *)
}.

(** Destination of an outbound event: [io.to(g)] or [io.of(namespace)]. *)
Inductive Dest : Type :=
| ToGroup (g : value)
| ToNamespace.

(** One element of the array the [sockets] getter of [ServerProxy] builds.
    Its sixth field, [occupiedRooms: c[1].rooms], is the record the transport
    keeps on each socket of the groups it joined; the transport fills it in
    on its own, after the handler that joined has returned, and the server
    only passes it on.  The view leaves it out. *)
Record SocketView : Type := mkView {
  v_id : string;
  v_room : option string;
  v_visitor : option string;
  v_namespace : option string;
  v_connected : bool
}.

(** What an outbound event or an acknowledgment carries: a JSON value, an
    array of socket views, or the entries of a [Map]. *)
Inductive Body : Type :=
| Json (v : value)
| Snapshot (l : list SocketView)
| Entries (m : JsMap.t).

Record Emission : Type := mkEmission {
  dest : Dest;
  event : value;
  body : Body
}.

Record Server : Type := mkServer {
  sockets : list Socket;                  (* io.nsps['/'].adapter.nsp.sockets *)
  rooms : gmap string (list string);      (* io.nsps['/'].adapter.rooms: group -> member ids *)
  pendingWarnings : JsMap.t;              (* the Map created in server.js *)
  radarPending : JsMap.t;                 (* the module-level Map of radar.js *)
  emitted : list Emission;                (* outbound events, oldest first *)
  acked : list Body                       (* acknowledgment callbacks invoked, oldest first *)
}.

Definition initial : Server :=
  {| sockets := []; rooms := ∅; pendingWarnings := []; radarPending := [];
     emitted := []; acked := [] |}.

(* ===================================================================== *)
(** ** State and exceptions *)
(* ===================================================================== *)

(** A computation may change the server state and may throw; what it changed
    before throwing stays changed. *)
Definition M (A : Type) : Type := Server -> outcome A * Server.

Definition ret {A} (a : A) : M A := fun st => (Ok a, st).

Definition bind {A B} (m : M A) (f : A -> M B) : M B :=
  fun st =>
    match m st with
    | (Ok a, st') => f a st'
    | (Throw e, st') => (Throw e, st')
    end.

Definition throw {A} (e : JsError) : M A := fun st => (Throw e, st).

Definition lift {A} (o : outcome A) : M A := fun st => (o, st).

Definition gets {A} (f : Server -> A) : M A := fun st => (Ok (f st), st).

Definition modify (f : Server -> Server) : M unit := fun st => (Ok tt, f st).

(** [try { m } catch (error) { h error }]. *)
Definition try_catch {A} (m : M A) (h : JsError -> M A) : M A :=
  fun st =>
    match m st with
    | (Ok a, st') => (Ok a, st')
    | (Throw e, st') => h e st'
    end.

Definition when (b : bool) (m : M unit) : M unit := if b then m else ret tt.

#[global] Instance M_ret : MRet M := @ret.
#[global] Instance M_bind : MBind M := fun A B f m => bind m f.

Definition run {A} (m : M A) (st : Server) : Server := snd (m st).

Definition set_sockets (l : list Socket) (st : Server) : Server :=
  {| sockets := l; rooms := rooms st; pendingWarnings := pendingWarnings st;
     radarPending := radarPending st; emitted := emitted st; acked := acked st |}.

Definition set_rooms (r : gmap string (list string)) (st : Server) : Server :=
  {| sockets := sockets st; rooms := r; pendingWarnings := pendingWarnings st;
     radarPending := radarPending st; emitted := emitted st; acked := acked st |}.

Definition set_pendingWarnings (m : JsMap.t) (st : Server) : Server :=
  {| sockets := sockets st; rooms := rooms st; pendingWarnings := m;
     radarPending := radarPending st; emitted := emitted st; acked := acked st |}.

Definition set_radarPending (m : JsMap.t) (st : Server) : Server :=
  {| sockets := sockets st; rooms := rooms st; pendingWarnings := pendingWarnings st;
     radarPending := m; emitted := emitted st; acked := acked st |}.

Definition push_emitted (e : Emission) (st : Server) : Server :=
  {| sockets := sockets st; rooms := rooms st; pendingWarnings := pendingWarnings st;
     radarPending := radarPending st; emitted := emitted st ++ [e]; acked := acked st |}.

Definition push_acked (b : Body) (st : Server) : Server :=
  {| sockets := sockets st; rooms := rooms st; pendingWarnings := pendingWarnings st;
     radarPending := radarPending st; emitted := emitted st; acked := acked st ++ [b] |}.

(** [io.to(g).emit(ev, b)] and [io.of(namespace).emit(ev, b)]. *)
Definition emit (d : Dest) (ev : value) (b : Body) : M unit :=
  modify (push_emitted {| dest := d; event := ev; body := b |}).

(** [if (ack) { ack(b) }]: [has_ack] tells whether the client passed a
    callback. *)
Definition ack_body (has_ack : bool) (b : Body) : M unit :=
  when has_ack (modify (push_acked b)).

Definition ack_if (has_ack : bool) (v : value) : M unit :=
  ack_body has_ack (Json v).

(* ===================================================================== *)
(** ** The transport's group primitive *)
(* ===================================================================== *)

(** Modelled from the spec: the transport library (socket.io and its in-memory
    adapter) is not part of the repository.  Section 4.2 and section 6 give
    the capabilities the core consumes: [join] adds the connection to the
    group, creating the group when absent, and a second join changes nothing;
    [leave] removes it and prunes a group that becomes empty.  A group is a
    property of its own of the table of groups, whatever its name.  The group
    socket.io keeps for every socket under the socket's own id is left out. *)
Definition members (g : string) (st : Server) : list string :=
  default [] (rooms st !! g).

Definition join (sid g : string) (st : Server) : Server :=
  if bool_decide (sid ∈ members g st) then st
  else set_rooms (<[g := members g st ++ [sid]]> (rooms st)) st.

Definition leave (sid g : string) (st : Server) : Server :=
  match rooms st !! g with
  | None => st
  | Some ms =>
      let ms' := List.filter (fun x => negb (String.eqb x sid)) ms in
      match ms' with
      | [] => set_rooms (delete g (rooms st)) st
      | _ => set_rooms (<[g := ms']> (rooms st)) st
      end
  end.

(** Modelled from the spec: connect and disconnect of the transport (section
    4.1 and the table of section 4.5).  [register] adds the connection record;
    [deregister] removes it and the groups keep their membership. *)
Definition register (s : Socket) (st : Server) : Server :=
  set_sockets (sockets st ++ [s]) st.

Definition deregister (sid : string) (st : Server) : Server :=
  set_sockets (List.filter (fun s => negb (String.eqb (socket_id s) sid)) (sockets st)) st.

(* ===================================================================== *)
(** ** Iterating a [Map] *)
(* ===================================================================== *)

(** [map.forEach((value, key) => ...)] on the map [sel] selects.  The entries
    are visited in insertion order; an entry deleted before its turn is not
    visited. *)
Fixpoint forEach_from (sel : Server -> JsMap.t) (f : value -> string -> M unit)
    (entries : list (string * value)) : M unit :=
  match entries with
  | [] => mret tt
  | (k, _) :: rest =>
      cur ← gets sel;
      match JsMap.get k cur with
      | Some v => f v k
      | None => mret tt
      end;;
      forEach_from sel f rest
  end.

Definition forEach (sel : Server -> JsMap.t) (f : value -> string -> M unit) : M unit :=
  entries ← gets sel;
  forEach_from sel f entries.

(* ===================================================================== *)
(** ** Event payloads *)
(* ===================================================================== *)

(** The payloads of the inbound events, with the fields the handlers
    destructure.  Room names and identity names are strings; what the server
    only forwards is an opaque [value].  [to_value] is the object as it
    arrives, which is what the handlers store and forward. *)

(** [{room, id}]: payload of [openRoom] and [closeRoom], and the [room] field
    of [enterRoom] and [leaveRoom]. *)
Module RoomRef.
Record t : Type := mk { room : string; id : value }.
Definition to_value (r : t) : value :=
  VObj [("room", VStr (room r)); ("id", id r)].
End RoomRef.

Module EnterRoom.
Record t : Type := mk { room : RoomRef.t; visitor : value; sentTime : value }.
End EnterRoom.

Module LeaveRoom.
Record t : Type :=
  mk { room : RoomRef.t; visitor : value; sentTime : value; message : value }.
End LeaveRoom.

(** [{visitor, warnings}], [warnings] in the order of [Object.entries]. *)
Module ExposureWarning.
Record t : Type := mk { visitor : value; warnings : list (string * value) }.
Definition to_value (d : t) : value :=
  VObj [("visitor", visitor d); ("warnings", VObj (warnings d))].
End ExposureWarning.

(** [{message, visitor, id}]. *)
Module AlertVisitor.
Record t : Type := mk { message : value; visitor : option string; id : value }.
Definition to_value (d : t) : value :=
  VObj [("message", message d); ("visitor", of_opt (visitor d)); ("id", id d)].
End AlertVisitor.

(** The argument of [ServerProxy.sendOrPend]:
    [{event, reason, visitor, room, exposureDates}], where [visitor] is an
    object with an [id]. *)
Module SendOrPend.
Record t : Type := mk {
  event : string;
  reason : value;
  visitor_name : value;      (* visitor.visitor *)
  visitor_id : string;       (* visitor.id *)
  room : string;
  exposureDates : value
}.
Definition visitor (d : t) : value :=
  VObj [("visitor", visitor_name d); ("id", VStr (visitor_id d))].
Definition to_value (d : t) : value :=
  VObj [("event", VStr (event d)); ("reason", reason d); ("visitor", visitor d);
        ("room", VStr (room d)); ("exposureDates", exposureDates d)].
End SendOrPend.

(* ===================================================================== *)
(** ** radar.js: class [ServerProxy] *)
(* ===================================================================== *)

Module ServerProxy.

(** [get sockets()]. *)
Definition sockets (st : Server) : list SocketView :=
  map (fun c =>
         let query := handshake_query c in
         {| v_id := socket_id c;
            v_room := Query.room query;
            v_visitor := Query.visitor query;
            v_namespace := Query.nsp query;
            v_connected := true |})
      (sockets st).

(** [get available()]: online sockets that represent Rooms. *)
Definition available (st : Server) : list SocketView :=
  List.filter (fun v => truthy_opt (v_room v)) (sockets st).

(** [get visitors()]: online sockets that represent Visitors. *)
Definition visitors (st : Server) : list SocketView :=
  List.filter (fun v => truthy_opt (v_visitor v)) (sockets st).

(** The object the adapter keeps per group, [{sockets, length}]: [sockets]
    has one property per member, named by the member's id. *)
Definition room_object (ms : list string) : value :=
  VObj [("sockets", VObj (map (fun i => (i, VBool true)) ms));
        ("length", VNum (Z.of_nat (length ms)))].

(** [this.rooms[name]].  [get rooms()] hands out the adapter's table of
    groups, a plain object: the lookup finds the group of that name or, when
    there is none, what every object inherits under that name. *)
Definition rooms_at (name : string) (st : Server) : value :=
  match rooms st !! name with
  | Some ms => room_object ms
  | None => inherited name
  end.

(** [o[name]] on the table of groups, as a condition. *)
Definition has_group (name : value) (st : Server) : bool :=
  truthy (rooms_at (to_string name) st).

(** [get openRooms()]. *)
Definition openRooms (st : Server) : list SocketView :=
  let a := available st in
  List.filter (fun v => has_group (of_opt (v_room v)) st) a.

(** [getOccupancy(room)]. *)
Definition getOccupancy (room : string) : M value :=
  if negb (truthy (VStr room)) then throw (Thrown (VStr "No room name specified"))
  else
    g ← gets (rooms_at room);
    lift (get_prop g "length").

(** [privateMessage(event, message)].  A call with three arguments binds the
    first two and drops the third. *)
Definition privateMessage (event message : value) : M unit :=
  room ← lift (get_prop message "room");
  emit (ToGroup room) event (Json message).

(** [sendOrPend(data)], on the module-level map of radar.js. *)
Definition sendOrPend (d : SendOrPend.t) : M value :=
  let data := SendOrPend.to_value d in
  if String.eqb (SendOrPend.event d) "exposureAlert" then
    vs ← gets visitors;
    if has_length (List.filter
                     (fun v => String.eqb (v_id v) (SendOrPend.visitor_id d)) vs)
    then
      privateMessage (VStr (SendOrPend.event d)) data;;
      mret (VStr "ALERTED")
    else
      modify (fun st =>
        set_radarPending (JsMap.set (SendOrPend.visitor_id d) data (radarPending st)) st);;
      mret (VStr "PENDING")
  else if String.eqb (SendOrPend.event d) "notifyRoom" then
    os ← gets openRooms;
    if has_length (List.filter
                     (fun v => bool_decide (v_room v = Some (SendOrPend.room d))) os)
    then
      privateMessage (VStr (SendOrPend.event d))
        (VObj [("room", VStr (SendOrPend.room d));
               ("reason", SendOrPend.reason d);
               ("exposureDates", SendOrPend.exposureDates d);
               ("visitor", SendOrPend.visitor d)]);;
      mret (VStr "WARNED")
    else
      modify (fun st =>
        set_radarPending
          (JsMap.set (SendOrPend.room d)
             (VObj [("room", VStr (SendOrPend.room d));
                    ("reason", SendOrPend.reason d);
                    ("visitor", SendOrPend.visitor d);
                    ("exposureDates", SendOrPend.exposureDates d)])
             (radarPending st)) st);;
      mret (VStr "PENDING")
  else mret VUndef.

(** The callback of both [pendingWarnings.forEach] of [handlePendings]:
    send the stored value as [event], then delete the entry. *)
Definition flush (event : string) (value : value) (key : string) : M unit :=
  privateMessage (VStr event) value;;
  modify (fun st => set_radarPending (JsMap.delete key (radarPending st)) st).

(** [handlePendings(query)], on the module-level map of radar.js. *)
Definition handlePendings (query : Query.t) : M value :=
  if truthy_opt (Query.room query) then
    pending ← gets radarPending;
    if negb (match Query.room query with
             | Some r => JsMap.has r pending
             | None => false
             end)
    then mret (VStr ("Nothing pending for " ^ to_string (of_opt (Query.room query))))
    else
      forEach radarPending (flush "notifyRoom");;
      mret VUndef
  else if truthy_opt (Query.visitor query) || truthy_opt (Query.admin query) then
    pending ← gets radarPending;
    if Nat.eqb (JsMap.size pending) 0 ||
       negb (match Query.id query with
             | Some i => JsMap.has i pending
             | None => false
             end)
    then mret (VStr ("Nothing pending for " ^ to_string (of_opt (Query.visitor query))))
    else
      forEach radarPending (flush "exposureAlert");;
      mret VUndef
  else mret VUndef.

(** [notifyRoom(data)]. *)
Definition notifyRoom (data : value) : M value :=
  room ← lift (get_prop data "room");
  try_catch
    (privateMessage room (VStr "notifyRoom");;
     mret (VStr (to_string room ^ " WARNED")))
    (fun error => mret (error_value error)).

(** [roomIdsIncludeSocket(roomName, id)]:
    [this.rooms[roomName] && this.rooms[roomName].sockets[id]], and [false]
    when reading it throws. *)
Definition roomIdsIncludeSocket (roomName : string) (id : value) (st : Server) : value :=
  let g := rooms_at roomName st in
  if truthy g then
    match get_prop g "sockets" with
    | Ok sockets =>
        match get_prop sockets (to_string id) with
        | Ok result => result
        | Throw _ => VBool false
        end
    | Throw _ => VBool false
    end
  else g.

(** [exposeOpenRooms()]. *)
Definition exposeOpenRooms : M (list SocketView) :=
  openRooms ← gets openRooms;
  emit ToNamespace (VStr "openRoomsExposed") (Snapshot openRooms);;
  mret openRooms.

(** [exposeAvailableRooms()]. *)
Definition exposeAvailableRooms : M unit :=
  a ← gets available;
  emit ToNamespace (VStr "availableRoomsExposed") (Snapshot a).

(** [updateOccupancy(room)].  [this.rooms.length] reads the property
    [length] of the table of groups itself. *)
Definition updateOccupancy (room : string) : M value :=
  g ← gets (rooms_at room);
  if truthy (VStr room) && truthy g then
    len ← gets (rooms_at "length");
    let occupancy := js_or len (VNum 0) in
    emit ToNamespace (VStr "updatedOccupancy")
      (Json (VObj [("room", VStr room); ("occupancy", occupancy)]));;
    mret occupancy
  else mret (VNum 0).

End ServerProxy.

(* ===================================================================== *)
(** ** server.js: helpers *)
(* ===================================================================== *)

(** server.js binds no [privateMessage]: the only one is the method of
    [ServerProxy].  Evaluating the bare identifier throws. *)
Definition privateMessage (_ _ _ : value) : M unit :=
  throw (ReferenceError "privateMessage").

(** The callback of [pendingWarnings.forEach] for a Room: build the message
    from the stored warning, send, delete the entry. *)
Definition flush_warning (query : Query.t) (value : value) (key : string) : M unit :=
  warnings ← lift (get_prop value "warnings");
  warning ← lift (get_prop warnings key);
  dates ← lift (get_prop warning "dates");
  let message :=
    VObj [("visitor", VStr ""); ("exposureDates", dates); ("room", VStr key)] in
  (* S.privateMessage(query.room, 'notifyRoom', message) *)
  ServerProxy.privateMessage (of_opt (Query.room query)) (VStr "notifyRoom");;
  modify (fun st => set_pendingWarnings (JsMap.delete key (pendingWarnings st)) st).

(** The callback of [pendingWarnings.forEach] for a Visitor or an Admin. *)
Definition flush_alert (query : Query.t) (value : value) (key : string) : M unit :=
  let message :=
    VObj [("visitor", VStr key); ("exposureDates", value); ("room", VStr "")] in
  privateMessage (of_opt (Query.id query)) (VStr "exposureAlert") message;;
  modify (fun st => set_pendingWarnings (JsMap.delete key (pendingWarnings st)) st).

(** [handlePendings(query)] of server.js, on the map server.js created. *)
Definition handlePendings (query : Query.t) : M value :=
  if truthy_opt (Query.room query) then
    pending ← gets pendingWarnings;
    if negb (match Query.room query with
             | Some r => JsMap.has r pending
             | None => false
             end)
    then mret (VStr ("Nothing pending for " ^ to_string (of_opt (Query.room query))))
    else
      forEach pendingWarnings (flush_warning query);;
      mret VUndef
  else if truthy_opt (Query.visitor query) || truthy_opt (Query.admin query) then
    pending ← gets pendingWarnings;
    if Nat.eqb (JsMap.size pending) 0 ||
       negb (match Query.visitor query with
             | Some v => JsMap.has v pending
             | None => false
             end)
    then mret (VStr ("Nothing pending for " ^ to_string (of_opt (Query.visitor query))))
    else
      forEach pendingWarnings (flush_alert query);;
      mret VUndef
  else mret VUndef.

(** [onConnection(query)]. *)
Definition onConnection (query : Query.t) : M unit :=
  handlePendings query;;
  ServerProxy.exposeOpenRooms;;
  mret tt.

(* ===================================================================== *)
(** ** server.js: the connection callback and its listeners *)
(* ===================================================================== *)

(** The body of [io.on('connection', (socket) => ...)] up to the listeners.
    Nothing catches what it throws. *)
Definition io_on_connection (socket : Socket) : M unit :=
  let query := handshake_query socket in
  if truthy_opt (Query.id query) then
    when (truthy_opt (Query.room query) &&
          bool_decide (Query.state query = Some "Opened"))
      (modify (join (socket_id socket) (default "" (Query.room query)));;
       ServerProxy.exposeOpenRooms;;
       mret tt);;
    onConnection query
  else
    (* socket.disconnect(true) *)
    modify (deregister (socket_id socket)).

Definition onOpenRoom (socket : Socket) (data : RoomRef.t) (ack : bool) : M unit :=
  try_catch
    (let room := RoomRef.room data in
     let id := RoomRef.id data in
     modify (join (socket_id socket) room);;
     ServerProxy.exposeOpenRooms;;
     handlePendings (handshake_query socket);;
     assertion ← gets (ServerProxy.roomIdsIncludeSocket room id);
     ack_if ack
       (VObj [("event", VStr "onOpenRoom"); ("room", VStr room); ("result", assertion)]))
    (fun _ => mret tt).

Definition onCloseRoom (socket : Socket) (data : RoomRef.t) (ack : bool) : M unit :=
  try_catch
    (let room := RoomRef.room data in
     let id := RoomRef.id data in
     modify (leave (socket_id socket) room);;
     included ← gets (ServerProxy.roomIdsIncludeSocket room id);
     let assertion := VBool (negb (truthy included)) in
     ack_if ack
       (VObj [("event", VStr "onCloseRoom"); ("room", VStr room); ("result", assertion)]))
    (fun _ => mret tt).

Definition onEnterRoom (socket : Socket) (data : EnterRoom.t) (ack : bool) : M unit :=
  try_catch
    (let room := EnterRoom.room data in
     let name := RoomRef.room room in
     (* first, ensure the Room is open *)
     group ← gets (ServerProxy.rooms_at name);
     when (negb (truthy group))
       (ack_if ack
          (VObj [("error", VStr "Room must be open before you can enter");
                 ("on", VStr "server.onEnterRoom")]));;
     (* Enter the Room *)
     modify (join (socket_id socket) name);;
     assertion ← gets (ServerProxy.roomIdsIncludeSocket name (VStr (socket_id socket)));
     emit (ToGroup (VStr name)) (VStr "checkIn")
       (Json (VObj [("visitor", EnterRoom.visitor data);
                    ("sentTime", EnterRoom.sentTime data);
                    ("room", RoomRef.to_value room);
                    ("message", VStr "Entered");
                    ("socketId", VStr (socket_id socket))]));;
     occupants ← ServerProxy.getOccupancy name;
     if truthy occupants then
       ack_if ack
         (VObj [("event", VStr "onEnterRoom");
                ("room", RoomRef.to_value room);
                ("occupants", occupants);
                ("result", assertion);
                ("emits", VStr "checkIn")])
     else
       ack_if ack
         (VObj [("event", VStr "onEnterRoom");
                ("room", RoomRef.to_value room);
                ("result", VStr ("Could not enter Room " ^ name));
                ("emits", VStr "nothing")]))
    (fun _ => mret tt).

(** [now] is what [getNow()] reads off the clock.  No [try] around this one. *)
Definition onLeaveRoom (socket : Socket) (now : string) (data : LeaveRoom.t)
    (ack : bool) : M unit :=
  let room := LeaveRoom.room data in
  let name := RoomRef.room room in
  modify (leave (socket_id socket) name);;
  emit (ToGroup (VStr name)) (VStr "checkOut")
    (Json (VObj [("visitor", LeaveRoom.visitor data);
                 ("sentTime", LeaveRoom.sentTime data);
                 ("room", RoomRef.to_value room);
                 ("message", LeaveRoom.message data)]));;
  ServerProxy.updateOccupancy name;;
  who ← lift (get_prop (LeaveRoom.visitor data) "visitor");
  included ← gets (ServerProxy.roomIdsIncludeSocket name
                     (of_opt (Query.id (handshake_query socket))));
  let msg :=
    "Using their own socket " ^ socket_id socket ^ ", " ^ to_string who ^ " " ^
    (if truthy included then "did not make it out of" else "made it out of") ^
    " Room [" ^ name ^ " " ^ to_string (RoomRef.id room) ^ "] on " ^ now in
  ack_if ack (VStr msg).

(** [results.flat()]. *)
Definition flat (l : list value) : list value :=
  flat_map (fun r => match r with VArr items => items | _ => [r] end) l.

(** The routing test of [onExposureWarning]:
    [S.openRooms.filter((v) => v.room == roomName).length]. *)
Definition isOpen (roomName : string) (st : Server) : bool :=
  has_length (List.filter (fun v => bool_decide (v_room v = Some roomName))
                (ServerProxy.openRooms st)).

(** The callback of [Object.entries(warnings).forEach] in
    [onExposureWarning]; it returns [results] with what it pushed. *)
Definition warn_one (data : ExposureWarning.t) (results : list value)
    (warning : string * value) : M (list value) :=
  let roomName := warning.1 in
  is_open ← gets (isOpen roomName);
  if is_open : bool then
    r ← ServerProxy.notifyRoom
          (VObj [("warning", VArr [VStr warning.1; warning.2]);
                 ("visitor", ExposureWarning.visitor data)]);
    mret (results ++ [r])
  else
    modify (fun st =>
      set_pendingWarnings
        (JsMap.set roomName (ExposureWarning.to_value data) (pendingWarnings st)) st);;
    mret (results ++ [VStr (roomName ^ " PENDING")]).

Fixpoint warn_each (data : ExposureWarning.t) (results : list value)
    (entries : list (string * value)) : M (list value) :=
  match entries with
  | [] => mret results
  | warning :: rest =>
      results' ← warn_one data results warning;
      warn_each data results' rest
  end.

Definition onExposureWarning (data : ExposureWarning.t) (ack : bool) : M unit :=
  try_catch
    ((* the log line reads visitor.visitor *)
     lift (get_prop (ExposureWarning.visitor data) "visitor");;
     results ← warn_each data [] (ExposureWarning.warnings data);
     ack_if ack
       (VObj [("event", VStr "onExposureWarning");
              ("result", VArr (flat results));
              ("emit", VStr "notifyRoom")]))
    (fun _ => mret tt).

(** [new error(text)], [error] being the cli-color formatter [clc.red.bold]:
    an object without fields of its own. *)
Definition new_error (text : string) : value := VObj [].

(** [S.alertVisitor(data)]: class [ServerProxy] has no method of that name,
    so the call throws. *)
Definition S_alertVisitor (data : value) : M value :=
  throw (TypeError "S.alertVisitor is not a function").

Definition onAlertVisitor (data : AlertVisitor.t) (ack : bool) : M unit :=
  try_catch
    (let message := AlertVisitor.message data in
     let visitor := AlertVisitor.visitor data in
     if negb (truthy message) || negb (truthy_opt visitor) then
       ack_if ack
         (new_error (if truthy message then "Missing visitor identity"
                     else "No message to process"))
       (* return *)
     else
       vs ← gets ServerProxy.visitors;
       if has_length (List.filter (fun v => bool_decide (v_visitor v = visitor)) vs)
       then
         result ← S_alertVisitor (AlertVisitor.to_value data);
         ack_if ack result
       else
         (* cache the Visitor warning *)
         modify (fun st =>
           set_pendingWarnings
             (JsMap.set (default "" visitor) (AlertVisitor.to_value data)
                (pendingWarnings st)) st)
         (* return `Server: ${visitor} unavailable. DEFERRED ALERT.` *))
    (fun _ => mret tt).

(* ===================================================================== *)
(** ** Runs of the server *)
(* ===================================================================== *)

(** The read-only events for Room managers, and [pingServer]. *)
Inductive AdminQuery : Type :=
| ExposeAllSockets
| ExposeOpenRooms
| ExposePendingWarnings
| ExposeAvailableRooms
| ExposeVisitorsRooms
| PingServer (data : value).

Definition onAdmin (q : AdminQuery) (ack : bool) : M unit :=
  match q with
  | ExposeAllSockets =>
      l ← gets ServerProxy.sockets; ack_body ack (Snapshot l)
  | ExposeOpenRooms =>
      if ack then l ← ServerProxy.exposeOpenRooms; ack_body ack (Snapshot l)
      else mret tt
  | ExposePendingWarnings =>
      m ← gets pendingWarnings; ack_body ack (Entries m)
  | ExposeAvailableRooms =>
      l ← gets ServerProxy.available; ack_body ack (Snapshot l)
  | ExposeVisitorsRooms =>
      l ← gets ServerProxy.visitors; ack_body ack (Snapshot l)
  | PingServer data =>
      ack_if ack (VStr ("Server is at your disposal, " ^ to_string data))
  end.

(** What can happen to the server: the transport connects or disconnects a
    socket, a client sends one of the protocol events on its socket, or a
    method of [ServerProxy] that touches the cache of radar.js is called. *)
Inductive Event : Type :=
| Connect (socket : Socket)
| Disconnect (sid : string)
| OpenRoom (socket : Socket) (data : RoomRef.t) (ack : bool)
| CloseRoom (socket : Socket) (data : RoomRef.t) (ack : bool)
| EnterRoomEv (socket : Socket) (data : EnterRoom.t) (ack : bool)
| LeaveRoomEv (socket : Socket) (now : string) (data : LeaveRoom.t) (ack : bool)
| ExposureWarningEv (data : ExposureWarning.t) (ack : bool)
| AlertVisitorEv (data : AlertVisitor.t) (ack : bool)
| Admin (q : AdminQuery) (ack : bool)
| DisconnectAll
| CallSendOrPend (data : SendOrPend.t)
| CallHandlePendings (query : Query.t).

Definition handle (ev : Event) : M unit :=
  match ev with
  | Connect socket => modify (register socket);; io_on_connection socket
  | Disconnect sid => modify (deregister sid)
  | OpenRoom socket data ack => onOpenRoom socket data ack
  | CloseRoom socket data ack => onCloseRoom socket data ack
  | EnterRoomEv socket data ack => onEnterRoom socket data ack
  | LeaveRoomEv socket now data ack => onLeaveRoom socket now data ack
  | ExposureWarningEv data ack => onExposureWarning data ack
  | AlertVisitorEv data ack => onAlertVisitor data ack
  | Admin q ack => onAdmin q ack
  | DisconnectAll => modify (set_sockets [])
  | CallSendOrPend data => ServerProxy.sendOrPend data;; mret tt
  | CallHandlePendings query => ServerProxy.handlePendings query;; mret tt
  end.

(** The state an event leaves behind: the state when its handler returns or,
    when the handler throws, the state at the throw.  What escapes a handler
    reaches the listener server.js registers for 'uncaughtException', which
    logs it and exits the process. *)
Definition step (st : Server) (ev : Event) : Server := run (handle ev) st.

Definition run_events (evs : list Event) (st : Server) : Server :=
  fold_left step evs st.


(* ===================================================================== *)
(** ** Vocabulary of the properties *)
(* ===================================================================== *)

(** Number of entries stored under [k]. *)
Definition count_key (k : string) (m : JsMap.t) : nat :=
  length (List.filter (fun e => String.eqb k e.1) m).

(** [m] keeps the property [P] of the state, whether it returns or throws. *)
Definition preserves (P : Server -> Prop) {A} (m : M A) : Prop :=
  ∀ st, P st -> P (m st).2.


(** The claim as the specification words it: [r] is open exactly when a
    connection with Room identity [r] is live and its id is a member of group
    [r]. *)
Definition isOpen_spec (r : string) (st : Server) : Prop :=
  ∃ s, s ∈ sockets st ∧ Query.room (handshake_query s) = Some r ∧
       socket_id s ∈ members r st.

(** The claim as the specification words it: the member count of the group,
    less one when the room's own connection is among the members, and 0 when
    the room is not open. *)
Definition occupancy_spec (r : string) (st : Server) : Z :=
  if isOpen r st then
    Z.of_nat (length (members r st)) -
    (if existsb (fun s => bool_decide (Query.room (handshake_query s) = Some r) &&
                          bool_decide (socket_id s ∈ members r st)) (sockets st)
     then 1 else 0)
  else 0.

(** [value.warnings[key].dates], what [flush_warning] reads before it sends. *)
Definition exposureDates_of (key : string) (v : value) : outcome value :=
  match get_prop v "warnings" with
  | Ok warnings =>
      match get_prop warnings key with
      | Ok warning => get_prop warning "dates"
      | Throw e => Throw e
      end
  | Throw e => Throw e
  end.

Definition is_ok {A} (o : outcome A) : Prop :=
  match o with Ok _ => True | Throw _ => False end.

(** An entry [flush_warning] can read. *)
Definition readable (e : string * value) : Prop := is_ok (exposureDates_of e.1 e.2).

(** An entry whose value is an object, a string, a number or a boolean. *)
Definition defined_value (e : string * value) : Prop := is_ok (get_prop e.2 "room").

Definition room_of (v : value) : value :=
  match get_prop v "room" with Ok r => r | Throw _ => VUndef end.

(** The claim as the specification words it: a drain for the key of [query]
    leaves what is stored under every other key as it was. *)
Definition drain_frame_spec (query : Query.t) (st : Server) : Prop :=
  ∀ k', Query.room query ≠ Some k' ->
    JsMap.get k' (pendingWarnings (run (handlePendings query) st)) =
    JsMap.get k' (pendingWarnings st).

(** What [notifyRoom] sends for a room that is open: an event without a name,
    addressed to no group, whose body is the string 'notifyRoom'. *)
Definition misaddressed : Emission :=
  {| dest := ToGroup VUndef; event := VUndef; body := Json (VStr "notifyRoom") |}.

(** The events of the log named [name] that are addressed to group [g]. *)
Definition delivered (name g : string) (st : Server) : list Emission :=
  List.filter (fun e =>
      match event e, dest e with
      | VStr ev, ToGroup (VStr to) => String.eqb ev name && String.eqb to g
      | _, _ => false
      end) (emitted st).

(* ===================================================================== *)
(** ** Concrete connections and payloads *)
(* ===================================================================== *)

Module Scenario.

(** The Room "Cafe1", connected under the id R1. *)
Definition cafe : Socket :=
  mkSocket "R1" (Query.mk (Some "R1") (Some "Cafe1") None None None None).

(** The same Room reconnecting while its client is in state 'Opened'. *)
Definition cafe_opened : Socket :=
  mkSocket "R1" (Query.mk (Some "R1") (Some "Cafe1") None None (Some "Opened") None).

Definition ann : Socket :=
  mkSocket "V1" (Query.mk (Some "V1") None (Some "Ann") None None None).

Definition bob : Socket :=
  mkSocket "V2" (Query.mk (Some "V2") None (Some "Bob") None None None).

(** A socket whose handshake query carries no id. *)
Definition odd : Socket :=
  mkSocket "x7" (Query.mk None (Some "Cafe1") None None (Some "Opened") None).

Definition cafe_ref : RoomRef.t := RoomRef.mk "Cafe1" (VStr "R1").

Definition ann_enters : EnterRoom.t :=
  EnterRoom.mk cafe_ref (VStr "Ann") (VStr "2021-01-01T10:00").

(** [exposureWarning({visitor: "Bob", warnings: {"Cafe1": ["2021-01-01"]}})]. *)
Definition bob_warns : ExposureWarning.t :=
  ExposureWarning.mk (VStr "Bob") [("Cafe1", VArr [VStr "2021-01-01"])].

Definition bob_warns_two : ExposureWarning.t :=
  ExposureWarning.mk (VStr "Bob")
    [("Cafe1", VArr [VStr "2021-01-01"]); ("Cafe2", VArr [VStr "2021-01-02"])].

Definition alert1 : AlertVisitor.t :=
  AlertVisitor.mk (VStr "exposed on 2021-01-01") (Some "Bob") (VStr "R1").

Definition alert2 : AlertVisitor.t :=
  AlertVisitor.mk (VStr "exposed on 2021-01-05") (Some "Bob") (VStr "R1").

(** Two alerts for Bob while Bob is offline. *)
Definition two_alerts : Server :=
  step (step initial (AlertVisitorEv alert1 true)) (AlertVisitorEv alert2 true).

(** Cafe1 opened, Ann entered, and Cafe1 closed while Ann was still inside. *)
Definition ann_left_behind : Server :=
  run_events [Connect cafe; OpenRoom cafe cafe_ref true;
              Connect ann; EnterRoomEv ann ann_enters true;
              CloseRoom cafe cafe_ref true] initial.

(** Cafe1 opened, then Ann entered. *)
Definition ann_in_open_cafe : Server :=
  run_events [Connect cafe; OpenRoom cafe cafe_ref true;
              Connect ann; EnterRoomEv ann ann_enters true] initial.

(** Cafe1 connected and opened, Bob connected. *)
Definition cafe_open : Server :=
  run_events [Connect cafe; OpenRoom cafe cafe_ref true; Connect bob] initial.

(** Cafe1 connected but not opened, Ann connected. *)
Definition ann_at_closed_cafe : Server :=
  run_events [Connect cafe; Connect ann] initial.

(** Cafe1 connected but not opened, Bob connected. *)
Definition cafe_closed : Server :=
  run_events [Connect cafe; Connect bob] initial.

(** Bob warned Cafe1 and Cafe2 while neither was open. *)
Definition two_pending : Server :=
  run_events [Connect cafe; Connect bob; ExposureWarningEv bob_warns_two true] initial.

Definition notify (room : string) : SendOrPend.t :=
  SendOrPend.mk "notifyRoom" (VStr "exposure") (VStr "Bob") "V2" room
    (VArr [VStr "2021-01-01"]).

(** The same through [sendOrPend], on the cache of radar.js. *)
Definition two_pending_radar : Server :=
  run_events [CallSendOrPend (notify "Cafe1"); CallSendOrPend (notify "Cafe2")] initial.

(** An Admin connection. *)
Definition admin : Socket :=
  mkSocket "A1" (Query.mk (Some "A1") None None (Some "manager") None None).

(** A warning for Cafe2, then an alert for Bob, then a warning for Cafe1, all
    pending: the cache holds, in this order, entries under Cafe2, Bob and
    Cafe1. *)
Definition bob_warns_cafe2 : ExposureWarning.t :=
  ExposureWarning.mk (VStr "Bob") [("Cafe2", VArr [VStr "2021-01-02"])].

Definition mixed_pending : Server :=
  run_events [Connect cafe;
              ExposureWarningEv bob_warns_cafe2 true;
              AlertVisitorEv alert1 true;
              ExposureWarningEv bob_warns true] initial.

(** Ann leaves Cafe1. *)
Definition ann_leaves : LeaveRoom.t :=
  LeaveRoom.mk cafe_ref (VObj [("visitor", VStr "Ann")]) (VStr "10:30") (VStr "Left").

(** The same event without its visitor. *)
Definition ann_leaves_anonymous : LeaveRoom.t :=
  LeaveRoom.mk cafe_ref VUndef (VStr "10:30") (VStr "Left").

(** An exposure warning that names no visitor. *)
Definition anonymous_warning : ExposureWarning.t :=
  ExposureWarning.mk VUndef [("Cafe1", VArr [VStr "2021-01-01"])].

(** An alert that names no visitor. *)
Definition alert_nobody : AlertVisitor.t :=
  AlertVisitor.mk (VStr "exposed on 2021-01-01") None (VStr "R1").

(** A Room that goes by the name 'constructor', connected and not opened. *)
Definition constructor_room : Socket :=
  mkSocket "R9" (Query.mk (Some "R9") (Some "constructor") None None None None).

Definition constructor_connected : Server :=
  run_events [Connect constructor_room] initial.

(** Ann leaves a room called 'constructor', which nobody ever joined. *)
Definition ann_leaves_constructor : LeaveRoom.t :=
  LeaveRoom.mk (RoomRef.mk "constructor" (VStr "R9"))
    (VObj [("visitor", VStr "Ann")]) (VStr "10:30") (VStr "Left").

(** Ann connected and entered Cafe1 while no Room was connected at all. *)
Definition ann_alone : Server :=
  run_events [Connect ann; EnterRoomEv ann ann_enters true] initial.

(** An alert for Bob (socket V2) through [sendOrPend], naming a room. *)
Definition alert_bob (room : string) : SendOrPend.t :=
  SendOrPend.mk "exposureAlert" (VStr "exposure") (VStr "Bob") "V2" room
    (VArr [VStr "2021-01-01"]).

End Scenario.

(* ===================================================================== *)
(** ** Vocabulary of the further properties *)
(* ===================================================================== *)

(** The events server.js handles, as opposed to direct calls of the methods
    of [ServerProxy] that work on the cache of radar.js. *)
Definition is_server_event (ev : Event) : bool :=
  match ev with
  | CallSendOrPend _ | CallHandlePendings _ => false
  | _ => true
  end.

(** The result [onExposureWarning] pushes for one room of the warnings map,
    the rooms being open or not as they are in [st]. *)
Definition warn_result (st : Server) (e : string * value) : value :=
  VStr (if isOpen e.1 st then "undefined WARNED" else e.1 ^ " PENDING").

(** What one turn of the loop of [onExposureWarning] does to the state [s],
    the rooms being open or not as they are in [st0]. *)
Definition warn_effect (data : ExposureWarning.t) (st0 s : Server)
    (e : string * value) : Server :=
  if isOpen e.1 st0 then push_emitted misaddressed s
  else set_pendingWarnings
         (JsMap.set e.1 (ExposureWarning.to_value data) (pendingWarnings s)) s.

(** The object [sendOrPend] sends or stores for a [notifyRoom] event. *)
Definition notify_payload (d : SendOrPend.t) : value :=
  VObj [("room", VStr (SendOrPend.room d));
        ("reason", SendOrPend.reason d);
        ("exposureDates", SendOrPend.exposureDates d);
        ("visitor", SendOrPend.visitor d)].

(** The same fields in the order in which the stored object lists them. *)
Definition notify_stored (d : SendOrPend.t) : value :=
  VObj [("room", VStr (SendOrPend.room d));
        ("reason", SendOrPend.reason d);
        ("visitor", SendOrPend.visitor d);
        ("exposureDates", SendOrPend.exposureDates d)].

(** What a drain of the cache of radar.js sends for one entry. *)
Definition flushed (event : string) (e : string * value) : Emission :=
  {| dest := ToGroup (room_of e.2); event := VStr event; body := Json e.2 |}.

(** A live connection with socket id [id] that presents a Visitor identity. *)
Definition visitor_id_online (id : string) (st : Server) : Prop :=
  ∃ s, s ∈ sockets st ∧ socket_id s = id ∧
       truthy_opt (Query.visitor (handshake_query s)) = true.

(* ===================================================================== *)
(** ** radar.js: [logResults] *)
(* ===================================================================== *)

(** A parameter with a default value, [(p = d) => ...]: the default stands in
    for [undefined]. *)
Definition or_default (p d : value) : value :=
  match p with VUndef => d | _ => p end.

Module LogResults.

(** What [new entry(message)] builds. *)
Record Entry : Type := mkEntry {
  time : string;
  message : value;
  level : value;
  type : value
}.

Inductive Console : Type :=
| GroupCollapsed (title : value)
| Group (title : value)
| Table (rows : list Entry)
| GroupEnd.

(** The variables the closure keeps, the [collapsed] property the methods
    set on the object they are called on, and what went to the console. *)
Record t : Type := mk {
  logResults : list Entry;
  title : value;
  collapsed : bool;            (* the closure's variable; nothing reads it *)
  this_collapsed : value;      (* this.collapsed *)
  console : list Console
}.

Definition init : t :=
  {| logResults := []; title := VStr "Log Results"; collapsed := true;
     this_collapsed := VUndef; console := [] |}.

(** [entry(message)], called with [new]; [now] is what the clock reads. *)
Definition entry (now : string) (message : value) : outcome Entry :=
  match get_prop message "text" with
  | Throw e => Throw e
  | Ok text =>
      match get_prop message "level", get_prop message "type" with
      | Ok l, Ok ty =>
          Ok {| time := now; message := text;
                level := js_or l (VNum 0); type := js_or ty (VStr "output") |}
      | Throw e, _ => Throw e
      | _, Throw e => Throw e
      end
  end.

Definition hasData (s : t) : nat := length (logResults s).

Definition entitle (caption collapsed : value) (s : t) : t :=
  let collapsed := or_default collapsed (VBool true) in
  {| logResults := logResults s;
     title := if Nat.eqb (hasData s) 0 then caption else title s;
     collapsed := LogResults.collapsed s;
     this_collapsed := collapsed;
     console := console s |}.

Definition add (now : string) (e : value) (s : t) : outcome unit * t :=
  match entry now e with
  | Throw err => (Throw err, s)
  | Ok en =>
      (Ok tt,
       {| logResults := logResults s ++ [en]; title := title s;
          collapsed := collapsed s; this_collapsed := this_collapsed s;
          console := console s |})
  end.

Definition clear (s : t) : t :=
  {| logResults := []; title := title s; collapsed := collapsed s;
     this_collapsed := this_collapsed s; console := console s |}.

Definition show (clear : value) (s : t) : t :=
  let clear := or_default clear (VBool true) in
  {| logResults := if truthy clear then [] else logResults s;
     title := title s;
     collapsed := collapsed s;
     this_collapsed := this_collapsed s;
     console :=
       console s ++
       [if truthy (this_collapsed s) then GroupCollapsed (title s) else Group (title s);
        Table (logResults s);
        GroupEnd] |}.

(** [add] for each message in turn; the state as the last one left it. *)
Definition add_all (now : string) (es : list value) (s : t) : t :=
  fold_left (fun s e => (add now e s).2) es s.

End LogResults.

(* ===================================================================== *)
(** ** The earlier server (express and socket.io on port 3000) *)
(* ===================================================================== *)

(** The single-file server that came before server.js and radar.js.  It keeps
    three maps and the list of connections; of [io] it uses the groups and
    what is emitted, and every handler calls the callback [cb] it is given
    without testing it. *)
Module Early.

(** The payload of the events, with the fields the handlers read. *)
Record Data : Type := mkData {
  visitor : string;
  room : string;
  sentTime : value;
  message : value
}.

Record State : Type := mkState {
  roomMap : JsMap.t;          (* socket id -> room *)
  visitorMap : JsMap.t;       (* socket id -> visitor *)
  alertMap : JsMap.t;         (* visitor -> array of {room, date} *)
  connections : list string;
  io : Server                 (* groups, what was emitted, callbacks called *)
}.

Definition init : State :=
  {| roomMap := []; visitorMap := []; alertMap := []; connections := [];
     io := initial |}.

Definition set_roomMap (m : JsMap.t) (st : State) : State :=
  {| roomMap := m; visitorMap := visitorMap st; alertMap := alertMap st;
     connections := connections st; io := io st |}.

Definition set_visitorMap (m : JsMap.t) (st : State) : State :=
  {| roomMap := roomMap st; visitorMap := m; alertMap := alertMap st;
     connections := connections st; io := io st |}.

Definition set_alertMap (m : JsMap.t) (st : State) : State :=
  {| roomMap := roomMap st; visitorMap := visitorMap st; alertMap := m;
     connections := connections st; io := io st |}.

Definition set_io (s : Server) (st : State) : State :=
  {| roomMap := roomMap st; visitorMap := visitorMap st; alertMap := alertMap st;
     connections := connections st; io := s |}.

(** [{room: data.room, date: data.sentTime}]. *)
Definition visit (data : Data) : value :=
  VObj [("room", VStr (room data)); ("date", sentTime data)].

(** [updateAlertMap(data)]. *)
Definition updateAlertMap (data : Data) (st : State) : outcome unit * State :=
  let st1 :=
    if negb (JsMap.has (visitor data) (alertMap st))
    then set_alertMap (JsMap.set (visitor data) (VArr []) (alertMap st)) st
    else st in
  match JsMap.get (visitor data) (alertMap st1) with
  | Some (VArr items) =>
      (Ok tt,
       set_alertMap (JsMap.set (visitor data) (VArr (items ++ [visit data]))
                       (alertMap st1)) st1)
  | Some _ => (Throw (TypeError "alertMap.get(...).push is not a function"), st1)
  | None => (Throw (TypeError "Cannot read property 'push' of undefined"), st1)
  end.

(** [cb(v)]: a client that passed no callback makes the call throw. *)
Definition call_cb (has_cb : bool) (v : value) (st : State) : outcome unit * State :=
  if has_cb then (Ok tt, set_io (push_acked (Json v) (io st)) st)
  else (Throw (TypeError "cb is not a function"), st).

Definition emit_to (g : string) (ev : string) (v : value) (st : State) : State :=
  set_io (push_emitted {| dest := ToGroup (VStr g); event := VStr ev; body := Json v |}
            (io st)) st.

(** [io.on('connection', ...)], up to the listeners. *)
Definition onConnection (sid : string) (st : State) : State :=
  {| roomMap := roomMap st; visitorMap := visitorMap st; alertMap := alertMap st;
     connections := connections st ++ [sid]; io := io st |}.

(** [socket.on('enterRoom', ...)]. *)
Definition enterRoom (sid : string) (data : Data) (has_cb : bool) (st : State)
    : outcome unit * State :=
  match call_cb has_cb (VObj [("socketId", VStr sid)]) st with
  | (Throw e, st') => (Throw e, st')
  | (Ok _, st1) =>
      let st2 := set_visitorMap (JsMap.set sid (VStr (visitor data)) (visitorMap st1)) st1 in
      let st3 := set_io (join sid (room data) (io st2)) st2 in
      match updateAlertMap data st3 with
      | (Throw e, st') => (Throw e, st')
      | (Ok _, st4) =>
          (Ok tt,
           emit_to (room data) "check-in"
             (VObj [("visitor", VStr (visitor data));
                    ("sentTime", sentTime data);
                    ("socketId", VStr sid)]) st4)
      end
  end.

(** [alertVisitor(value, key)], the callback of [visitorMap.forEach]. *)
Definition alertVisitor (st : State) (e : string * value) : State :=
  emit_to e.1 "exposureAlert" (VStr (to_string e.2 ^ ", you may have been exposed.")) st.

(** [socket.on('alertRooms', ...)]. *)
Definition alertRooms (sid : string) (data : Data) (has_cb : bool) (st : State)
    : outcome unit * State :=
  match call_cb has_cb
          (VObj [("msg", VStr "Notifying all rooms you occupied in last 14 days");
                 ("socketId", VStr sid)]) st with
  | (Throw e, st') => (Throw e, st')
  | (Ok _, st1) =>
      let st2 := set_io (join sid (room data) (io st1)) st1 in
      let st3 := emit_to (room data) "exposureAlert"
                   (VObj [("room", VStr (room data));
                          ("message", message data);
                          ("sentTime", sentTime data);
                          ("socketId", VStr sid)]) st2 in
      (Ok tt, fold_left alertVisitor (visitorMap st3) st3)
  end.

(** [socket.on('open', ...)]. *)
Definition open_room (sid : string) (data : Data) (has_cb : bool) (st : State)
    : outcome unit * State :=
  match call_cb has_cb
          (VObj [("msg", VStr ("Keep your people safe today, " ^ room data));
                 ("socketId", VStr sid)]) st with
  | (Throw e, st') => (Throw e, st')
  | (Ok _, st1) =>
      let st2 := set_roomMap (JsMap.set sid (VStr (room data)) (roomMap st1)) st1 in
      (Ok tt, set_io (join sid (room data) (io st2)) st2)
  end.

(** [socket.on('close', ...)]. *)
Definition close_room (sid : string) (data : Data) (has_cb : bool) (st : State)
    : outcome unit * State :=
  match call_cb has_cb
          (VObj [("msg", VStr ("Well done, " ^ room data)); ("socketId", VStr sid)]) st with
  | (Throw e, st') => (Throw e, st')
  | (Ok _, st1) =>
      let st2 := set_io (leave sid (room data) (io st1)) st1 in
      (Ok tt,
       if JsMap.has sid (roomMap st2)
       then set_roomMap (JsMap.delete sid (roomMap st2)) st2
       else st2)
  end.

(** [socket.on('leaveRoom', ...)]. *)
Definition leaveRoom (sid : string) (data : Data) (has_cb : bool) (st : State)
    : outcome unit * State :=
  match call_cb has_cb
          (VObj [("roomId", VStr (room data));
                 ("visitor", VStr (visitor data));
                 ("socketId", VStr sid)]) st with
  | (Throw e, st') => (Throw e, st')
  | (Ok _, st1) =>
      let st2 := emit_to (room data) "check-out"
                   (VObj [("visitor", VStr (visitor data));
                          ("sentTime", sentTime data);
                          ("socketId", VStr sid)]) st1 in
      (Ok tt, set_io (leave sid (room data) (io st2)) st2)
  end.

(** [socket.on('removeRoom', ...)]. *)
Definition removeRoom (sid : string) (st : State) : State :=
  let st1 := set_roomMap (JsMap.delete sid (roomMap st)) st in
  set_io (deregister sid (io st1)) st1.

(** [socket.on('removeVisitor', ...)]. *)
Definition removeVisitor (sid : string) (st : State) : State :=
  let st1 := set_visitorMap (JsMap.delete sid (visitorMap st)) st in
  set_io (deregister sid (io st1)) st1.

(** The visits recorded for a visitor. *)
Definition history (v : string) (st : State) : list value :=
  match JsMap.get v (alertMap st) with
  | Some (VArr items) => items
  | _ => []
  end.

(** Every value of [alertMap] is an array. *)
Definition arrays_only (m : JsMap.t) : Prop :=
  Forall (fun e => ∃ items, e.2 = VArr items) m.

(** [enterRoom] events one after the other, each with a callback; the state
    as the last one left it. *)
Definition enter_all (es : list (string * Data)) (st : State) : State :=
  fold_left (fun s e => (enterRoom e.1 e.2 true s).2) es st.

(** What [alertRooms] sends to one socket of [visitorMap]. *)
Definition personal_alert (e : string * value) : Emission :=
  {| dest := ToGroup (VStr e.1); event := VStr "exposureAlert";
     body := Json (VStr (to_string e.2 ^ ", you may have been exposed.")) |}.

(** The state after Ann (socket V1) and Bob (socket V2) entered Cafe1. *)
Definition two_visitors : State :=
  enter_all
    [("V1", mkData "Ann" "Cafe1" (VStr "Mon") VUndef);
     ("V2", mkData "Bob" "Cafe1" (VStr "Mon") VUndef)] init.

End Early.

(* ===================================================================== *)
(** ** Facts about the [Map] operations *)
(* ===================================================================== *)

Lemma eqb_refl_true (k : string) : String.eqb k k = true.
Proof. apply String.eqb_refl. Qed.

Lemma get_set_eq k v m : JsMap.get k (JsMap.set k v m) = Some v.
Proof.
  induction m as [|[k' v'] m IH]; simpl.
  - by rewrite eqb_refl_true.
  - destruct (String.eqb k k') eqn:E; simpl; rewrite E; [done | exact IH].
Qed.

Lemma get_set_ne k k' v m : k ≠ k' -> JsMap.get k' (JsMap.set k v m) = JsMap.get k' m.
Proof.
  intros Hne. induction m as [|[k0 v0] m IH]; simpl.
  - destruct (String.eqb k' k) eqn:E; [|done].
    apply String.eqb_eq in E. congruence.
  - destruct (String.eqb k k0) eqn:E; simpl.
    + apply String.eqb_eq in E. subst k0.
      destruct (String.eqb k' k) eqn:E'; [|done].
      apply String.eqb_eq in E'. congruence.
    + by rewrite IH.
Qed.







Lemma count_key_not_in k m : k ∉ JsMap.keys m -> count_key k m = 0.
Proof.
  unfold count_key. induction m as [|[k' v'] m IH]; simpl; [done|].
  intros Hnotin. apply not_elem_of_cons in Hnotin as [Hne Hnotin].
  destruct (String.eqb k k') eqn:E.
  - apply String.eqb_eq in E. congruence.
  - by apply IH.
Qed.


(* ===================================================================== *)
(** ** Properties every handler preserves *)
(* ===================================================================== *)

(** A property of the state that the log, the registry and the groups do not
    affect, and that [set] and [delete] on either cache keep, is kept by every
    event, whether the handler returns or throws. *)
Section Preservation.

Variable P : Server -> Prop.

Lemma preserves_ret {A} (a : A) : preserves P (mret a).
Proof. intros st H. exact H. Qed.

Lemma preserves_throw {A} e : preserves P (throw e : M A).
Proof. intros st H. exact H. Qed.

Lemma preserves_lift {A} (o : outcome A) : preserves P (lift o).
Proof. intros st H. exact H. Qed.

Lemma preserves_gets {A} (f : Server -> A) : preserves P (gets f).
Proof. intros st H. exact H. Qed.

Lemma preserves_modify f : (∀ st, P st -> P (f st)) -> preserves P (modify f).
Proof. intros Hf st H. by apply Hf. Qed.

Lemma preserves_bind {A B} (m : M A) (f : A -> M B) :
  preserves P m -> (∀ a, preserves P (f a)) -> preserves P (m ≫= f).
Proof.
  intros Hm Hf st H. specialize (Hm st H).
  unfold mbind, M_bind, bind. destruct (m st) as [[a|e] st']; simpl in *.
  - by apply Hf.
  - exact Hm.
Qed.

Lemma preserves_try_catch {A} (m : M A) h :
  preserves P m -> (∀ e, preserves P (h e)) -> preserves P (try_catch m h).
Proof.
  intros Hm Hh st H. specialize (Hm st H).
  unfold try_catch. destruct (m st) as [[a|e] st']; simpl in *.
  - exact Hm.
  - by apply Hh.
Qed.

Lemma preserves_when b m : preserves P m -> preserves P (when b m).
Proof. intros Hm. destruct b; [exact Hm | apply preserves_ret]. Qed.

Lemma preserves_forEach_from sel f entries :
  (∀ v k, preserves P (f v k)) -> preserves P (forEach_from sel f entries).
Proof.
  intros Hf. induction entries as [|[k v0] rest IH]; simpl.
  - apply preserves_ret.
  - apply preserves_bind; [apply preserves_gets|]. intros cur.
    apply preserves_bind; [|intros _; exact IH].
    destruct (JsMap.get k cur); [apply Hf | apply preserves_ret].
Qed.

Lemma preserves_forEach sel f : (∀ v k, preserves P (f v k)) -> preserves P (forEach sel f).
Proof.
  intros Hf. apply preserves_bind; [apply preserves_gets|].
  intros entries. by apply preserves_forEach_from.
Qed.

Hypothesis P_sockets : ∀ l st, P st -> P (set_sockets l st).
Hypothesis P_rooms : ∀ r st, P st -> P (set_rooms r st).
Hypothesis P_emitted : ∀ e st, P st -> P (push_emitted e st).
Hypothesis P_acked : ∀ b st, P st -> P (push_acked b st).
Hypothesis P_set : ∀ k v st,
  P st -> P (set_pendingWarnings (JsMap.set k v (pendingWarnings st)) st).
Hypothesis P_delete : ∀ k st,
  P st -> P (set_pendingWarnings (JsMap.delete k (pendingWarnings st)) st).
Hypothesis P_radar_set : ∀ k v st,
  P st -> P (set_radarPending (JsMap.set k v (radarPending st)) st).
Hypothesis P_radar_delete : ∀ k st,
  P st -> P (set_radarPending (JsMap.delete k (radarPending st)) st).

Lemma P_join sid g st : P st -> P (join sid g st).
Proof. intros H. unfold join. case_bool_decide; [done | by apply P_rooms]. Qed.

Lemma P_leave sid g st : P st -> P (leave sid g st).
Proof.
  intros H. unfold leave. destruct (rooms st !! g); [|done].
  destruct (List.filter _ l); by apply P_rooms.
Qed.

Lemma preserves_emit d ev b : preserves P (emit d ev b).
Proof. apply preserves_modify. intros st. apply P_emitted. Qed.

Lemma preserves_ack_body b v : preserves P (ack_body b v).
Proof. apply preserves_when, preserves_modify. intros st. apply P_acked. Qed.

Lemma preserves_ack_if b v : preserves P (ack_if b v).
Proof. apply preserves_ack_body. Qed.

(** [known] closes the calls of functions already dealt with. *)
Ltac preserve_by known :=
  repeat first
    [ known
    | apply preserves_ret | apply preserves_throw | apply preserves_lift
    | apply preserves_gets | apply preserves_emit | apply preserves_ack_if
    | apply preserves_ack_body
    | apply preserves_modify; intros ?; solve
        [ apply P_join | apply P_leave | apply P_sockets | apply P_set
        | apply P_delete | apply P_radar_set | apply P_radar_delete ]
    | apply preserves_when
    | apply preserves_try_catch; [|intros ?]
    | apply preserves_forEach; intros ? ?
    | apply preserves_bind; [|intros ?]
    | match goal with
      | |- preserves _ (if ?b then _ else _) => destruct b
      | |- preserves _ (match ?x with _ => _ end) => destruct x
      end ].

Ltac preserve := preserve_by fail.

Lemma preserves_privateMessage event message :
  preserves P (ServerProxy.privateMessage event message).
Proof. unfold ServerProxy.privateMessage. preserve. Qed.

Lemma preserves_exposeOpenRooms : preserves P ServerProxy.exposeOpenRooms.
Proof. unfold ServerProxy.exposeOpenRooms. preserve. Qed.

Lemma preserves_notifyRoom data : preserves P (ServerProxy.notifyRoom data).
Proof.
  unfold ServerProxy.notifyRoom.
  preserve_by ltac:(apply preserves_privateMessage).
Qed.

Lemma preserves_sendOrPend d : preserves P (ServerProxy.sendOrPend d).
Proof.
  unfold ServerProxy.sendOrPend; cbv zeta.
  preserve_by ltac:(apply preserves_privateMessage).
Qed.

Lemma preserves_radar_handlePendings query :
  preserves P (ServerProxy.handlePendings query).
Proof.
  unfold ServerProxy.handlePendings, ServerProxy.flush; cbv zeta.
  preserve_by ltac:(apply preserves_privateMessage).
Qed.

Lemma preserves_updateOccupancy room : preserves P (ServerProxy.updateOccupancy room).
Proof. unfold ServerProxy.updateOccupancy; cbv zeta. preserve. Qed.

Lemma preserves_getOccupancy room : preserves P (ServerProxy.getOccupancy room).
Proof. unfold ServerProxy.getOccupancy. preserve. Qed.

Lemma preserves_handlePendings query : preserves P (handlePendings query).
Proof.
  unfold handlePendings, flush_warning, flush_alert, privateMessage; cbv zeta.
  preserve_by ltac:(apply preserves_privateMessage).
Qed.

Lemma preserves_onConnection query : preserves P (onConnection query).
Proof.
  unfold onConnection.
  preserve_by ltac:(first [apply preserves_handlePendings
                          | apply preserves_exposeOpenRooms]).
Qed.

Lemma preserves_io_on_connection socket : preserves P (io_on_connection socket).
Proof.
  unfold io_on_connection; cbv zeta.
  preserve_by ltac:(first [apply preserves_onConnection
                          | apply preserves_exposeOpenRooms]).
Qed.

Lemma preserves_warn_each data entries :
  ∀ results, preserves P (warn_each data results entries).
Proof.
  induction entries as [|w rest IH]; intros results; simpl.
  - apply preserves_ret.
  - apply preserves_bind; [|intros r; apply IH].
    unfold warn_one; cbv zeta.
    preserve_by ltac:(apply preserves_notifyRoom).
Qed.


Hypothesis P_initial : P initial.


End Preservation.

(* ===================================================================== *)
(** ** The cache holds one entry per key *)
(* ===================================================================== *)


(* ===================================================================== *)
(** ** Connections without an id *)
(* ===================================================================== *)

Lemma not_in_deregister sid st :
  sid ∉ map socket_id (sockets (deregister sid st)).
Proof.
  unfold deregister; simpl. intros Hin.
  apply list_elem_of_fmap in Hin as (s & -> & Hs).
  apply list_elem_of_In, filter_In in Hs as [_ Hs].
  by rewrite eqb_refl_true in Hs.
Qed.

(** C10. A connection whose handshake query carries no id is disconnected at
    once: the callback returns, the socket is no longer registered, and the
    groups, both caches and the log are as they were.  A connection with an id
    is joined to its room when it is a Room in state 'Opened', and then goes
    through [onConnection], which starts with the check for pending
    entries. *)
Theorem connection_without_id_dropped (socket : Socket) (st : Server) :
  let query := handshake_query socket in
  (truthy_opt (Query.id query) = false ->
     handle (Connect socket) st =
       (Ok tt, deregister (socket_id socket) (register socket st)) ∧
     (socket_id socket ∉ map socket_id (sockets (step st (Connect socket)))) ∧
     rooms (step st (Connect socket)) = rooms st ∧
     pendingWarnings (step st (Connect socket)) = pendingWarnings st ∧
     radarPending (step st (Connect socket)) = radarPending st ∧
     emitted (step st (Connect socket)) = emitted st ∧
     acked (step st (Connect socket)) = acked st) ∧
  (truthy_opt (Query.id query) = true ->
     handle (Connect socket) st =
       onConnection query
         (if truthy_opt (Query.room query) &&
             bool_decide (Query.state query = Some "Opened")
          then run ServerProxy.exposeOpenRooms
                 (join (socket_id socket) (default "" (Query.room query))
                    (register socket st))
          else register socket st) ∧
     onConnection query =
       (handlePendings query;; ServerProxy.exposeOpenRooms;; mret tt)).
Proof.
  intros query. split; intros Hid.
  - assert (E : handle (Connect socket) st =
                (Ok tt, deregister (socket_id socket) (register socket st))).
    { simpl. unfold mbind, M_bind, bind, modify, io_on_connection. simpl.
      fold query. by rewrite Hid. }
    split; [exact E|]. unfold step, run. rewrite E. simpl.
    split; [apply (not_in_deregister (socket_id socket) (register socket st)) | done].
  - split; [|reflexivity].
    simpl. unfold mbind, M_bind, bind, modify, io_on_connection. simpl.
    fold query. rewrite Hid.
    destruct (truthy_opt (Query.room query) &&
              bool_decide (Query.state query = Some "Opened")); reflexivity.
Qed.

Lemma connection_without_id_dropped_witness :
  (truthy_opt (Query.id (handshake_query Scenario.odd)) = false ∧
   pendingWarnings (step Scenario.two_alerts (Connect Scenario.odd)) =
     pendingWarnings Scenario.two_alerts ∧
   rooms (step Scenario.two_alerts (Connect Scenario.odd)) =
     rooms Scenario.two_alerts) ∧
  (truthy_opt (Query.id (handshake_query Scenario.cafe_opened)) = true ∧
   handle (Connect Scenario.cafe_opened) initial =
     onConnection (handshake_query Scenario.cafe_opened)
       (run ServerProxy.exposeOpenRooms
          (join "R1" "Cafe1" (register Scenario.cafe_opened initial)))).
Proof.
  split.
  - assert (H : truthy_opt (Query.id (handshake_query Scenario.odd)) = false)
      by reflexivity.
    split; [exact H|].
    pose proof (proj1 (connection_without_id_dropped Scenario.odd Scenario.two_alerts) H)
      as (_ & _ & Hrooms & Hpending & _).
    split; [exact Hpending | exact Hrooms].
  - assert (H : truthy_opt (Query.id (handshake_query Scenario.cafe_opened)) = true)
      by reflexivity.
    split; [exact H|].
    exact (proj1 (proj2 (connection_without_id_dropped Scenario.cafe_opened initial) H)).
Defined.

(* ===================================================================== *)
(** ** Lookups in the table of groups *)
(* ===================================================================== *)

Lemma truthy_opt_Some k : k ≠ "" -> truthy_opt (Some k) = true.
Proof.
  intros Hne. unfold truthy_opt. simpl. destruct (String.eqb k "") eqn:E; [|done].
  apply String.eqb_eq in E. done.
Qed.

Lemma truthy_str r : r ≠ "" -> truthy (VStr r) = true.
Proof.
  intros Hne. simpl. destruct (String.eqb r "") eqn:E; [|done].
  apply String.eqb_eq in E. done.
Qed.

(** What a plain object inherits under a name is nothing, a method, or the
    prototype. *)
Lemma inherited_cases k :
  inherited k = VUndef ∨ inherited k = object_prototype ∨
  ∃ f a, inherited k = VFun f a.
Proof.
  unfold inherited. destruct (String.eqb k "__proto__"); [right; by left|].
  unfold object_prototype_methods. simpl.
  repeat match goal with
         | |- context [if String.eqb k ?b then _ else _] =>
             destruct (String.eqb k b); [right; right; by eexists _, _|]
         end.
  by left.
Qed.

Lemma rooms_at_group name st ms :
  rooms st !! name = Some ms ->
  ServerProxy.rooms_at name st = ServerProxy.room_object ms.
Proof. intros H. unfold ServerProxy.rooms_at. by rewrite H. Qed.

Lemma rooms_at_none name st :
  rooms st !! name = None -> ServerProxy.rooms_at name st = inherited name.
Proof. intros H. unfold ServerProxy.rooms_at. by rewrite H. Qed.

Lemma has_group_iff r st :
  ServerProxy.has_group (VStr r) st = true <->
  is_Some (rooms st !! r) ∨ truthy (inherited r) = true.
Proof.
  unfold ServerProxy.has_group, ServerProxy.rooms_at. simpl.
  destruct (rooms st !! r) as [ms|] eqn:E; simpl.
  - split; [intros _; left; by eexists | done].
  - split; [by right | intros [[ms H]|H]; [discriminate H | done]].
Qed.

Lemma assoc_sockets k ms :
  assoc k (map (fun i => (i, VBool true)) ms) =
    if bool_decide (k ∈ ms) then Some (VBool true) else None.
Proof.
  induction ms as [|m ms IH]; [done|]. cbn [map assoc].
  destruct (String.eqb k m) eqn:E.
  - apply String.eqb_eq in E. subst m.
    rewrite (bool_decide_eq_true_2 (k ∈ k :: ms)); [done | apply elem_of_cons; by left].
  - rewrite IH. assert (Hne : k ≠ m) by (intros ->; by rewrite String.eqb_refl in E).
    case_bool_decide as H1; case_bool_decide as H2; try done.
    + exfalso. apply H2. apply elem_of_cons. by right.
    + exfalso. apply elem_of_cons in H2 as [H2|H2]; done.
Qed.

(** [roomIdsIncludeSocket] when the group exists: [true] for a member, and
    for any other id what the group's table of sockets inherits under it. *)
Lemma roomIds_group name id st ms :
  rooms st !! name = Some ms ->
  ServerProxy.roomIdsIncludeSocket name id st =
    if bool_decide (to_string id ∈ ms) then VBool true else inherited (to_string id).
Proof.
  intros H. unfold ServerProxy.roomIdsIncludeSocket.
  rewrite (rooms_at_group name st ms H). simpl.
  rewrite assoc_sockets. by case_bool_decide.
Qed.

(** [roomIdsIncludeSocket] when no group of that name exists: [undefined],
    or [false] when the name is one every object inherits. *)
Lemma roomIds_none name id st :
  rooms st !! name = None ->
  truthy (ServerProxy.roomIdsIncludeSocket name id st) = false.
Proof.
  intros H. unfold ServerProxy.roomIdsIncludeSocket.
  rewrite (rooms_at_none name st H).
  destruct (inherited_cases name) as [E|[E|(f & a & E)]]; rewrite E; reflexivity.
Qed.

(* ===================================================================== *)
(** ** Open rooms *)
(* ===================================================================== *)

Lemma has_length_true {A} (l : list A) : has_length l = true <-> ∃ x, In x l.
Proof.
  unfold has_length. destruct l as [|x l]; simpl.
  - split; [done | intros [x []]].
  - split; [intros _; exists x; by left | done].
Qed.

Lemma in_openRooms v st :
  In v (ServerProxy.openRooms st) <->
  (∃ s, In s (sockets st) ∧ v_id v = socket_id s ∧
        v_room v = Query.room (handshake_query s) ∧
        v = {| v_id := socket_id s;
               v_room := Query.room (handshake_query s);
               v_visitor := Query.visitor (handshake_query s);
               v_namespace := Query.nsp (handshake_query s);
               v_connected := true |}) ∧
  truthy_opt (v_room v) = true ∧
  ServerProxy.has_group (of_opt (v_room v)) st = true.
Proof.
  unfold ServerProxy.openRooms, ServerProxy.available, ServerProxy.sockets.
  rewrite !filter_In, in_map_iff. split.
  - intros [[(s & <- & Hs) Ht] Hg]. split; [|done].
    exists s. simpl. done.
  - intros [(s & Hs & _ & _ & ->) [Ht Hg]]. split; [split|]; [|done|done].
    exists s. done.
Qed.

(** C2, as the code has it. A room name [r] is reported open exactly when
    some live connection presents the Room identity [r] and the table of
    groups answers for [r]: a group named [r] exists, whoever its members
    are, or [r] is a name every object inherits.  Once the connection [sid]
    is deregistered, [r] is not open unless another live connection presents
    the same Room identity. *)
Theorem isOpen_iff (st : Server) (r : string) :
  (isOpen r st = true <->
     r ≠ "" ∧
     (∃ s, s ∈ sockets st ∧ Query.room (handshake_query s) = Some r) ∧
     (is_Some (rooms st !! r) ∨ truthy (inherited r) = true)) ∧
  (∀ sid,
     (∀ s, s ∈ sockets st -> Query.room (handshake_query s) = Some r ->
           socket_id s = sid) ->
     isOpen r (deregister sid st) = false).
Proof.
  assert (Hiff : ∀ st0, isOpen r st0 = true <->
     r ≠ "" ∧
     (∃ s, s ∈ sockets st0 ∧ Query.room (handshake_query s) = Some r) ∧
     (is_Some (rooms st0 !! r) ∨ truthy (inherited r) = true)).
  { intros st0. unfold isOpen. rewrite has_length_true. split.
    - intros (v & Hv). apply filter_In in Hv as [Hv Hr].
      apply bool_decide_eq_true in Hr.
      apply in_openRooms in Hv as ((s & Hs & _ & Hroom & _) & Ht & Hg).
      rewrite Hr in Ht, Hg. unfold truthy_opt in Ht. simpl in Ht.
      simpl in Hg. apply has_group_iff in Hg.
      split; [|split].
      + intros ->. done.
      + exists s. split; [by apply list_elem_of_In | congruence].
      + done.
    - intros (Hne & (s & Hs & Hroom) & Hg).
      exists {| v_id := socket_id s;
                v_room := Query.room (handshake_query s);
                v_visitor := Query.visitor (handshake_query s);
                v_namespace := Query.nsp (handshake_query s);
                v_connected := true |}.
      apply filter_In. split.
      + apply in_openRooms. simpl. rewrite Hroom. split; [|split].
        * exists s. split; [by apply list_elem_of_In | by rewrite Hroom].
        * by apply truthy_opt_Some.
        * simpl. by apply has_group_iff.
      + simpl. by apply bool_decide_eq_true. }
  split; [apply Hiff|].
  intros sid Honly. destruct (isOpen r (deregister sid st)) eqn:E; [|done].
  apply Hiff in E as (_ & (s & Hs & Hroom) & _).
  unfold deregister in Hs; simpl in Hs.
  apply list_elem_of_In, filter_In in Hs as [Hs Hne].
  apply list_elem_of_In in Hs. rewrite (Honly s Hs Hroom) in Hne.
  by rewrite eqb_refl_true in Hne.
Qed.

Lemma isOpen_iff_witness :
  (("Cafe1" ≠ "" ∧
    (∃ s, s ∈ sockets Scenario.cafe_open ∧
          Query.room (handshake_query s) = Some "Cafe1") ∧
    (is_Some (rooms Scenario.cafe_open !! "Cafe1") ∨
     truthy (inherited "Cafe1") = true)) ∧
   isOpen "Cafe1" Scenario.cafe_open = true) ∧
  ((∀ s, s ∈ sockets Scenario.cafe_open ->
         Query.room (handshake_query s) = Some "Cafe1" -> socket_id s = "R1") ∧
   isOpen "Cafe1" (deregister "R1" Scenario.cafe_open) = false) ∧
  (rooms Scenario.constructor_connected !! "constructor" = None ∧
   isOpen "constructor" Scenario.constructor_connected = true).
Proof.
  assert (Hs : sockets Scenario.cafe_open = [Scenario.cafe; Scenario.bob])
    by (vm_compute; reflexivity).
  split; [|split].
  - assert (H : "Cafe1" ≠ "" ∧
      (∃ s, s ∈ sockets Scenario.cafe_open ∧
            Query.room (handshake_query s) = Some "Cafe1") ∧
      (is_Some (rooms Scenario.cafe_open !! "Cafe1") ∨
       truthy (inherited "Cafe1") = true)).
    { split; [discriminate|]. split.
      - exists Scenario.cafe. rewrite Hs. split; [apply elem_of_cons; by left | reflexivity].
      - left. exists ["R1"]. vm_compute. reflexivity. }
    split; [exact H|].
    exact (proj2 (proj1 (isOpen_iff Scenario.cafe_open "Cafe1")) H).
  - assert (H : ∀ s, s ∈ sockets Scenario.cafe_open ->
         Query.room (handshake_query s) = Some "Cafe1" -> socket_id s = "R1").
    { intros s Hin Hroom. rewrite Hs in Hin.
      apply elem_of_cons in Hin as [->|Hin]; [reflexivity|].
      apply list_elem_of_singleton in Hin. subst s. discriminate Hroom. }
    split; [exact H|].
    exact (proj2 (isOpen_iff Scenario.cafe_open "Cafe1") "R1" H).
  - split; [vm_compute; reflexivity|].
    apply (proj2 (proj1 (isOpen_iff Scenario.constructor_connected "constructor"))).
    split; [discriminate|]. split.
    + exists Scenario.constructor_room. split; [|reflexivity].
      assert (E : sockets Scenario.constructor_connected = [Scenario.constructor_room])
        by (vm_compute; reflexivity).
      rewrite E. by apply list_elem_of_singleton.
    + right. reflexivity.
Defined.

(** The specification's wording of C2 fails when a visitor is the only member
    of the group of a connected Room.  Cafe1 has closed and left its group,
    Ann is still in it: Cafe1 is reported open although its own connection is
    not a member. *)
Lemma isOpen_spec_counterexample :
  members "Cafe1" Scenario.ann_left_behind = ["V1"] ∧
  isOpen "Cafe1" Scenario.ann_left_behind = true ∧
  ¬ isOpen_spec "Cafe1" Scenario.ann_left_behind.
Proof.
  assert (Em : members "Cafe1" Scenario.ann_left_behind = ["V1"])
    by (vm_compute; reflexivity).
  split; [exact Em|].
  split; [vm_compute; reflexivity|].
  intros (s & Hs & Hroom & Hmem).
  assert (Es : sockets Scenario.ann_left_behind = [Scenario.cafe; Scenario.ann])
    by (vm_compute; reflexivity).
  rewrite Es in Hs. rewrite Em in Hmem.
  apply list_elem_of_singleton in Hmem.
  apply elem_of_cons in Hs as [->|Hs]; [discriminate Hmem|].
  apply list_elem_of_singleton in Hs. subst s. discriminate Hroom.
Qed.

(* ===================================================================== *)
(** ** Occupancy *)
(* ===================================================================== *)

(** C8, as the code has it.  For a room name that is not empty and whose
    group exists, [getOccupancy] returns the member count of the group, a
    non-negative integer, the room's own connection included; the state is
    not looked at any further, so the count is the same whether the room is
    open or not.  For a name under which the table of groups finds nothing,
    [updateOccupancy] returns 0 and leaves the state as it is;
    [getOccupancy] has no such guard and reads the length of whatever the
    lookup answers. *)
Theorem getOccupancy_counts_members (st : Server) (r : string) :
  r ≠ "" ->
  (∀ ms, rooms st !! r = Some ms ->
     ServerProxy.getOccupancy r st = (Ok (VNum (Z.of_nat (length ms))), st) ∧
     (0 <= Z.of_nat (length ms))%Z) ∧
  (rooms st !! r = None ->
     ServerProxy.getOccupancy r st = (get_prop (inherited r) "length", st) ∧
     (inherited r = VUndef ->
        ServerProxy.updateOccupancy r st = (Ok (VNum 0), st) ∧
        ServerProxy.getOccupancy r st =
          (Throw (TypeError "Cannot read property 'length' of undefined"), st))).
Proof.
  intros Hne. pose proof (truthy_str r Hne) as Ht.
  split.
  - intros ms Hms. split; [|lia].
    unfold ServerProxy.getOccupancy. rewrite Ht. simpl.
    unfold mbind, M_bind, bind, gets, lift.
    by rewrite (rooms_at_group r st ms Hms).
  - intros Hnone.
    assert (E : ServerProxy.getOccupancy r st = (get_prop (inherited r) "length", st)).
    { unfold ServerProxy.getOccupancy. rewrite Ht. simpl.
      unfold mbind, M_bind, bind, gets, lift.
      rewrite (rooms_at_none r st Hnone).
      by destruct (get_prop (inherited r) "length"). }
    split; [exact E|]. intros Hord. split.
    + unfold ServerProxy.updateOccupancy.
      unfold mbind, M_bind, bind, gets.
      rewrite (rooms_at_none r st Hnone), Hord, Ht. reflexivity.
    + rewrite E, Hord. reflexivity.
Qed.

Lemma getOccupancy_counts_members_witness :
  "Cafe1" ≠ "" ∧
  (rooms Scenario.ann_in_open_cafe !! "Cafe1" = Some ["R1"; "V1"] ∧
   ServerProxy.getOccupancy "Cafe1" Scenario.ann_in_open_cafe =
     (Ok (VNum 2), Scenario.ann_in_open_cafe)) ∧
  ((rooms Scenario.ann_in_open_cafe !! "Cafe2" = None ∧ inherited "Cafe2" = VUndef) ∧
   ServerProxy.updateOccupancy "Cafe2" Scenario.ann_in_open_cafe =
     (Ok (VNum 0), Scenario.ann_in_open_cafe)) ∧
  (rooms Scenario.ann_in_open_cafe !! "constructor" = None ∧
   ServerProxy.getOccupancy "constructor" Scenario.ann_in_open_cafe =
     (Ok (VNum 1), Scenario.ann_in_open_cafe)).
Proof.
  assert (Hne : "Cafe1" ≠ "") by discriminate.
  assert (Hne2 : "Cafe2" ≠ "") by discriminate.
  assert (Hne3 : "constructor" ≠ "") by discriminate.
  assert (H1 : rooms Scenario.ann_in_open_cafe !! "Cafe1" = Some ["R1"; "V1"])
    by (vm_compute; reflexivity).
  assert (H2 : rooms Scenario.ann_in_open_cafe !! "Cafe2" = None)
    by (vm_compute; reflexivity).
  assert (H3 : rooms Scenario.ann_in_open_cafe !! "constructor" = None)
    by (vm_compute; reflexivity).
  assert (Hord : inherited "Cafe2" = VUndef) by reflexivity.
  split; [exact Hne|]. split; [|split].
  - split; [exact H1|].
    exact (proj1 (proj1 (getOccupancy_counts_members
                           Scenario.ann_in_open_cafe "Cafe1" Hne) _ H1)).
  - split; [split; [exact H2 | exact Hord]|].
    exact (proj1 (proj2 (proj2 (getOccupancy_counts_members
                           Scenario.ann_in_open_cafe "Cafe2" Hne2) H2) Hord)).
  - split; [exact H3|].
    exact (proj1 (proj2 (getOccupancy_counts_members
                           Scenario.ann_in_open_cafe "constructor" Hne3) H3)).
Defined.

(** The specification's wording of C8 fails in an open room with one visitor:
    the specification counts 1, [getOccupancy] answers 2.  It fails as well
    for a room that is not open while a visitor is in its group: the
    specification counts 0, [getOccupancy] answers 1. *)
Lemma occupancy_spec_counterexample :
  (isOpen "Cafe1" Scenario.ann_in_open_cafe = true ∧
   occupancy_spec "Cafe1" Scenario.ann_in_open_cafe = 1%Z ∧
   (ServerProxy.getOccupancy "Cafe1" Scenario.ann_in_open_cafe).1 = Ok (VNum 2)) ∧
  (isOpen "Cafe1" Scenario.ann_alone = false ∧
   occupancy_spec "Cafe1" Scenario.ann_alone = 0%Z ∧
   (ServerProxy.getOccupancy "Cafe1" Scenario.ann_alone).1 = Ok (VNum 1)).
Proof.
  repeat split; vm_compute; reflexivity.
Qed.

(* ===================================================================== *)
(** ** Draining the cache *)
(* ===================================================================== *)

Lemma forEach_flush_warning query entries :
  ∀ st, pendingWarnings st = entries -> Forall readable entries ->
    (forEach_from pendingWarnings (flush_warning query) entries st).1 = Ok tt ∧
    pendingWarnings (run (forEach_from pendingWarnings (flush_warning query) entries) st) = [] ∧
    length (emitted (run (forEach_from pendingWarnings (flush_warning query) entries) st)) =
      (length (emitted st) + length entries)%nat.
Proof.
  induction entries as [|[k v] rest IH]; intros st Hst Hall.
  - simpl. unfold run. simpl. rewrite Hst. split; [done|]. split; [done|lia].
  - apply Forall_cons in Hall as [Hkv Hall].
    unfold readable, exposureDates_of in Hkv. simpl in Hkv.
    destruct (get_prop v "warnings") as [warnings|] eqn:E1; [|done].
    destruct (get_prop warnings k) as [warning|] eqn:E2; [|done].
    destruct (get_prop warning "dates") as [dates|] eqn:E3; [|done].
    set (st1 := set_pendingWarnings rest
                  (push_emitted {| dest := ToGroup VUndef;
                                   event := of_opt (Query.room query);
                                   body := Json (VStr "notifyRoom") |} st)).
    assert (Hstep : forEach_from pendingWarnings (flush_warning query) ((k, v) :: rest) st =
                    forEach_from pendingWarnings (flush_warning query) rest st1).
    { simpl. unfold mbind, M_bind, bind, gets. rewrite Hst. simpl.
      rewrite eqb_refl_true. unfold flush_warning, lift.
      unfold mbind, M_bind, bind. rewrite E1, E2, E3. simpl.
      unfold st1, set_pendingWarnings, push_emitted. simpl.
      rewrite Hst. simpl. by rewrite eqb_refl_true. }
    unfold run. rewrite Hstep.
    destruct (IH st1 eq_refl Hall) as (H1 & H2 & H3).
    split; [exact H1|]. split; [exact H2|].
    unfold run in H3. rewrite H3. unfold st1. simpl. rewrite length_app. simpl. lia.
Qed.

Lemma forEach_flush event entries :
  ∀ st, radarPending st = entries -> Forall defined_value entries ->
    (forEach_from radarPending (ServerProxy.flush event) entries st).1 = Ok tt ∧
    radarPending (run (forEach_from radarPending (ServerProxy.flush event) entries) st) = [] ∧
    emitted (run (forEach_from radarPending (ServerProxy.flush event) entries) st) =
      emitted st ++
      map (fun e => {| dest := ToGroup (room_of e.2); event := VStr event;
                       body := Json e.2 |}) entries.
Proof.
  induction entries as [|[k v] rest IH]; intros st Hst Hall.
  - simpl. unfold run. simpl. rewrite Hst. by rewrite app_nil_r.
  - apply Forall_cons in Hall as [Hkv Hall].
    unfold defined_value in Hkv. simpl in Hkv.
    destruct (get_prop v "room") as [r|] eqn:E1; [|done].
    set (st1 := set_radarPending rest
                  (push_emitted {| dest := ToGroup r; event := VStr event;
                                   body := Json v |} st)).
    assert (Hstep : forEach_from radarPending (ServerProxy.flush event) ((k, v) :: rest) st =
                    forEach_from radarPending (ServerProxy.flush event) rest st1).
    { simpl. unfold mbind, M_bind, bind, gets. rewrite Hst. simpl.
      rewrite eqb_refl_true. unfold ServerProxy.flush, ServerProxy.privateMessage, lift.
      unfold mbind, M_bind, bind. rewrite E1. simpl.
      unfold st1, set_radarPending, push_emitted. simpl.
      rewrite Hst. simpl. by rewrite eqb_refl_true. }
    unfold run. rewrite Hstep.
    destruct (IH st1 eq_refl Hall) as (H1 & H2 & H3).
    split; [exact H1|]. split; [exact H2|].
    unfold run in H3. rewrite H3. unfold st1. simpl.
    unfold room_of. rewrite E1. by rewrite <- app_assoc.
Qed.

(** C6, as the code has it.  A drain for the Room [k] is gated on [k] having
    an entry: without one the cache is left as it is.  With one, the loop runs
    over the whole cache, sends once per entry and deletes every entry,
    whatever its key: nothing stays pending under any key.  The same holds of
    [handlePendings] of [ServerProxy] on the cache of radar.js, which sends
    each stored value as [notifyRoom] to the room the value names. *)
Theorem drain_flushes_whole_cache (query : Query.t) (st : Server) (k : string) :
  Query.room query = Some k -> k ≠ "" ->
  (JsMap.has k (pendingWarnings st) = false ->
     handlePendings query st = (Ok (VStr ("Nothing pending for " ^ k)), st)) ∧
  (JsMap.has k (pendingWarnings st) = true -> Forall readable (pendingWarnings st) ->
     (handlePendings query st).1 = Ok VUndef ∧
     pendingWarnings (run (handlePendings query) st) = [] ∧
     length (emitted (run (handlePendings query) st)) =
       (length (emitted st) + length (pendingWarnings st))%nat) ∧
  (JsMap.has k (radarPending st) = false ->
     ServerProxy.handlePendings query st =
       (Ok (VStr ("Nothing pending for " ^ k)), st)) ∧
  (JsMap.has k (radarPending st) = true -> Forall defined_value (radarPending st) ->
     (ServerProxy.handlePendings query st).1 = Ok VUndef ∧
     radarPending (run (ServerProxy.handlePendings query) st) = [] ∧
     emitted (run (ServerProxy.handlePendings query) st) =
       emitted st ++
       map (fun e => {| dest := ToGroup (room_of e.2); event := VStr "notifyRoom";
                        body := Json e.2 |}) (radarPending st)).
Proof.
  intros Hroom Hne. pose proof (truthy_opt_Some k Hne) as Ht.
  split; [|split; [|split]].
  - intros Hhas. unfold handlePendings. rewrite Hroom, Ht.
    unfold mbind, M_bind, bind, gets. by rewrite Hhas.
  - intros Hhas Hall.
    destruct (forEach_flush_warning query (pendingWarnings st) st eq_refl Hall)
      as (H1 & H2 & H3).
    unfold run in *. unfold handlePendings. rewrite Hroom, Ht.
    unfold forEach, mbind, M_bind, bind, gets. rewrite Hhas. simpl.
    destruct (forEach_from pendingWarnings (flush_warning query) (pendingWarnings st) st)
      as [[[]|e] st'] eqn:E; simpl in *; [done | discriminate H1].
  - intros Hhas. unfold ServerProxy.handlePendings. rewrite Hroom, Ht.
    unfold mbind, M_bind, bind, gets. by rewrite Hhas.
  - intros Hhas Hall.
    destruct (forEach_flush "notifyRoom" (radarPending st) st eq_refl Hall)
      as (H1 & H2 & H3).
    unfold run in *. unfold ServerProxy.handlePendings. rewrite Hroom, Ht.
    unfold forEach, mbind, M_bind, bind, gets. rewrite Hhas. simpl.
    destruct (forEach_from radarPending (ServerProxy.flush "notifyRoom") (radarPending st) st)
      as [[[]|e] st'] eqn:E; simpl in *; [done | discriminate H1].
Qed.

Lemma drain_flushes_whole_cache_witness :
  (Query.room (handshake_query Scenario.cafe) = Some "Cafe1" ∧ "Cafe1" ≠ "") ∧
  (JsMap.has "Cafe1" (pendingWarnings initial) = false ∧
   handlePendings (handshake_query Scenario.cafe) initial =
     (Ok (VStr "Nothing pending for Cafe1"), initial)) ∧
  ((JsMap.has "Cafe1" (pendingWarnings Scenario.two_pending) = true ∧
    Forall readable (pendingWarnings Scenario.two_pending)) ∧
   pendingWarnings (run (handlePendings (handshake_query Scenario.cafe))
                      Scenario.two_pending) = []) ∧
  ((JsMap.has "Cafe1" (radarPending Scenario.two_pending_radar) = true ∧
    Forall defined_value (radarPending Scenario.two_pending_radar)) ∧
   radarPending (run (ServerProxy.handlePendings (handshake_query Scenario.cafe))
                   Scenario.two_pending_radar) = []).
Proof.
  assert (Hroom : Query.room (handshake_query Scenario.cafe) = Some "Cafe1")
    by reflexivity.
  assert (Hne : "Cafe1" ≠ "") by discriminate.
  pose proof (drain_flushes_whole_cache (handshake_query Scenario.cafe)
                initial "Cafe1" Hroom Hne) as (T0 & _).
  pose proof (drain_flushes_whole_cache (handshake_query Scenario.cafe)
                Scenario.two_pending "Cafe1" Hroom Hne) as (_ & T1 & _).
  pose proof (drain_flushes_whole_cache (handshake_query Scenario.cafe)
                Scenario.two_pending_radar "Cafe1" Hroom Hne) as (_ & _ & _ & T2).
  split; [split; [exact Hroom | exact Hne]|].
  split; [split; [reflexivity | exact (T0 eq_refl)]|].
  split.
  - assert (Hhas : JsMap.has "Cafe1" (pendingWarnings Scenario.two_pending) = true)
      by (vm_compute; reflexivity).
    assert (Hall : Forall readable (pendingWarnings Scenario.two_pending))
      by (vm_compute; repeat constructor).
    split; [split; [exact Hhas | exact Hall]|].
    exact (proj1 (proj2 (T1 Hhas Hall))).
  - assert (Hhas : JsMap.has "Cafe1" (radarPending Scenario.two_pending_radar) = true)
      by (vm_compute; reflexivity).
    assert (Hall : Forall defined_value (radarPending Scenario.two_pending_radar))
      by (vm_compute; repeat constructor).
    split; [split; [exact Hhas | exact Hall]|].
    exact (proj1 (proj2 (T2 Hhas Hall))).
Defined.

(** The specification's wording of C6 fails when two rooms have warnings
    pending: the drain for Cafe1 also removes the entry of Cafe2. *)
Lemma drain_frame_spec_counterexample :
  JsMap.has "Cafe2" (pendingWarnings Scenario.two_pending) = true ∧
  JsMap.has "Cafe2"
    (pendingWarnings (run (handlePendings (handshake_query Scenario.cafe))
                        Scenario.two_pending)) = false ∧
  ¬ drain_frame_spec (handshake_query Scenario.cafe) Scenario.two_pending.
Proof.
  split; [vm_compute; reflexivity|]. split; [vm_compute; reflexivity|].
  intros H. specialize (H "Cafe2"). 
  assert (Hne : Query.room (handshake_query Scenario.cafe) ≠ Some "Cafe2")
    by discriminate.
  specialize (H Hne). vm_compute in H. discriminate H.
Qed.

(* ===================================================================== *)
(** ** Alerts for a visitor *)
(* ===================================================================== *)

Lemma visitor_offline st name :
  (∀ s, s ∈ sockets st -> Query.visitor (handshake_query s) ≠ Some name) ->
  has_length (List.filter (fun v => bool_decide (v_visitor v = Some name))
                (ServerProxy.visitors st)) = false.
Proof.
  intros Hoff. apply not_true_is_false. intros H.
  apply has_length_true in H as (v & Hv).
  apply filter_In in Hv as [Hv Hname]. apply bool_decide_eq_true in Hname.
  unfold ServerProxy.visitors, ServerProxy.sockets in Hv.
  apply filter_In in Hv as [Hv _]. apply in_map_iff in Hv as (s & <- & Hs).
  simpl in Hname. apply list_elem_of_In in Hs. by apply (Hoff s).
Qed.

Lemma visitor_online st name :
  name ≠ "" ->
  (∃ s, s ∈ sockets st ∧ Query.visitor (handshake_query s) = Some name) ->
  has_length (List.filter (fun v => bool_decide (v_visitor v = Some name))
                (ServerProxy.visitors st)) = true.
Proof.
  intros Hne (s & Hs & Hname). apply has_length_true.
  exists {| v_id := socket_id s;
            v_room := Query.room (handshake_query s);
            v_visitor := Query.visitor (handshake_query s);
            v_namespace := Query.nsp (handshake_query s);
            v_connected := true |}.
  apply filter_In. split; [|simpl; by apply bool_decide_eq_true].
  unfold ServerProxy.visitors, ServerProxy.sockets. apply filter_In. split.
  - apply in_map_iff. exists s. split; [done | by apply list_elem_of_In].
  - simpl. rewrite Hname. by apply truthy_opt_Some.
Qed.

Lemma onAlertVisitor_offline st d name ack :
  AlertVisitor.visitor d = Some name -> name ≠ "" ->
  truthy (AlertVisitor.message d) = true ->
  (∀ s, s ∈ sockets st -> Query.visitor (handshake_query s) ≠ Some name) ->
  onAlertVisitor d ack st =
    (Ok tt, set_pendingWarnings
              (JsMap.set name (AlertVisitor.to_value d) (pendingWarnings st)) st).
Proof.
  intros Hv Hne Hm Hoff. unfold onAlertVisitor, try_catch.
  rewrite Hv, Hm, (truthy_opt_Some name Hne). simpl.
  unfold mbind, M_bind, bind, gets. by rewrite (visitor_offline st name Hoff).
Qed.

Lemma onAlertVisitor_online st d name ack :
  AlertVisitor.visitor d = Some name -> name ≠ "" ->
  truthy (AlertVisitor.message d) = true ->
  (∃ s, s ∈ sockets st ∧ Query.visitor (handshake_query s) = Some name) ->
  onAlertVisitor d ack st = (Ok tt, st).
Proof.
  intros Hv Hne Hm Hon. unfold onAlertVisitor, try_catch.
  rewrite Hv, Hm, (truthy_opt_Some name Hne). simpl.
  unfold mbind, M_bind, bind, gets. by rewrite (visitor_online st name Hne Hon).
Qed.

(** C3. An alert queued for a visitor who is offline is never delivered.
    [alertVisitor] stores it under the visitor's name and sends nothing.  On
    the visitor's next connect the drain finds the entry, builds the
    [exposureAlert] for it and calls [privateMessage], a name server.js
    never binds: the connection callback ends in a ReferenceError at the
    first entry of the loop.  Nothing catches it, no [exposureAlert] has been
    emitted, nothing else either, and the entry is still in the cache. *)
Theorem pending_alert_never_delivered (st : Server) (d : AlertVisitor.t)
    (name : string) (ack : bool) (socket : Socket) :
  AlertVisitor.visitor d = Some name -> name ≠ "" ->
  truthy (AlertVisitor.message d) = true ->
  (∀ s, s ∈ sockets st -> Query.visitor (handshake_query s) ≠ Some name) ->
  truthy_opt (Query.id (handshake_query socket)) = true ->
  truthy_opt (Query.room (handshake_query socket)) = false ->
  Query.visitor (handshake_query socket) = Some name ->
  let st1 := run (onAlertVisitor d ack) st in
  let st2 := run (handle (Connect socket)) st1 in
  ((onAlertVisitor d ack st).1 = Ok tt ∧
   JsMap.get name (pendingWarnings st1) = Some (AlertVisitor.to_value d) ∧
   emitted st1 = emitted st) ∧
  (handle (Connect socket) st1).1 = Throw (ReferenceError "privateMessage") ∧
  emitted st2 = emitted st ∧
  pendingWarnings st2 = pendingWarnings st1 ∧
  JsMap.get name (pendingWarnings st2) = Some (AlertVisitor.to_value d).
Proof.
  intros Hv Hne Hm Hoff Hid Hroom Hvis st1 st2.
  pose proof (onAlertVisitor_offline st d name ack Hv Hne Hm Hoff) as E1.
  assert (Est1 : st1 = set_pendingWarnings
                   (JsMap.set name (AlertVisitor.to_value d) (pendingWarnings st)) st).
  { unfold st1, run. by rewrite E1. }
  assert (Hget : JsMap.get name (pendingWarnings st1) = Some (AlertVisitor.to_value d)).
  { rewrite Est1. simpl. apply get_set_eq. }
  assert (Hhas : JsMap.has name (pendingWarnings st1) = true).
  { unfold JsMap.has. by rewrite Hget. }
  assert (E2 : handle (Connect socket) st1 =
               (Throw (ReferenceError "privateMessage"), register socket st1)).
  { simpl. unfold mbind, M_bind, bind, modify, io_on_connection.
    rewrite Hid, Hroom. simpl.
    unfold onConnection, handlePendings. rewrite Hroom, Hvis.
    rewrite (truthy_opt_Some name Hne). simpl.
    unfold mbind, M_bind, bind, gets. simpl. rewrite Hhas.
    destruct (pendingWarnings st1) as [|[k0 v0] rest] eqn:E; [discriminate Hhas|].
    simpl. unfold forEach, mbind, M_bind, bind, gets. simpl. rewrite E. simpl.
    unfold mbind, M_bind, bind, gets. simpl. rewrite E. simpl.
    by rewrite eqb_refl_true. }
  split; [|split; [|split; [|split]]].
  - rewrite E1. split; [done|]. split; [exact Hget|]. by rewrite Est1.
  - by rewrite E2.
  - unfold st2, run. rewrite E2. simpl. by rewrite Est1.
  - unfold st2, run. by rewrite E2.
  - unfold st2, run. rewrite E2. exact Hget.
Qed.

Lemma pending_alert_never_delivered_witness :
  (AlertVisitor.visitor Scenario.alert1 = Some "Bob" ∧ "Bob" ≠ "" ∧
   truthy (AlertVisitor.message Scenario.alert1) = true ∧
   (∀ s, s ∈ sockets initial -> Query.visitor (handshake_query s) ≠ Some "Bob") ∧
   truthy_opt (Query.id (handshake_query Scenario.bob)) = true ∧
   truthy_opt (Query.room (handshake_query Scenario.bob)) = false ∧
   Query.visitor (handshake_query Scenario.bob) = Some "Bob") ∧
  (handle (Connect Scenario.bob) (run (onAlertVisitor Scenario.alert1 true) initial)).1 =
    Throw (ReferenceError "privateMessage") ∧
  emitted (run (handle (Connect Scenario.bob))
             (run (onAlertVisitor Scenario.alert1 true) initial)) = [] ∧
  JsMap.get "Bob"
    (pendingWarnings (run (handle (Connect Scenario.bob))
                        (run (onAlertVisitor Scenario.alert1 true) initial))) =
    Some (AlertVisitor.to_value Scenario.alert1).
Proof.
  assert (Hne : "Bob" ≠ "") by discriminate.
  assert (Hoff : ∀ s, s ∈ sockets initial ->
                      Query.visitor (handshake_query s) ≠ Some "Bob").
  { intros s Hs. simpl in Hs. by apply elem_of_nil in Hs. }
  pose proof (pending_alert_never_delivered initial Scenario.alert1 "Bob" true
                Scenario.bob eq_refl Hne eq_refl Hoff eq_refl eq_refl eq_refl)
    as (_ & T1 & T2 & _ & T3).
  split; [repeat split; try reflexivity; done|].
  split; [exact T1|]. split; [exact T2 | exact T3].
Defined.

(** C7. [onAlertVisitor] never reaches its acknowledgment.  With the visitor
    online the call of the missing method [S.alertVisitor] throws and the
    handler's [catch] swallows it: nothing is emitted, stored or acknowledged.
    With the visitor offline the alert is stored under the visitor's name and
    the handler returns before the acknowledgment. *)
Theorem alertVisitor_never_acknowledges (st : Server) (d : AlertVisitor.t)
    (name : string) :
  AlertVisitor.visitor d = Some name -> name ≠ "" ->
  truthy (AlertVisitor.message d) = true ->
  ((∃ s, s ∈ sockets st ∧ Query.visitor (handshake_query s) = Some name) ->
     onAlertVisitor d true st = (Ok tt, st)) ∧
  ((∀ s, s ∈ sockets st -> Query.visitor (handshake_query s) ≠ Some name) ->
     onAlertVisitor d true st =
       (Ok tt, set_pendingWarnings
                 (JsMap.set name (AlertVisitor.to_value d) (pendingWarnings st)) st) ∧
     acked (run (onAlertVisitor d true) st) = acked st ∧
     JsMap.get name (pendingWarnings (run (onAlertVisitor d true) st)) =
       Some (AlertVisitor.to_value d)).
Proof.
  intros Hv Hne Hm. split.
  - intros Hon. by apply (onAlertVisitor_online st d name).
  - intros Hoff. pose proof (onAlertVisitor_offline st d name true Hv Hne Hm Hoff) as E.
    split; [exact E|]. unfold run. rewrite E. simpl. split; [done|apply get_set_eq].
Qed.

Lemma alertVisitor_never_acknowledges_witness :
  (AlertVisitor.visitor Scenario.alert1 = Some "Bob" ∧ "Bob" ≠ "" ∧
   truthy (AlertVisitor.message Scenario.alert1) = true) ∧
  ((∃ s, s ∈ sockets Scenario.cafe_closed ∧
         Query.visitor (handshake_query s) = Some "Bob") ∧
   onAlertVisitor Scenario.alert1 true Scenario.cafe_closed =
     (Ok tt, Scenario.cafe_closed)) ∧
  ((∀ s, s ∈ sockets initial -> Query.visitor (handshake_query s) ≠ Some "Bob") ∧
   acked (run (onAlertVisitor Scenario.alert1 true) initial) = acked initial).
Proof.
  assert (Hne : "Bob" ≠ "") by discriminate.
  assert (Hon : ∃ s, s ∈ sockets Scenario.cafe_closed ∧
                     Query.visitor (handshake_query s) = Some "Bob").
  { exists Scenario.bob. split; [|reflexivity].
    assert (Hs : sockets Scenario.cafe_closed = [Scenario.cafe; Scenario.bob])
      by (vm_compute; reflexivity).
    rewrite Hs. apply elem_of_cons. right. apply elem_of_cons. by left. }
  assert (Hoff : ∀ s, s ∈ sockets initial ->
                      Query.visitor (handshake_query s) ≠ Some "Bob").
  { intros s Hs. simpl in Hs. by apply elem_of_nil in Hs. }
  split; [repeat split; try reflexivity; done|]. split.
  - split; [exact Hon|].
    exact (proj1 (alertVisitor_never_acknowledges Scenario.cafe_closed Scenario.alert1
                    "Bob" eq_refl Hne eq_refl) Hon).
  - split; [exact Hoff|].
    exact (proj1 (proj2 (proj2 (alertVisitor_never_acknowledges initial Scenario.alert1
                    "Bob" eq_refl Hne eq_refl) Hoff))).
Defined.

(* ===================================================================== *)
(** ** Entering a room that is not open *)
(* ===================================================================== *)

(** C1. [enterRoom] for a room without a group acknowledges the error and
    then carries on: the visitor's socket is joined to the group, [checkIn] is
    broadcast to it, and a second acknowledgment reports one occupant.  (The
    guard looks the name up in the table of groups, so that under a name
    every object inherits it finds something and the error is not
    acknowledged; the rest is the same.) *)
Theorem enterRoom_not_open_still_joins (socket : Socket) (data : EnterRoom.t)
    (st : Server) :
  let room := EnterRoom.room data in
  let name := RoomRef.room room in
  rooms st !! name = None -> name ≠ "" ->
  let st' := run (onEnterRoom socket data true) st in
  acked st' =
    acked st ++
    (if truthy (inherited name) then []
     else [Json (VObj [("error", VStr "Room must be open before you can enter");
                       ("on", VStr "server.onEnterRoom")])]) ++
    [Json (VObj [("event", VStr "onEnterRoom");
                 ("room", RoomRef.to_value room);
                 ("occupants", VNum 1);
                 ("result", VBool true);
                 ("emits", VStr "checkIn")])] ∧
  rooms st' !! name = Some [socket_id socket] ∧
  emitted st' =
    emitted st ++
    [{| dest := ToGroup (VStr name);
        event := VStr "checkIn";
        body := Json (VObj [("visitor", EnterRoom.visitor data);
                            ("sentTime", EnterRoom.sentTime data);
                            ("room", RoomRef.to_value room);
                            ("message", VStr "Entered");
                            ("socketId", VStr (socket_id socket))]) |}].
Proof.
  intros room name Hnone Hne st'.
  pose proof (truthy_str name Hne) as Ht.
  set (err := Json (VObj [("error", VStr "Room must be open before you can enter");
                          ("on", VStr "server.onEnterRoom")])).
  set (st_a := if truthy (inherited name) then st else push_acked err st).
  assert (Hra : rooms st_a = rooms st) by (unfold st_a; by destruct (truthy (inherited name))).
  assert (Hea : emitted st_a = emitted st) by (unfold st_a; by destruct (truthy (inherited name))).
  assert (Haa : acked st_a =
                acked st ++ (if truthy (inherited name) then [] else [err])).
  { unfold st_a. destruct (truthy (inherited name)); simpl; [by rewrite app_nil_r | done]. }
  set (st_j := set_rooms (<[name := [socket_id socket]]> (rooms st)) st_a).
  assert (Hj : join (socket_id socket) name st_a = st_j).
  { unfold join, members. rewrite Hra, Hnone. simpl. reflexivity. }
  assert (Hl : rooms st_j !! name = Some [socket_id socket])
    by (simpl; apply lookup_insert_eq).
  set (st_e := push_emitted
      {| dest := ToGroup (VStr name); event := VStr "checkIn";
         body := Json (VObj [("visitor", EnterRoom.visitor data);
                             ("sentTime", EnterRoom.sentTime data);
                             ("room", RoomRef.to_value room);
                             ("message", VStr "Entered");
                             ("socketId", VStr (socket_id socket))]) |} st_j).
  assert (Hinc : ServerProxy.roomIdsIncludeSocket name (VStr (socket_id socket)) st_j =
                 VBool true).
  { rewrite (roomIds_group name _ st_j _ Hl). simpl.
    rewrite bool_decide_eq_true_2; [done | by apply list_elem_of_singleton]. }
  assert (Hocc : ServerProxy.getOccupancy name st_e = (Ok (VNum 1), st_e)).
  { unfold ServerProxy.getOccupancy. rewrite Ht. simpl.
    unfold mbind, M_bind, bind, gets, lift.
    rewrite (rooms_at_group name st_e [socket_id socket]); [done | exact Hl]. }
  assert (E : onEnterRoom socket data true st =
              (Ok tt, push_acked
                 (Json (VObj [("event", VStr "onEnterRoom");
                              ("room", RoomRef.to_value room);
                              ("occupants", VNum 1);
                              ("result", VBool true);
                              ("emits", VStr "checkIn")])) st_e)).
  { unfold onEnterRoom, try_catch. fold room. fold name.
    unfold mbind, M_bind, bind, gets.
    rewrite (rooms_at_none name st Hnone).
    assert (Hw : when (negb (truthy (inherited name)))
                   (ack_if true
                      (VObj [("error", VStr "Room must be open before you can enter");
                             ("on", VStr "server.onEnterRoom")])) st = (Ok tt, st_a)).
    { unfold st_a. by destruct (truthy (inherited name)). }
    rewrite Hw. unfold modify, emit, modify. rewrite Hj, Hinc. fold st_e.
    rewrite Hocc. reflexivity. }
  unfold st', run. rewrite E. simpl. rewrite Haa, Hea.
  split; [by rewrite <- app_assoc|]. split; [apply lookup_insert_eq | done].
Qed.

Lemma enterRoom_not_open_still_joins_witness :
  (rooms Scenario.ann_at_closed_cafe !! "Cafe1" = None ∧ "Cafe1" ≠ "") ∧
  rooms (step Scenario.ann_at_closed_cafe
           (EnterRoomEv Scenario.ann Scenario.ann_enters true))
    !! "Cafe1" = Some ["V1"].
Proof.
  assert (Hnone : rooms Scenario.ann_at_closed_cafe !! "Cafe1" = None)
    by (vm_compute; reflexivity).
  assert (Hne : "Cafe1" ≠ "") by discriminate.
  split; [split; [exact Hnone | exact Hne]|].
  exact (proj1 (proj2 (enterRoom_not_open_still_joins Scenario.ann Scenario.ann_enters
                         Scenario.ann_at_closed_cafe Hnone Hne))).
Defined.

(* ===================================================================== *)
(** ** Exposure warnings *)
(* ===================================================================== *)

(** C4. The decision the router takes for one room of the warnings map.  If
    the room is open, [notifyRoom] sends [misaddressed], not a [notifyRoom]
    event to the room's group, and the result is 'undefined WARNED'; the
    cache is not touched.  If the room is not open, the whole event is stored
    under the room name and the result is the room name followed by PENDING.
    For a map with one room the acknowledgment carries that one result. *)
Theorem exposureWarning_routing (data : ExposureWarning.t) (results : list value)
    (roomName : string) (w : value) (st : Server) :
  (isOpen roomName st = true ->
     warn_one data results (roomName, w) st =
       (Ok (results ++ [VStr "undefined WARNED"]), push_emitted misaddressed st)) ∧
  (isOpen roomName st = false ->
     warn_one data results (roomName, w) st =
       (Ok (results ++ [VStr (roomName ^ " PENDING")]),
        set_pendingWarnings
          (JsMap.set roomName (ExposureWarning.to_value data) (pendingWarnings st)) st)) ∧
  (ExposureWarning.warnings data = [(roomName, w)] ->
   is_ok (get_prop (ExposureWarning.visitor data) "visitor") ->
   (isOpen roomName st = true ->
      run (onExposureWarning data true) st =
        push_acked (Json (VObj [("event", VStr "onExposureWarning");
                                ("result", VArr [VStr "undefined WARNED"]);
                                ("emit", VStr "notifyRoom")]))
          (push_emitted misaddressed st)) ∧
   (isOpen roomName st = false ->
      run (onExposureWarning data true) st =
        push_acked (Json (VObj [("event", VStr "onExposureWarning");
                                ("result", VArr [VStr (roomName ^ " PENDING")]);
                                ("emit", VStr "notifyRoom")]))
          (set_pendingWarnings
             (JsMap.set roomName (ExposureWarning.to_value data) (pendingWarnings st))
             st))).
Proof.
  assert (Hopen : isOpen roomName st = true ->
     warn_one data results (roomName, w) st =
       (Ok (results ++ [VStr "undefined WARNED"]), push_emitted misaddressed st)).
  { intros H. unfold warn_one. simpl.
    unfold mbind, M_bind, bind, gets. rewrite H. reflexivity. }
  assert (Hclosed : isOpen roomName st = false ->
     warn_one data results (roomName, w) st =
       (Ok (results ++ [VStr (roomName ^ " PENDING")]),
        set_pendingWarnings
          (JsMap.set roomName (ExposureWarning.to_value data) (pendingWarnings st)) st)).
  { intros H. unfold warn_one. simpl.
    unfold mbind, M_bind, bind, gets. rewrite H. reflexivity. }
  split; [exact Hopen|]. split; [exact Hclosed|].
  intros Hw Hv.
  destruct (get_prop (ExposureWarning.visitor data) "visitor") as [x|] eqn:E; [|done].
  split; intros H.
  - unfold run, onExposureWarning, try_catch, lift. rewrite Hw. simpl.
    unfold mbind, M_bind, bind. rewrite E.
    unfold warn_one. simpl. unfold mbind, M_bind, bind, gets. rewrite H. reflexivity.
  - unfold run, onExposureWarning, try_catch, lift. rewrite Hw. simpl.
    unfold mbind, M_bind, bind. rewrite E.
    unfold warn_one. simpl. unfold mbind, M_bind, bind, gets. rewrite H. reflexivity.
Qed.

Lemma exposureWarning_routing_witness :
  (ExposureWarning.warnings Scenario.bob_warns = [("Cafe1", VArr [VStr "2021-01-01"])] ∧
   is_ok (get_prop (ExposureWarning.visitor Scenario.bob_warns) "visitor")) ∧
  (isOpen "Cafe1" Scenario.cafe_open = true ∧
   run (onExposureWarning Scenario.bob_warns true) Scenario.cafe_open =
     push_acked (Json (VObj [("event", VStr "onExposureWarning");
                             ("result", VArr [VStr "undefined WARNED"]);
                             ("emit", VStr "notifyRoom")]))
       (push_emitted misaddressed Scenario.cafe_open)) ∧
  (isOpen "Cafe1" Scenario.cafe_closed = false ∧
   run (onExposureWarning Scenario.bob_warns true) Scenario.cafe_closed =
     push_acked (Json (VObj [("event", VStr "onExposureWarning");
                             ("result", VArr [VStr "Cafe1 PENDING"]);
                             ("emit", VStr "notifyRoom")]))
       (set_pendingWarnings
          (JsMap.set "Cafe1" (ExposureWarning.to_value Scenario.bob_warns)
             (pendingWarnings Scenario.cafe_closed))
          Scenario.cafe_closed)).
Proof.
  assert (Hw : ExposureWarning.warnings Scenario.bob_warns =
               [("Cafe1", VArr [VStr "2021-01-01"])]) by reflexivity.
  assert (Hv : is_ok (get_prop (ExposureWarning.visitor Scenario.bob_warns) "visitor"))
    by exact I.
  assert (Ho : isOpen "Cafe1" Scenario.cafe_open = true) by (vm_compute; reflexivity).
  assert (Hc : isOpen "Cafe1" Scenario.cafe_closed = false) by (vm_compute; reflexivity).
  split; [split; [exact Hw | exact Hv]|]. split.
  - split; [exact Ho|].
    exact (proj1 (proj2 (proj2 (exposureWarning_routing Scenario.bob_warns []
             "Cafe1" (VArr [VStr "2021-01-01"]) Scenario.cafe_open)) Hw Hv) Ho).
  - split; [exact Hc|].
    exact (proj2 (proj2 (proj2 (exposureWarning_routing Scenario.bob_warns []
             "Cafe1" (VArr [VStr "2021-01-01"]) Scenario.cafe_closed)) Hw Hv) Hc).
Defined.

(** C5. Bob's warning for Cafe1 while Cafe1 is connected but not open is
    answered PENDING and leaves one entry, under Cafe1.  When Cafe1 opens,
    the entry is deleted, yet no [notifyRoom] event reaches group Cafe1 and
    the dates are sent nowhere: what goes out is an event named 'Cafe1',
    addressed to no group, with the string 'notifyRoom' as its body. *)
Theorem pending_warning_lost_on_open :
  let st1 := step Scenario.cafe_closed (ExposureWarningEv Scenario.bob_warns true) in
  let st2 := step st1 (OpenRoom Scenario.cafe Scenario.cafe_ref true) in
  acked st1 =
    [Json (VObj [("event", VStr "onExposureWarning");
                 ("result", VArr [VStr "Cafe1 PENDING"]);
                 ("emit", VStr "notifyRoom")])] ∧
  pendingWarnings st1 = [("Cafe1", ExposureWarning.to_value Scenario.bob_warns)] ∧
  pendingWarnings st2 = [] ∧
  rooms st2 !! "Cafe1" = Some ["R1"] ∧
  skipn (length (emitted st1)) (emitted st2) =
    [{| dest := ToNamespace; event := VStr "openRoomsExposed";
        body := Snapshot (ServerProxy.openRooms st2) |};
     {| dest := ToGroup VUndef; event := VStr "Cafe1";
        body := Json (VStr "notifyRoom") |}] ∧
  delivered "notifyRoom" "Cafe1" st2 = [].
Proof.
  vm_compute. repeat split; reflexivity.
Qed.

(* ===================================================================== *)
(** ** Further properties: the two caches *)
(* ===================================================================== *)

(** Handlers of server.js keep every property of the state that only [set]
    and [delete] on the cache of radar.js could break. *)
Section ServerFrame.

Variable P : Server -> Prop.
Hypothesis P_sockets : ∀ l st, P st -> P (set_sockets l st).
Hypothesis P_rooms : ∀ r st, P st -> P (set_rooms r st).
Hypothesis P_emitted : ∀ e st, P st -> P (push_emitted e st).
Hypothesis P_acked : ∀ b st, P st -> P (push_acked b st).
Hypothesis P_set : ∀ k v st,
  P st -> P (set_pendingWarnings (JsMap.set k v (pendingWarnings st)) st).
Hypothesis P_delete : ∀ k st,
  P st -> P (set_pendingWarnings (JsMap.delete k (pendingWarnings st)) st).

Ltac frame :=
  repeat first
    [ apply preserves_handlePendings; assumption
    | apply preserves_exposeOpenRooms; assumption
    | apply preserves_io_on_connection; assumption
    | apply preserves_getOccupancy
    | apply preserves_updateOccupancy; assumption
    | apply preserves_warn_each; assumption
    | apply preserves_ret | apply preserves_throw | apply preserves_lift
    | apply preserves_gets
    | apply preserves_emit; assumption
    | apply preserves_ack_if; assumption
    | apply preserves_ack_body; assumption
    | apply preserves_modify; intros ?; solve
        [ apply P_join; assumption | apply P_leave; assumption
        | apply P_sockets | apply P_set | apply P_delete ]
    | apply preserves_when
    | apply preserves_try_catch; [|intros ?]
    | apply preserves_bind; [|intros ?]
    | match goal with
      | |- preserves _ (if ?b then _ else _) => destruct b
      | |- preserves _ (match ?x with _ => _ end) => destruct x
      end ].

Lemma server_event_preserves ev :
  is_server_event ev = true -> preserves P (handle ev).
Proof.
  destruct ev; simpl; try discriminate; intros _.
  - frame.
  - frame.
  - unfold onOpenRoom; cbv zeta. frame.
  - unfold onCloseRoom; cbv zeta. frame.
  - unfold onEnterRoom; cbv zeta. frame.
  - unfold onLeaveRoom; cbv zeta. frame.
  - unfold onExposureWarning. frame.
  - unfold onAlertVisitor, S_alertVisitor; cbv zeta. frame.
  - unfold onAdmin. frame.
  - frame.
Qed.

End ServerFrame.

(** X1. The cache server.js fills and drains and the cache the methods of
    [ServerProxy] fill and drain are two different maps.  No event server.js
    handles changes the cache of radar.js, and neither [sendOrPend] nor
    [handlePendings] of [ServerProxy] changes the cache of server.js: what one
    side stores, the other never finds. *)
Theorem caches_are_separate (st : Server) :
  (∀ ev, is_server_event ev = true -> radarPending (step st ev) = radarPending st) ∧
  (∀ d, pendingWarnings (step st (CallSendOrPend d)) = pendingWarnings st) ∧
  (∀ q, pendingWarnings (step st (CallHandlePendings q)) = pendingWarnings st).
Proof.
  split; [|split].
  - intros ev Hev. unfold step, run.
    by apply (server_event_preserves (fun s => radarPending s = radarPending st)).
  - intros d. unfold step, run. simpl.
    apply (preserves_bind (fun s => pendingWarnings s = pendingWarnings st));
      [|intros a; by apply preserves_ret|done].
    by apply preserves_sendOrPend.
  - intros q. unfold step, run. simpl.
    apply (preserves_bind (fun s => pendingWarnings s = pendingWarnings st));
      [|intros a; by apply preserves_ret|done].
    by apply preserves_radar_handlePendings.
Qed.

Lemma caches_are_separate_witness :
  is_server_event (ExposureWarningEv Scenario.bob_warns true) = true ∧
  radarPending (step Scenario.cafe_closed (ExposureWarningEv Scenario.bob_warns true)) =
    radarPending Scenario.cafe_closed.
Proof.
  split; [reflexivity|].
  exact (proj1 (caches_are_separate Scenario.cafe_closed)
           (ExposureWarningEv Scenario.bob_warns true) eq_refl).
Defined.

(* ===================================================================== *)
(** ** Further properties: [handlePendings] of server.js *)
(* ===================================================================== *)

Lemma has_true_nonempty k (m : JsMap.t) : JsMap.has k m = true -> m ≠ [].
Proof. intros H ->. discriminate H. Qed.

(** X2. The drain for a Visitor never gets past its first entry.  When the
    cache holds an entry under the visitor's name, [handlePendings] throws a
    ReferenceError at the unbound [privateMessage], before it has sent or
    deleted anything: the state is as it was. *)
Theorem handlePendings_visitor_throws (query : Query.t) (st : Server) (v : string) :
  truthy_opt (Query.room query) = false ->
  Query.visitor query = Some v -> v ≠ "" ->
  JsMap.has v (pendingWarnings st) = true ->
  handlePendings query st = (Throw (ReferenceError "privateMessage"), st).
Proof.
  intros Hroom Hvis Hne Hhas. unfold handlePendings.
  rewrite Hroom, Hvis, (truthy_opt_Some v Hne). simpl.
  unfold mbind, M_bind, bind, gets. rewrite Hhas.
  destruct (pendingWarnings st) as [|[k0 v0] rest] eqn:E; [discriminate Hhas|].
  simpl. unfold forEach, mbind, M_bind, bind, gets. rewrite E. simpl.
  unfold mbind, M_bind, bind, gets. rewrite E. simpl.
  by rewrite eqb_refl_true.
Qed.

Lemma handlePendings_visitor_throws_witness :
  (truthy_opt (Query.room (handshake_query Scenario.bob)) = false ∧
   Query.visitor (handshake_query Scenario.bob) = Some "Bob" ∧ "Bob" ≠ "" ∧
   JsMap.has "Bob" (pendingWarnings Scenario.two_alerts) = true) ∧
  handlePendings (handshake_query Scenario.bob) Scenario.two_alerts =
    (Throw (ReferenceError "privateMessage"), Scenario.two_alerts).
Proof.
  assert (Hne : "Bob" ≠ "") by discriminate.
  assert (Hhas : JsMap.has "Bob" (pendingWarnings Scenario.two_alerts) = true)
    by (vm_compute; reflexivity).
  split; [repeat split; try reflexivity; done|].
  exact (handlePendings_visitor_throws (handshake_query Scenario.bob)
           Scenario.two_alerts "Bob" eq_refl eq_refl Hne Hhas).
Defined.

(** X3. A connection that presents neither a Room nor a Visitor identity
    never drains: for an Admin [handlePendings] answers that nothing is
    pending, for a connection without any identity it returns [undefined],
    and in both cases the state is left as it is, whatever the cache holds. *)
Theorem handlePendings_without_identity (query : Query.t) (st : Server) :
  truthy_opt (Query.room query) = false ->
  Query.visitor query = None ->
  handlePendings query st =
    (Ok (if truthy_opt (Query.admin query)
         then VStr "Nothing pending for undefined" else VUndef), st).
Proof.
  intros Hroom Hvis. unfold handlePendings. rewrite Hroom, Hvis. simpl.
  destruct (truthy_opt (Query.admin query)); [|reflexivity].
  unfold mbind, M_bind, bind, gets. simpl. by rewrite orb_true_r.
Qed.

Lemma handlePendings_without_identity_witness :
  (truthy_opt (Query.room (handshake_query Scenario.admin)) = false ∧
   Query.visitor (handshake_query Scenario.admin) = None) ∧
  handlePendings (handshake_query Scenario.admin) Scenario.two_pending =
    (Ok (VStr "Nothing pending for undefined"), Scenario.two_pending).
Proof.
  split; [split; reflexivity|].
  exact (handlePendings_without_identity (handshake_query Scenario.admin)
           Scenario.two_pending eq_refl eq_refl).
Defined.

Lemma forEach_flush_warning_stops query pre :
  ∀ st k v post err,
    pendingWarnings st = pre ++ (k, v) :: post ->
    Forall readable pre ->
    exposureDates_of k v = Throw err ->
    (forEach_from pendingWarnings (flush_warning query) (pre ++ (k, v) :: post) st).1 =
      Throw err ∧
    pendingWarnings
      (run (forEach_from pendingWarnings (flush_warning query) (pre ++ (k, v) :: post)) st) =
      (k, v) :: post ∧
    length (emitted
      (run (forEach_from pendingWarnings (flush_warning query) (pre ++ (k, v) :: post)) st)) =
      (length (emitted st) + length pre)%nat.
Proof.
  induction pre as [|[k0 v0] pre IH]; intros st k v post err Hst Hall Herr.
  - simpl in *. unfold run. simpl. unfold mbind, M_bind, bind, gets.
    rewrite Hst. simpl. rewrite eqb_refl_true.
    unfold flush_warning, lift, mbind, M_bind, bind.
    unfold exposureDates_of in Herr.
    destruct (get_prop v "warnings") as [warnings|e1] eqn:E1.
    + destruct (get_prop warnings k) as [warning|e2] eqn:E2.
      * rewrite Herr. simpl. rewrite Hst. split; [done|]. split; [done|lia].
      * simpl. inversion Herr; subst. rewrite Hst. split; [done|]. split; [done|lia].
    + simpl. inversion Herr; subst. rewrite Hst. split; [done|]. split; [done|lia].
  - apply Forall_cons in Hall as [Hkv Hall].
    unfold readable, exposureDates_of in Hkv. simpl in Hkv.
    destruct (get_prop v0 "warnings") as [warnings|] eqn:E1; [|done].
    destruct (get_prop warnings k0) as [warning|] eqn:E2; [|done].
    destruct (get_prop warning "dates") as [dates|] eqn:E3; [|done].
    set (st1 := set_pendingWarnings (pre ++ (k, v) :: post)
                  (push_emitted {| dest := ToGroup VUndef;
                                   event := of_opt (Query.room query);
                                   body := Json (VStr "notifyRoom") |} st)).
    assert (Hstep :
      forEach_from pendingWarnings (flush_warning query)
        (((k0, v0) :: pre) ++ (k, v) :: post) st =
      forEach_from pendingWarnings (flush_warning query) (pre ++ (k, v) :: post) st1).
    { simpl. unfold mbind, M_bind, bind, gets. rewrite Hst. simpl.
      rewrite eqb_refl_true. unfold flush_warning, lift.
      unfold mbind, M_bind, bind. rewrite E1, E2, E3. simpl.
      unfold st1, set_pendingWarnings, push_emitted. simpl.
      rewrite Hst. simpl. by rewrite eqb_refl_true. }
    unfold run. rewrite Hstep.
    destruct (IH st1 k v post err eq_refl Hall Herr) as (H1 & H2 & H3).
    split; [exact H1|]. split; [exact H2|].
    unfold run in H3. rewrite H3. unfold st1. simpl. rewrite length_app. simpl. lia.
Qed.

(** X4. The drain for a Room stops at the first entry it cannot read (a
    pending visitor alert, for one, has no [warnings]).  The read throws, the
    entries before it have been sent for and deleted, and that entry and all
    later ones stay in the cache. *)
Theorem handlePendings_stops_at_unreadable (query : Query.t) (st : Server)
    (r : string) (pre post : JsMap.t) (k : string) (v : value) (err : JsError) :
  Query.room query = Some r -> r ≠ "" ->
  JsMap.has r (pendingWarnings st) = true ->
  pendingWarnings st = pre ++ (k, v) :: post ->
  Forall readable pre ->
  exposureDates_of k v = Throw err ->
  (handlePendings query st).1 = Throw err ∧
  pendingWarnings (run (handlePendings query) st) = (k, v) :: post ∧
  length (emitted (run (handlePendings query) st)) =
    (length (emitted st) + length pre)%nat.
Proof.
  intros Hroom Hne Hhas Hst Hall Herr.
  destruct (forEach_flush_warning_stops query pre st k v post err Hst Hall Herr)
    as (H1 & H2 & H3).
  unfold run in *. unfold handlePendings.
  rewrite Hroom, (truthy_opt_Some r Hne).
  unfold forEach, mbind, M_bind, bind, gets. rewrite Hhas. simpl.
  rewrite Hst.
  destruct (forEach_from pendingWarnings (flush_warning query) (pre ++ (k, v) :: post) st)
    as [[[]|e] st'] eqn:E; simpl in *; [discriminate H1 |].
  split; [by inversion H1|]. split; [exact H2 | exact H3].
Qed.

Lemma handlePendings_stops_at_unreadable_witness :
  (Query.room (handshake_query Scenario.cafe) = Some "Cafe1" ∧ "Cafe1" ≠ "" ∧
   JsMap.has "Cafe1" (pendingWarnings Scenario.mixed_pending) = true ∧
   pendingWarnings Scenario.mixed_pending =
     [("Cafe2", ExposureWarning.to_value Scenario.bob_warns_cafe2)] ++
     ("Bob", AlertVisitor.to_value Scenario.alert1) ::
     [("Cafe1", ExposureWarning.to_value Scenario.bob_warns)] ∧
   Forall readable [("Cafe2", ExposureWarning.to_value Scenario.bob_warns_cafe2)] ∧
   exposureDates_of "Bob" (AlertVisitor.to_value Scenario.alert1) =
     Throw (TypeError "Cannot read property 'Bob' of undefined")) ∧
  pendingWarnings (run (handlePendings (handshake_query Scenario.cafe))
                     Scenario.mixed_pending) =
    [("Bob", AlertVisitor.to_value Scenario.alert1);
     ("Cafe1", ExposureWarning.to_value Scenario.bob_warns)].
Proof.
  assert (Hne : "Cafe1" ≠ "") by discriminate.
  assert (Hhas : JsMap.has "Cafe1" (pendingWarnings Scenario.mixed_pending) = true)
    by (vm_compute; reflexivity).
  assert (Hst : pendingWarnings Scenario.mixed_pending =
     [("Cafe2", ExposureWarning.to_value Scenario.bob_warns_cafe2)] ++
     ("Bob", AlertVisitor.to_value Scenario.alert1) ::
     [("Cafe1", ExposureWarning.to_value Scenario.bob_warns)])
    by (vm_compute; reflexivity).
  assert (Hall : Forall readable
            [("Cafe2", ExposureWarning.to_value Scenario.bob_warns_cafe2)])
    by (vm_compute; repeat constructor).
  assert (Herr : exposureDates_of "Bob" (AlertVisitor.to_value Scenario.alert1) =
                 Throw (TypeError "Cannot read property 'Bob' of undefined"))
    by (vm_compute; reflexivity).
  split; [repeat split; try reflexivity; done|].
  exact (proj1 (proj2 (handlePendings_stops_at_unreadable
           (handshake_query Scenario.cafe) Scenario.mixed_pending "Cafe1" _ _ _ _ _
           eq_refl Hne Hhas Hst Hall Herr))).
Defined.

(* ===================================================================== *)
(** ** Further properties: opening and closing a room *)
(* ===================================================================== *)

Lemma join_lookup sid g st :
  ∃ ms, rooms (join sid g st) !! g = Some ms ∧ sid ∈ ms.
Proof.
  unfold join, members. case_bool_decide as Hin.
  - destruct (rooms st !! g) as [ms|] eqn:E; simpl in Hin.
    + by exists ms.
    + by apply elem_of_nil in Hin.
  - simpl. rewrite lookup_insert_eq. eexists. split; [done|].
    apply elem_of_app. right. by apply list_elem_of_singleton.
Qed.

Lemma join_frame sid g st :
  sockets (join sid g st) = sockets st ∧
  pendingWarnings (join sid g st) = pendingWarnings st ∧
  radarPending (join sid g st) = radarPending st ∧
  emitted (join sid g st) = emitted st ∧
  acked (join sid g st) = acked st.
Proof. unfold join. by case_bool_decide. Qed.

Lemma leave_lookup sid g st :
  sid ∉ default [] (rooms (leave sid g st) !! g).
Proof.
  unfold leave. destruct (rooms st !! g) as [ms|] eqn:E.
  - destruct (List.filter (λ x, negb (String.eqb x sid)) ms) as [|x l] eqn:F; simpl.
    + rewrite lookup_delete_eq. apply not_elem_of_nil.
    + rewrite lookup_insert_eq. simpl. rewrite <- F. intros Hin.
      apply list_elem_of_In, filter_In in Hin as [_ Hin].
      by rewrite eqb_refl_true in Hin.
  - rewrite E. apply not_elem_of_nil.
Qed.

Lemma leave_frame sid g st :
  sockets (leave sid g st) = sockets st ∧
  pendingWarnings (leave sid g st) = pendingWarnings st ∧
  radarPending (leave sid g st) = radarPending st ∧
  emitted (leave sid g st) = emitted st ∧
  acked (leave sid g st) = acked st.
Proof.
  unfold leave. destruct (rooms st !! g); [|done].
  by destruct (List.filter _ l).
Qed.

Lemma openRooms_frame st st' :
  sockets st' = sockets st -> rooms st' = rooms st ->
  ServerProxy.openRooms st' = ServerProxy.openRooms st.
Proof.
  intros Hs Hr.
  unfold ServerProxy.openRooms, ServerProxy.available, ServerProxy.sockets,
    ServerProxy.has_group, ServerProxy.rooms_at.
  by rewrite Hs, Hr.
Qed.

Lemma isOpen_frame r st st' :
  sockets st' = sockets st -> rooms st' = rooms st -> isOpen r st' = isOpen r st.
Proof. intros Hs Hr. unfold isOpen. by rewrite (openRooms_frame st st'). Qed.

Lemma isOpen_intro r st s :
  r ≠ "" -> s ∈ sockets st -> Query.room (handshake_query s) = Some r ->
  is_Some (rooms st !! r) -> isOpen r st = true.
Proof.
  intros Hne Hs Hroom Hg. unfold isOpen. apply has_length_true.
  exists {| v_id := socket_id s;
            v_room := Query.room (handshake_query s);
            v_visitor := Query.visitor (handshake_query s);
            v_namespace := Query.nsp (handshake_query s);
            v_connected := true |}.
  apply filter_In. split; [|simpl; by apply bool_decide_eq_true].
  apply in_openRooms. simpl. rewrite Hroom. split; [|split].
  - exists s. split; [by apply list_elem_of_In | by rewrite Hroom].
  - by apply truthy_opt_Some.
  - simpl. apply has_group_iff. by left.
Qed.

(** [onOpenRoom] with its [try] resolved on what [handlePendings] does. *)
Lemma onOpenRoom_eq socket data ack st :
  onOpenRoom socket data ack st =
    let st0 := join (socket_id socket) (RoomRef.room data) st in
    let st1 := push_emitted {| dest := ToNamespace; event := VStr "openRoomsExposed";
                               body := Snapshot (ServerProxy.openRooms st0) |} st0 in
    match handlePendings (handshake_query socket) st1 with
    | (Ok _, st2) =>
        (Ok tt,
         if ack then
           push_acked
             (Json (VObj [("event", VStr "onOpenRoom");
                          ("room", VStr (RoomRef.room data));
                          ("result", ServerProxy.roomIdsIncludeSocket
                                       (RoomRef.room data) (RoomRef.id data) st2)])) st2
         else st2)
    | (Throw _, st2) => (Ok tt, st2)
    end.
Proof.
  unfold onOpenRoom, try_catch. cbv zeta.
  unfold mbind, M_bind, bind, modify, ServerProxy.exposeOpenRooms, emit, gets,
    mbind, M_bind, bind, modify. simpl.
  destruct (handlePendings (handshake_query socket) _) as [[a|e] st2]; [|done].
  unfold ack_if, ack_body, when. by destruct ack.
Qed.

Lemma handlePendings_frame query st :
  sockets (run (handlePendings query) st) = sockets st ∧
  rooms (run (handlePendings query) st) = rooms st ∧
  radarPending (run (handlePendings query) st) = radarPending st ∧
  acked (run (handlePendings query) st) = acked st.
Proof.
  unfold run. repeat split.
  - by apply (preserves_handlePendings (fun s => sockets s = sockets st)).
  - by apply (preserves_handlePendings (fun s => rooms s = rooms st)).
  - by apply (preserves_handlePendings (fun s => radarPending s = radarPending st)).
  - by apply (preserves_handlePendings (fun s => acked s = acked st)).
Qed.

(** X5. [openRoom] opens the room whatever the cache holds.  After the
    handler, the socket is a member of the group it asked for, even when the
    drain threw; and when the socket is a registered Room connection of that
    name, the room is reported open. *)
Theorem openRoom_opens (socket : Socket) (data : RoomRef.t) (ack : bool)
    (st : Server) :
  let st' := run (onOpenRoom socket data ack) st in
  (onOpenRoom socket data ack st).1 = Ok tt ∧
  socket_id socket ∈ members (RoomRef.room data) st' ∧
  (socket ∈ sockets st ->
   Query.room (handshake_query socket) = Some (RoomRef.room data) ->
   RoomRef.room data ≠ "" ->
   isOpen (RoomRef.room data) st' = true).
Proof.
  intros st'.
  set (st0 := join (socket_id socket) (RoomRef.room data) st).
  set (st1 := push_emitted {| dest := ToNamespace; event := VStr "openRoomsExposed";
                              body := Snapshot (ServerProxy.openRooms st0) |} st0).
  destruct (handlePendings_frame (handshake_query socket) st1) as (Hs & Hr & _ & _).
  assert (Hst' : (onOpenRoom socket data ack st).1 = Ok tt ∧
                 sockets st' = sockets st ∧ rooms st' = rooms st0).
  { unfold st', run. rewrite onOpenRoom_eq. cbv zeta. fold st0. fold st1.
    unfold run in Hs, Hr.
    destruct (handlePendings (handshake_query socket) st1) as [[a|e] st2];
      simpl in *.
    - destruct ack; simpl; rewrite Hs, Hr; split; try done;
        split; try done; unfold st0; apply join_frame.
    - rewrite Hs, Hr. split; [done|]. split; [apply join_frame | done]. }
  destruct Hst' as (Hok & Hsock & Hrooms).
  destruct (join_lookup (socket_id socket) (RoomRef.room data) st) as (ms & Hms & Hin).
  fold st0 in Hms.
  split; [exact Hok|]. split.
  - unfold members. rewrite Hrooms, Hms. exact Hin.
  - intros Hreg Hroom Hne.
    apply (isOpen_intro _ _ socket Hne); [by rewrite Hsock | exact Hroom |].
    rewrite Hrooms, Hms. by eexists.
Qed.

Lemma openRoom_opens_witness :
  (Scenario.cafe ∈ sockets Scenario.mixed_pending ∧
   Query.room (handshake_query Scenario.cafe) = Some (RoomRef.room Scenario.cafe_ref) ∧
   RoomRef.room Scenario.cafe_ref ≠ "") ∧
  isOpen "Cafe1" (run (onOpenRoom Scenario.cafe Scenario.cafe_ref true)
                    Scenario.mixed_pending) = true.
Proof.
  assert (Hin : Scenario.cafe ∈ sockets Scenario.mixed_pending).
  { assert (Hs : sockets Scenario.mixed_pending = [Scenario.cafe])
      by (vm_compute; reflexivity).
    rewrite Hs. by apply list_elem_of_singleton. }
  assert (Hne : RoomRef.room Scenario.cafe_ref ≠ "") by discriminate.
  split; [repeat split; try reflexivity; done|].
  exact (proj2 (proj2 (openRoom_opens Scenario.cafe Scenario.cafe_ref true
                         Scenario.mixed_pending)) Hin eq_refl Hne).
Defined.

(** X6. [openRoom] on a Room connection under whose name nothing is pending:
    the socket joins the group, the snapshot of open rooms is broadcast, and
    when the event names the socket's own id the acknowledgment carries
    [result: true].  Nothing else happens: the cache is as it was. *)
Theorem openRoom_acknowledged (socket : Socket) (data : RoomRef.t) (st : Server)
    (k : string) :
  Query.room (handshake_query socket) = Some k -> k ≠ "" ->
  JsMap.has k (pendingWarnings st) = false ->
  RoomRef.id data = VStr (socket_id socket) ->
  let st0 := join (socket_id socket) (RoomRef.room data) st in
  onOpenRoom socket data true st =
    (Ok tt,
     push_acked
       (Json (VObj [("event", VStr "onOpenRoom");
                    ("room", VStr (RoomRef.room data));
                    ("result", VBool true)]))
       (push_emitted {| dest := ToNamespace; event := VStr "openRoomsExposed";
                        body := Snapshot (ServerProxy.openRooms st0) |} st0)) ∧
  pendingWarnings (run (onOpenRoom socket data true) st) = pendingWarnings st.
Proof.
  intros Hroom Hne Hhas Hid st0.
  destruct (join_lookup (socket_id socket) (RoomRef.room data) st) as (ms & Hms & Hin).
  fold st0 in Hms.
  assert (Hp : pendingWarnings st0 = pendingWarnings st) by apply join_frame.
  assert (E : onOpenRoom socket data true st =
    (Ok tt,
     push_acked
       (Json (VObj [("event", VStr "onOpenRoom");
                    ("room", VStr (RoomRef.room data));
                    ("result", VBool true)]))
       (push_emitted {| dest := ToNamespace; event := VStr "openRoomsExposed";
                        body := Snapshot (ServerProxy.openRooms st0) |} st0))).
  { rewrite onOpenRoom_eq. cbv zeta. fold st0.
    unfold handlePendings. rewrite Hroom, (truthy_opt_Some k Hne).
    unfold mbind, M_bind, bind, gets. simpl. rewrite Hp, Hhas. simpl.
    rewrite (roomIds_group (RoomRef.room data) (RoomRef.id data) _ ms); [|exact Hms].
    rewrite Hid. simpl. by rewrite bool_decide_eq_true_2. }
  split; [exact E|]. unfold run. rewrite E. simpl. exact Hp.
Qed.

Lemma openRoom_acknowledged_witness :
  (Query.room (handshake_query Scenario.cafe) = Some "Cafe1" ∧ "Cafe1" ≠ "" ∧
   JsMap.has "Cafe1" (pendingWarnings Scenario.two_alerts) = false ∧
   RoomRef.id Scenario.cafe_ref = VStr (socket_id Scenario.cafe)) ∧
  pendingWarnings (run (onOpenRoom Scenario.cafe Scenario.cafe_ref true)
                     Scenario.two_alerts) = pendingWarnings Scenario.two_alerts.
Proof.
  assert (Hne : "Cafe1" ≠ "") by discriminate.
  assert (Hhas : JsMap.has "Cafe1" (pendingWarnings Scenario.two_alerts) = false)
    by (vm_compute; reflexivity).
  split; [repeat split; try reflexivity; done|].
  exact (proj2 (openRoom_acknowledged Scenario.cafe Scenario.cafe_ref
                  Scenario.two_alerts "Cafe1" eq_refl Hne Hhas eq_refl)).
Defined.

(** X7. [openRoom] while the cache holds, before or at the room's own entry,
    an entry the Room drain cannot read: the room is joined and the snapshot
    broadcast, the drain stops at that entry, and the [catch] of the handler
    swallows the error, so that no acknowledgment is sent. *)
Theorem openRoom_unacknowledged (socket : Socket) (data : RoomRef.t) (st : Server)
    (r : string) (pre post : JsMap.t) (k : string) (v : value) (err : JsError) :
  Query.room (handshake_query socket) = Some r -> r ≠ "" ->
  JsMap.has r (pendingWarnings st) = true ->
  pendingWarnings st = pre ++ (k, v) :: post ->
  Forall readable pre ->
  exposureDates_of k v = Throw err ->
  let st' := run (onOpenRoom socket data true) st in
  (onOpenRoom socket data true st).1 = Ok tt ∧
  acked st' = acked st ∧
  pendingWarnings st' = (k, v) :: post ∧
  socket_id socket ∈ members (RoomRef.room data) st'.
Proof.
  intros Hroom Hne Hhas Hst Hall Herr st'.
  set (st0 := join (socket_id socket) (RoomRef.room data) st).
  set (st1 := push_emitted {| dest := ToNamespace; event := VStr "openRoomsExposed";
                              body := Snapshot (ServerProxy.openRooms st0) |} st0).
  assert (Hp1 : pendingWarnings st1 = pre ++ (k, v) :: post).
  { unfold st1. simpl. unfold st0. by rewrite (proj1 (proj2 (join_frame _ _ _))). }
  assert (Ha1 : acked st1 = acked st).
  { unfold st1. simpl. unfold st0. apply join_frame. }
  destruct (forEach_flush_warning_stops (handshake_query socket) pre st1 k v post err
              Hp1 Hall Herr) as (H1 & H2 & _).
  destruct (handlePendings_frame (handshake_query socket) st1) as (_ & Hr & _ & Ha).
  assert (Hthrow : ∃ st2, handlePendings (handshake_query socket) st1 = (Throw err, st2) ∧
                          pendingWarnings st2 = (k, v) :: post).
  { unfold handlePendings. rewrite Hroom, (truthy_opt_Some r Hne).
    unfold forEach, mbind, M_bind, bind, gets. rewrite Hp1, <- Hst, Hhas. simpl.
    change (pendingWarnings st0) with (pendingWarnings st1). rewrite Hp1.
    unfold run in H2.
    destruct (forEach_from pendingWarnings (flush_warning (handshake_query socket))
                (pre ++ (k, v) :: post) st1) as [[[]|e] st2]; simpl in *.
    - discriminate H1.
    - exists st2. split; [|exact H2]. by inversion H1. }
  destruct Hthrow as (st2 & Hth & Hp2).
  unfold run in Hr, Ha. rewrite Hth in Hr, Ha. simpl in Hr, Ha.
  assert (E : onOpenRoom socket data true st = (Ok tt, st2)).
  { rewrite onOpenRoom_eq. cbv zeta. fold st0. fold st1. by rewrite Hth. }
  unfold st', run. rewrite E. simpl.
  split; [done|]. split; [by rewrite Ha|]. split; [exact Hp2|].
  destruct (join_lookup (socket_id socket) (RoomRef.room data) st) as (ms & Hms & Hin).
  unfold members. rewrite Hr. unfold st1. simpl. fold st0 in Hms. by rewrite Hms.
Qed.

Lemma openRoom_unacknowledged_witness :
  (Query.room (handshake_query Scenario.cafe) = Some "Cafe1" ∧ "Cafe1" ≠ "" ∧
   JsMap.has "Cafe1" (pendingWarnings Scenario.mixed_pending) = true ∧
   pendingWarnings Scenario.mixed_pending =
     [("Cafe2", ExposureWarning.to_value Scenario.bob_warns_cafe2)] ++
     ("Bob", AlertVisitor.to_value Scenario.alert1) ::
     [("Cafe1", ExposureWarning.to_value Scenario.bob_warns)] ∧
   Forall readable [("Cafe2", ExposureWarning.to_value Scenario.bob_warns_cafe2)] ∧
   exposureDates_of "Bob" (AlertVisitor.to_value Scenario.alert1) =
     Throw (TypeError "Cannot read property 'Bob' of undefined")) ∧
  acked (run (onOpenRoom Scenario.cafe Scenario.cafe_ref true) Scenario.mixed_pending) =
    acked Scenario.mixed_pending.
Proof.
  assert (Hne : "Cafe1" ≠ "") by discriminate.
  assert (Hhas : JsMap.has "Cafe1" (pendingWarnings Scenario.mixed_pending) = true)
    by (vm_compute; reflexivity).
  assert (Hst : pendingWarnings Scenario.mixed_pending =
     [("Cafe2", ExposureWarning.to_value Scenario.bob_warns_cafe2)] ++
     ("Bob", AlertVisitor.to_value Scenario.alert1) ::
     [("Cafe1", ExposureWarning.to_value Scenario.bob_warns)])
    by (vm_compute; reflexivity).
  assert (Hall : Forall readable
            [("Cafe2", ExposureWarning.to_value Scenario.bob_warns_cafe2)])
    by (vm_compute; repeat constructor).
  assert (Herr : exposureDates_of "Bob" (AlertVisitor.to_value Scenario.alert1) =
                 Throw (TypeError "Cannot read property 'Bob' of undefined"))
    by (vm_compute; reflexivity).
  split; [repeat split; try reflexivity; done|].
  exact (proj1 (proj2 (openRoom_unacknowledged Scenario.cafe Scenario.cafe_ref
           Scenario.mixed_pending "Cafe1" _ _ _ _ _
           eq_refl Hne Hhas Hst Hall Herr))).
Defined.

(** X8. [closeRoom] only leaves the group and acknowledges.  It emits
    nothing and touches neither the registry nor the caches, the socket is no
    longer a member of the group, and when the event names the socket's own id
    the acknowledgment carries [result: true].  The one exception is an id
    that is itself a name every object inherits, in a group that still has
    members: the lookup among the group's sockets then finds the inherited
    member, and the result is [false]. *)
Theorem closeRoom_leaves (socket : Socket) (data : RoomRef.t) (st : Server) :
  RoomRef.id data = VStr (socket_id socket) ->
  let st_l := leave (socket_id socket) (RoomRef.room data) st in
  onCloseRoom socket data true st =
    (Ok tt,
     push_acked
       (Json (VObj [("event", VStr "onCloseRoom");
                    ("room", VStr (RoomRef.room data));
                    ("result",
                     VBool (negb (bool_decide (is_Some (rooms st_l !! RoomRef.room data)) &&
                                  truthy (inherited (socket_id socket)))))]))
       st_l) ∧
  (inherited (socket_id socket) = VUndef ->
   onCloseRoom socket data true st =
     (Ok tt,
      push_acked
        (Json (VObj [("event", VStr "onCloseRoom");
                     ("room", VStr (RoomRef.room data));
                     ("result", VBool true)]))
        st_l)) ∧
  let st' := run (onCloseRoom socket data true) st in
  (socket_id socket ∉ members (RoomRef.room data) st') ∧
  sockets st' = sockets st ∧
  pendingWarnings st' = pendingWarnings st ∧
  radarPending st' = radarPending st ∧
  emitted st' = emitted st.
Proof.
  intros Hid st_l.
  pose proof (leave_lookup (socket_id socket) (RoomRef.room data) st) as Hl.
  destruct (leave_frame (socket_id socket) (RoomRef.room data) st)
    as (Hs & Hp & Hrp & He & _).
  fold st_l in Hl, Hs, Hp, Hrp, He.
  assert (Hinc : truthy (ServerProxy.roomIdsIncludeSocket (RoomRef.room data)
                           (VStr (socket_id socket)) st_l) =
                 bool_decide (is_Some (rooms st_l !! RoomRef.room data)) &&
                 truthy (inherited (socket_id socket))).
  { destruct (rooms st_l !! RoomRef.room data) as [ms|] eqn:E.
    - rewrite (roomIds_group _ _ _ ms E). simpl in Hl.
      cbn [to_string]. rewrite (bool_decide_eq_false_2 _ Hl).
      rewrite (bool_decide_eq_true_2 (is_Some (Some ms))); [done | by eexists].
    - rewrite (roomIds_none _ _ _ E).
      rewrite bool_decide_eq_false_2; [done | by intros [x Hx]]. }
  assert (E : onCloseRoom socket data true st =
    (Ok tt,
     push_acked
       (Json (VObj [("event", VStr "onCloseRoom");
                    ("room", VStr (RoomRef.room data));
                    ("result",
                     VBool (negb (bool_decide (is_Some (rooms st_l !! RoomRef.room data)) &&
                                  truthy (inherited (socket_id socket)))))]))
       st_l)).
  { unfold onCloseRoom, try_catch. cbv zeta.
    unfold mbind, M_bind, bind, modify, gets, ack_if, ack_body, when, modify.
    fold st_l. rewrite Hid, Hinc. reflexivity. }
  split; [exact E|]. split.
  - intros Hord. rewrite E, Hord. simpl. by rewrite andb_false_r.
  - unfold run. rewrite E. simpl. split; [exact Hl|]. done.
Qed.

Lemma closeRoom_leaves_witness :
  RoomRef.id Scenario.cafe_ref = VStr (socket_id Scenario.cafe) ∧
  emitted (run (onCloseRoom Scenario.cafe Scenario.cafe_ref true) Scenario.cafe_open) =
    emitted Scenario.cafe_open.
Proof.
  split; [reflexivity|].
  exact (proj2 (proj2 (proj2 (proj2 (proj2 (proj2 (closeRoom_leaves Scenario.cafe
           Scenario.cafe_ref Scenario.cafe_open eq_refl))))))).
Defined.

(* ===================================================================== *)
(** ** Further properties: entering and leaving a room *)
(* ===================================================================== *)

(** X9. [enterRoom] into a group that exists: no error is acknowledged; the
    socket becomes a member unless it already is one, [checkIn] is broadcast
    to the group, and the single acknowledgment reports the member count after
    the join.  Entering twice counts the visitor once. *)
Theorem enterRoom_existing_group (socket : Socket) (data : EnterRoom.t)
    (st : Server) (ms : list string) :
  let room := EnterRoom.room data in
  let name := RoomRef.room room in
  rooms st !! name = Some ms -> name ≠ "" ->
  let ms' := if bool_decide (socket_id socket ∈ ms) then ms
             else ms ++ [socket_id socket] in
  let st' := run (onEnterRoom socket data true) st in
  acked st' =
    acked st ++
    [Json (VObj [("event", VStr "onEnterRoom");
                 ("room", RoomRef.to_value room);
                 ("occupants", VNum (Z.of_nat (length ms')));
                 ("result", VBool true);
                 ("emits", VStr "checkIn")])] ∧
  rooms st' !! name = Some ms' ∧
  emitted st' =
    emitted st ++
    [{| dest := ToGroup (VStr name);
        event := VStr "checkIn";
        body := Json (VObj [("visitor", EnterRoom.visitor data);
                            ("sentTime", EnterRoom.sentTime data);
                            ("room", RoomRef.to_value room);
                            ("message", VStr "Entered");
                            ("socketId", VStr (socket_id socket))]) |}].
Proof.
  intros room name Hms Hne ms' st'.
  pose proof (truthy_str name Hne) as Ht.
  assert (Hin : socket_id socket ∈ ms').
  { unfold ms'. case_bool_decide; [done|].
    apply elem_of_app. right. by apply list_elem_of_singleton. }
  assert (Hlen : truthy (VNum (Z.of_nat (length ms'))) = true).
  { simpl. destruct ms' as [|x l]; [by apply elem_of_nil in Hin|]. done. }
  set (st_j := join (socket_id socket) name st).
  assert (Hj : rooms st_j !! name = Some ms').
  { unfold st_j, join, members, ms'. rewrite Hms. simpl.
    case_bool_decide; [exact Hms|]. simpl. by rewrite lookup_insert_eq. }
  destruct (join_frame (socket_id socket) name st) as (_ & _ & _ & He & Ha).
  fold st_j in He, Ha.
  set (st_e := push_emitted
      {| dest := ToGroup (VStr name); event := VStr "checkIn";
         body := Json (VObj [("visitor", EnterRoom.visitor data);
                             ("sentTime", EnterRoom.sentTime data);
                             ("room", RoomRef.to_value room);
                             ("message", VStr "Entered");
                             ("socketId", VStr (socket_id socket))]) |} st_j).
  assert (Hinc : ServerProxy.roomIdsIncludeSocket name (VStr (socket_id socket)) st_j =
                 VBool true).
  { rewrite (roomIds_group name _ st_j ms' Hj). cbn [to_string].
    by rewrite (bool_decide_eq_true_2 _ Hin). }
  assert (Hocc : ServerProxy.getOccupancy name st_e =
                 (Ok (VNum (Z.of_nat (length ms'))), st_e)).
  { unfold ServerProxy.getOccupancy. rewrite Ht. simpl.
    unfold mbind, M_bind, bind, gets, lift.
    rewrite (rooms_at_group name st_e ms'); [done | exact Hj]. }
  assert (E : onEnterRoom socket data true st =
              (Ok tt, push_acked
                 (Json (VObj [("event", VStr "onEnterRoom");
                              ("room", RoomRef.to_value room);
                              ("occupants", VNum (Z.of_nat (length ms')));
                              ("result", VBool true);
                              ("emits", VStr "checkIn")])) st_e)).
  { unfold onEnterRoom, try_catch. fold room. fold name.
    unfold mbind, M_bind, bind, gets.
    rewrite (rooms_at_group name st ms Hms).
    change (truthy (ServerProxy.room_object ms)) with true.
    unfold when, negb, ret, modify, emit, modify. fold st_j. rewrite Hinc. fold st_e.
    rewrite Hocc, Hlen. reflexivity. }
  unfold st', run. rewrite E. simpl. rewrite Ha, He, Hj. done.
Qed.

Lemma enterRoom_existing_group_witness :
  (rooms Scenario.cafe_open !! "Cafe1" = Some ["R1"] ∧ "Cafe1" ≠ "") ∧
  rooms (run (onEnterRoom Scenario.bob
                (EnterRoom.mk Scenario.cafe_ref (VStr "Bob") (VStr "10:00")) true)
           Scenario.cafe_open) !! "Cafe1" = Some ["R1"; "V2"].
Proof.
  assert (H1 : rooms Scenario.cafe_open !! "Cafe1" = Some ["R1"])
    by (vm_compute; reflexivity).
  assert (Hne : "Cafe1" ≠ "") by discriminate.
  split; [split; [exact H1 | exact Hne]|].
  exact (proj1 (proj2 (enterRoom_existing_group Scenario.bob
           (EnterRoom.mk Scenario.cafe_ref (VStr "Bob") (VStr "10:00"))
           Scenario.cafe_open ["R1"] H1 Hne))).
Defined.

(** What [leaveRoom] broadcasts to the group. *)
Lemma onLeaveRoom_start socket now data ack st :
  let room := LeaveRoom.room data in
  let name := RoomRef.room room in
  let st1 := push_emitted
      {| dest := ToGroup (VStr name); event := VStr "checkOut";
         body := Json (VObj [("visitor", LeaveRoom.visitor data);
                             ("sentTime", LeaveRoom.sentTime data);
                             ("room", RoomRef.to_value room);
                             ("message", LeaveRoom.message data)]) |}
      (leave (socket_id socket) name st) in
  onLeaveRoom socket now data ack st =
    match ServerProxy.updateOccupancy name st1 with
    | (Ok _, st2) =>
        match get_prop (LeaveRoom.visitor data) "visitor" with
        | Ok who =>
            ack_if ack
              (VStr ("Using their own socket " ^ socket_id socket ^ ", " ^
                     to_string who ^ " " ^
                     (if truthy (ServerProxy.roomIdsIncludeSocket name
                                   (of_opt (Query.id (handshake_query socket))) st2)
                      then "did not make it out of" else "made it out of") ^
                     " Room [" ^ name ^ " " ^ to_string (RoomRef.id room) ^ "] on " ^
                     now)) st2
        | Throw e => (Throw e, st2)
        end
    | (Throw e, st2) => (Throw e, st2)
    end.
Proof.
  intros room name st1. unfold onLeaveRoom. fold room. fold name.
  unfold mbind, M_bind, bind, modify, emit, modify. fold st1.
  destruct (ServerProxy.updateOccupancy name st1) as [[a|e] st2]; [|done].
  unfold lift. destruct (get_prop (LeaveRoom.visitor data) "visitor"); [|done].
  unfold gets. done.
Qed.

Lemma updateOccupancy_frame room st :
  let sent := truthy (VStr room) && truthy (ServerProxy.rooms_at room st) in
  let occupancy := js_or (ServerProxy.rooms_at "length" st) (VNum 0) in
  (ServerProxy.updateOccupancy room st).1 = Ok (if sent then occupancy else VNum 0) ∧
  sockets (run (ServerProxy.updateOccupancy room) st) = sockets st ∧
  rooms (run (ServerProxy.updateOccupancy room) st) = rooms st ∧
  pendingWarnings (run (ServerProxy.updateOccupancy room) st) = pendingWarnings st ∧
  radarPending (run (ServerProxy.updateOccupancy room) st) = radarPending st ∧
  acked (run (ServerProxy.updateOccupancy room) st) = acked st ∧
  emitted (run (ServerProxy.updateOccupancy room) st) =
    emitted st ++
    (if sent
     then [{| dest := ToNamespace; event := VStr "updatedOccupancy";
              body := Json (VObj [("room", VStr room); ("occupancy", occupancy)]) |}]
     else []).
Proof.
  intros sent occupancy. unfold sent, occupancy.
  unfold run, ServerProxy.updateOccupancy, mbind, M_bind, bind, gets. cbv beta iota.
  destruct (truthy (VStr room) && truthy (ServerProxy.rooms_at room st)).
  - unfold emit, modify, mbind, M_bind, bind, gets, mret, M_ret, ret. simpl.
    repeat split; reflexivity.
  - unfold mret, M_ret, ret. simpl. rewrite app_nil_r.
    repeat split; reflexivity.
Qed.

(** X10. [leaveRoom] whose payload has no visitor.  Nothing catches the
    TypeError the acknowledgment text runs into, and by then the work is done:
    the socket has left the group and [checkOut] has been broadcast; only the
    acknowledgment is missing, and the caches are as they were. *)
Theorem leaveRoom_without_visitor (socket : Socket) (now : string)
    (data : LeaveRoom.t) (ack : bool) (st : Server) (err : JsError) :
  get_prop (LeaveRoom.visitor data) "visitor" = Throw err ->
  let name := RoomRef.room (LeaveRoom.room data) in
  let st' := run (onLeaveRoom socket now data ack) st in
  (onLeaveRoom socket now data ack st).1 = Throw err ∧
  acked st' = acked st ∧
  rooms st' = rooms (leave (socket_id socket) name st) ∧
  (socket_id socket ∉ members name st') ∧
  pendingWarnings st' = pendingWarnings st ∧
  (∃ rest, emitted st' =
     emitted st ++
     {| dest := ToGroup (VStr name); event := VStr "checkOut";
        body := Json (VObj [("visitor", LeaveRoom.visitor data);
                            ("sentTime", LeaveRoom.sentTime data);
                            ("room", RoomRef.to_value (LeaveRoom.room data));
                            ("message", LeaveRoom.message data)]) |} :: rest).
Proof.
  intros Herr name st'.
  set (st1 := push_emitted
      {| dest := ToGroup (VStr name); event := VStr "checkOut";
         body := Json (VObj [("visitor", LeaveRoom.visitor data);
                             ("sentTime", LeaveRoom.sentTime data);
                             ("room", RoomRef.to_value (LeaveRoom.room data));
                             ("message", LeaveRoom.message data)]) |}
      (leave (socket_id socket) name st)).
  destruct (updateOccupancy_frame name st1) as (Hok & _ & Hr & Hp & _ & Ha & He).
  destruct (leave_frame (socket_id socket) name st) as (_ & Hlp & _ & Hle & Hla).
  pose proof (leave_lookup (socket_id socket) name st) as Hl.
  unfold st', run. rewrite onLeaveRoom_start. cbv zeta. fold name. fold st1.
  unfold run in *.
  destruct (ServerProxy.updateOccupancy name st1) as [[a|e] st2]; simpl in *;
    [|discriminate Hok].
  rewrite Herr. simpl. rewrite Ha, Hr, Hp, He, Hle.
  split; [done|]. split; [exact Hla|]. split; [done|].
  split; [unfold members; by rewrite Hr|]. split; [exact Hlp|].
  rewrite <- app_assoc. simpl. by eexists.
Qed.

Lemma leaveRoom_without_visitor_witness :
  get_prop (LeaveRoom.visitor Scenario.ann_leaves_anonymous) "visitor" =
    Throw (TypeError "Cannot read property 'visitor' of undefined") ∧
  acked (run (onLeaveRoom Scenario.ann "10:30" Scenario.ann_leaves_anonymous true)
           Scenario.ann_in_open_cafe) = acked Scenario.ann_in_open_cafe.
Proof.
  split; [reflexivity|].
  exact (proj1 (proj2 (leaveRoom_without_visitor Scenario.ann "10:30"
           Scenario.ann_leaves_anonymous true Scenario.ann_in_open_cafe _ eq_refl))).
Defined.

Lemma truthy_rooms_at name st :
  truthy (ServerProxy.rooms_at name st) =
    bool_decide (is_Some (rooms st !! name)) || truthy (inherited name).
Proof.
  unfold ServerProxy.rooms_at. destruct (rooms st !! name) as [ms|] eqn:E.
  - rewrite (bool_decide_eq_true_2 (is_Some (Some ms))); [done | by eexists].
  - rewrite (bool_decide_eq_false_2 (is_Some None)); [done | by intros [x Hx]].
Qed.

(** X11. [leaveRoom] with a visitor whose name is a string, for a room whose
    id is a string, on a socket whose query id is its socket id, when no
    group is called 'length'.  The socket leaves, [checkOut] goes to the
    group, and the one acknowledgment says the visitor 'made it out of' the
    room; it says 'did not make it out of' in the one case where the socket's
    id is a name every object inherits and the group still has members.  If
    the table of groups still answers for the room's name, because the group
    has members left or because the name is one every object inherits,
    [updatedOccupancy] is broadcast to everyone, and the occupancy it carries
    is 0 however many members remain. *)
Theorem leaveRoom_reports (socket : Socket) (now : string) (data : LeaveRoom.t)
    (st : Server) (who rid : string) :
  get_prop (LeaveRoom.visitor data) "visitor" = Ok (VStr who) ->
  Query.id (handshake_query socket) = Some (socket_id socket) ->
  let room := LeaveRoom.room data in
  let name := RoomRef.room room in
  RoomRef.id room = VStr rid ->
  let st_l := leave (socket_id socket) name st in
  rooms st_l !! "length" = None ->
  let remains := bool_decide (is_Some (rooms st_l !! name)) in
  let st' := run (onLeaveRoom socket now data true) st in
  (onLeaveRoom socket now data true st).1 = Ok tt ∧
  acked st' =
    acked st ++
    [Json (VStr ("Using their own socket " ^ socket_id socket ^ ", " ^ who ^ " " ^
                 (if remains && truthy (inherited (socket_id socket))
                  then "did not make it out of" else "made it out of") ^
                 " Room [" ^ name ^ " " ^ rid ^ "] on " ^ now))] ∧
  (socket_id socket ∉ members name st') ∧
  emitted st' =
    emitted st ++
    {| dest := ToGroup (VStr name); event := VStr "checkOut";
       body := Json (VObj [("visitor", LeaveRoom.visitor data);
                           ("sentTime", LeaveRoom.sentTime data);
                           ("room", RoomRef.to_value room);
                           ("message", LeaveRoom.message data)]) |} ::
    (if truthy (VStr name) && (remains || truthy (inherited name))
     then [{| dest := ToNamespace; event := VStr "updatedOccupancy";
              body := Json (VObj [("room", VStr name); ("occupancy", VNum 0)]) |}]
     else []).
Proof.
  intros Hwho Hid room name Hrid st_l Hlen remains st'.
  set (st1 := push_emitted
      {| dest := ToGroup (VStr name); event := VStr "checkOut";
         body := Json (VObj [("visitor", LeaveRoom.visitor data);
                             ("sentTime", LeaveRoom.sentTime data);
                             ("room", RoomRef.to_value room);
                             ("message", LeaveRoom.message data)]) |} st_l).
  destruct (updateOccupancy_frame name st1) as (Hok & _ & Hr & _ & _ & Ha & He).
  destruct (leave_frame (socket_id socket) name st) as (_ & _ & _ & Hle & Hla).
  pose proof (leave_lookup (socket_id socket) name st) as Hl.
  fold st_l in Hle, Hla, Hl.
  assert (Hocc : js_or (ServerProxy.rooms_at "length" st1) (VNum 0) = VNum 0).
  { rewrite (rooms_at_none "length" st1 Hlen). reflexivity. }
  assert (Hsent : truthy (ServerProxy.rooms_at name st1) =
                  remains || truthy (inherited name)) by apply truthy_rooms_at.
  unfold st', run. rewrite onLeaveRoom_start. cbv zeta. fold room. fold name.
  fold st_l. fold st1.
  unfold run in *.
  destruct (ServerProxy.updateOccupancy name st1) as [[a|e] st2]; simpl in Hok, Hr, Ha, He;
    [|discriminate Hok].
  rewrite Hwho, Hid, Hrid. unfold ack_if, ack_body, when, modify. cbn [of_opt to_string].
  assert (Hinc : truthy (ServerProxy.roomIdsIncludeSocket name (VStr (socket_id socket)) st2) =
                 remains && truthy (inherited (socket_id socket))).
  { unfold remains. rewrite <- Hr.
    destruct (rooms st2 !! name) as [ms|] eqn:E.
    - rewrite (roomIds_group _ _ _ ms E). cbn [to_string].
      assert (Hl2 : socket_id socket ∉ ms).
      { rewrite Hr in E. rewrite E in Hl. exact Hl. }
      rewrite (bool_decide_eq_false_2 _ Hl2).
      rewrite (bool_decide_eq_true_2 (is_Some (Some ms))); [done | by eexists].
    - rewrite (roomIds_none _ _ _ E).
      rewrite (bool_decide_eq_false_2 (is_Some None)); [done | by intros [x Hx]]. }
  rewrite Hinc. cbn [fst snd].
  split; [done|].
  split; [unfold push_acked; cbn [acked]; rewrite Ha, Hla; reflexivity|].
  split; [unfold members, push_acked; cbn [rooms]; rewrite Hr; exact Hl|].
  unfold push_acked; cbn [emitted]. rewrite He, Hocc, Hsent, Hle.
  rewrite <- app_assoc. reflexivity.
Qed.

Lemma leaveRoom_reports_witness :
  ((get_prop (LeaveRoom.visitor Scenario.ann_leaves) "visitor" = Ok (VStr "Ann") ∧
    Query.id (handshake_query Scenario.ann) = Some (socket_id Scenario.ann) ∧
    RoomRef.id (LeaveRoom.room Scenario.ann_leaves) = VStr "R1" ∧
    rooms (leave "V1" "Cafe1" Scenario.ann_in_open_cafe) !! "length" = None) ∧
   acked (run (onLeaveRoom Scenario.ann "10:30" Scenario.ann_leaves true)
            Scenario.ann_in_open_cafe) =
     acked Scenario.ann_in_open_cafe ++
     [Json (VStr "Using their own socket V1, Ann made it out of Room [Cafe1 R1] on 10:30")] ∧
   skipn (length (emitted Scenario.ann_in_open_cafe))
     (emitted (run (onLeaveRoom Scenario.ann "10:30" Scenario.ann_leaves true)
                 Scenario.ann_in_open_cafe)) =
     [{| dest := ToGroup (VStr "Cafe1"); event := VStr "checkOut";
         body := Json (VObj [("visitor", VObj [("visitor", VStr "Ann")]);
                             ("sentTime", VStr "10:30");
                             ("room", RoomRef.to_value Scenario.cafe_ref);
                             ("message", VStr "Left")]) |};
      {| dest := ToNamespace; event := VStr "updatedOccupancy";
         body := Json (VObj [("room", VStr "Cafe1"); ("occupancy", VNum 0)]) |}]) ∧
  ((get_prop (LeaveRoom.visitor Scenario.ann_leaves_constructor) "visitor" =
      Ok (VStr "Ann") ∧
    RoomRef.id (LeaveRoom.room Scenario.ann_leaves_constructor) = VStr "R9" ∧
    rooms (leave "V1" "constructor" Scenario.ann_alone) !! "constructor" = None ∧
    rooms (leave "V1" "constructor" Scenario.ann_alone) !! "length" = None) ∧
   skipn (length (emitted Scenario.ann_alone))
     (emitted (run (onLeaveRoom Scenario.ann "10:30" Scenario.ann_leaves_constructor true)
                 Scenario.ann_alone)) =
     [{| dest := ToGroup (VStr "constructor"); event := VStr "checkOut";
         body := Json (VObj [("visitor", VObj [("visitor", VStr "Ann")]);
                             ("sentTime", VStr "10:30");
                             ("room", VObj [("room", VStr "constructor");
                                            ("id", VStr "R9")]);
                             ("message", VStr "Left")]) |};
      {| dest := ToNamespace; event := VStr "updatedOccupancy";
         body := Json (VObj [("room", VStr "constructor"); ("occupancy", VNum 0)]) |}]).
Proof.
  assert (Hlen : rooms (leave "V1" "Cafe1" Scenario.ann_in_open_cafe) !! "length" = None)
    by (vm_compute; reflexivity).
  assert (Hlen2 : rooms (leave "V1" "constructor" Scenario.ann_alone) !! "length" = None)
    by (vm_compute; reflexivity).
  pose proof (leaveRoom_reports Scenario.ann "10:30" Scenario.ann_leaves
                Scenario.ann_in_open_cafe "Ann" "R1" eq_refl eq_refl eq_refl Hlen)
    as (_ & Hack & _ & Hem).
  pose proof (leaveRoom_reports Scenario.ann "10:30" Scenario.ann_leaves_constructor
                Scenario.ann_alone "Ann" "R9" eq_refl eq_refl eq_refl Hlen2)
    as (_ & _ & _ & Hem2).
  split.
  - split; [repeat split; try reflexivity; done|]. split.
    + rewrite Hack. vm_compute. reflexivity.
    + rewrite Hem. rewrite skipn_app, skipn_all, Nat.sub_diag. vm_compute. reflexivity.
  - split; [repeat split; try reflexivity; try done; vm_compute; reflexivity|].
    rewrite Hem2. rewrite skipn_app, skipn_all, Nat.sub_diag. vm_compute. reflexivity.
Defined.

(* ===================================================================== *)
(** ** Further properties: warnings and alerts *)
(* ===================================================================== *)

Lemma warn_effect_frame data st0 entries :
  ∀ s, sockets (fold_left (warn_effect data st0) entries s) = sockets s ∧
       rooms (fold_left (warn_effect data st0) entries s) = rooms s ∧
       acked (fold_left (warn_effect data st0) entries s) = acked s ∧
       radarPending (fold_left (warn_effect data st0) entries s) = radarPending s.
Proof.
  induction entries as [|e rest IH]; intros s; simpl; [done|].
  destruct (IH (warn_effect data st0 s e)) as (H1 & H2 & H3 & H4).
  rewrite H1, H2, H3, H4. unfold warn_effect. by destruct (isOpen e.1 st0).
Qed.

Lemma warn_each_eq data st0 entries :
  ∀ results s, sockets s = sockets st0 -> rooms s = rooms st0 ->
    warn_each data results entries s =
      (Ok (results ++ map (warn_result st0) entries),
       fold_left (warn_effect data st0) entries s).
Proof.
  induction entries as [|[rn w] rest IH]; intros results s Hs Hr; simpl.
  - by rewrite app_nil_r.
  - unfold mbind, M_bind, bind. unfold warn_one at 1. simpl.
    unfold mbind, M_bind, bind, gets. rewrite (isOpen_frame rn st0 s Hs Hr).
    unfold warn_effect at 2, warn_result at 1. simpl.
    destruct (isOpen rn st0); simpl.
    + rewrite IH by done. by rewrite <- app_assoc.
    + rewrite IH by done. by rewrite <- app_assoc.
Qed.

Lemma warn_effect_get data st0 k entries :
  ∀ s, JsMap.get k (pendingWarnings (fold_left (warn_effect data st0) entries s)) =
       if existsb (fun e => String.eqb k e.1 && negb (isOpen e.1 st0)) entries
       then Some (ExposureWarning.to_value data)
       else JsMap.get k (pendingWarnings s).
Proof.
  induction entries as [|[rn w] rest IH]; intros s; simpl; [done|].
  rewrite IH. unfold warn_effect. simpl.
  destruct (isOpen rn st0); simpl.
  - by rewrite andb_false_r.
  - rewrite andb_true_r. destruct (String.eqb k rn) eqn:E; simpl.
    + apply String.eqb_eq in E. subst rn. rewrite get_set_eq.
      by destruct (existsb _ rest).
    + rewrite get_set_ne; [done|]. intros ->. by rewrite eqb_refl_true in E.
Qed.

Lemma warn_effect_emitted data st0 entries :
  ∀ s, emitted (fold_left (warn_effect data st0) entries s) =
       emitted s ++
       repeat misaddressed (length (List.filter (fun e => isOpen e.1 st0) entries)).
Proof.
  induction entries as [|[rn w] rest IH]; intros s; simpl.
  - by rewrite app_nil_r.
  - rewrite IH. unfold warn_effect. simpl.
    destruct (isOpen rn st0); simpl; [|done]. by rewrite <- app_assoc.
Qed.

Lemma flat_warn_results st entries :
  flat (map (warn_result st) entries) = map (warn_result st) entries.
Proof.
  unfold flat. induction entries as [|e rest IH]; simpl; [done|]. by rewrite IH.
Qed.

(** X12. [exposureWarning] over the whole warnings map, the visitor being
    there.  The acknowledgment carries one result per room, in the order of
    the map.  Under every room of the map that is not open the whole event is
    stored, whatever was pending there before; every other key of the cache
    keeps what it had.  One misaddressed event goes out per open room, and the
    registry and the groups are not touched. *)
Theorem exposureWarning_per_room (data : ExposureWarning.t) (st : Server) :
  is_ok (get_prop (ExposureWarning.visitor data) "visitor") ->
  let entries := ExposureWarning.warnings data in
  let st' := run (onExposureWarning data true) st in
  acked st' =
    acked st ++
    [Json (VObj [("event", VStr "onExposureWarning");
                 ("result", VArr (map (warn_result st) entries));
                 ("emit", VStr "notifyRoom")])] ∧
  (∀ rn, rn ∈ map fst entries -> isOpen rn st = false ->
     JsMap.get rn (pendingWarnings st') = Some (ExposureWarning.to_value data)) ∧
  (∀ k, k ∉ map fst entries ∨ isOpen k st = true ->
     JsMap.get k (pendingWarnings st') = JsMap.get k (pendingWarnings st)) ∧
  emitted st' =
    emitted st ++
    repeat misaddressed (length (List.filter (fun e => isOpen e.1 st) entries)) ∧
  sockets st' = sockets st ∧ rooms st' = rooms st.
Proof.
  intros Hv entries st'.
  destruct (get_prop (ExposureWarning.visitor data) "visitor") as [x|] eqn:E; [|done].
  assert (Est : st' = push_acked
            (Json (VObj [("event", VStr "onExposureWarning");
                         ("result", VArr (map (warn_result st) entries));
                         ("emit", VStr "notifyRoom")]))
            (fold_left (warn_effect data st) entries st)).
  { unfold st', run, onExposureWarning, try_catch, lift.
    unfold mbind, M_bind, bind. rewrite E.
    fold entries. rewrite (warn_each_eq data st entries [] st eq_refl eq_refl).
    simpl. by rewrite flat_warn_results. }
  destruct (warn_effect_frame data st entries st) as (Hs & Hr & Ha & _).
  rewrite Est. simpl. rewrite Ha, Hs, Hr.
  split; [done|]. split; [|split; [|split; [apply warn_effect_emitted | done]]].
  - intros rn Hin Hclosed. rewrite warn_effect_get.
    assert (Hex : existsb (fun e => String.eqb rn e.1 && negb (isOpen e.1 st)) entries = true).
    { apply existsb_exists. apply list_elem_of_fmap in Hin as (e & -> & He).
      exists e. split; [by apply list_elem_of_In|].
      by rewrite eqb_refl_true, Hclosed. }
    by rewrite Hex.
  - intros k Hk. rewrite warn_effect_get.
    assert (Hex : existsb (fun e => String.eqb k e.1 && negb (isOpen e.1 st)) entries = false).
    { apply not_true_is_false. intros Hex.
      apply existsb_exists in Hex as (e & He & Hc).
      apply andb_true_iff in Hc as [Hk1 Hk2]. apply String.eqb_eq in Hk1. subst k.
      destruct Hk as [Hk|Hk].
      - apply Hk. apply list_elem_of_fmap. exists e. split; [done|].
        by apply list_elem_of_In.
      - by rewrite Hk in Hk2. }
    by rewrite Hex.
Qed.

Lemma exposureWarning_per_room_witness :
  is_ok (get_prop (ExposureWarning.visitor Scenario.bob_warns_two) "visitor") ∧
  acked (run (onExposureWarning Scenario.bob_warns_two true) Scenario.cafe_open) =
    acked Scenario.cafe_open ++
    [Json (VObj [("event", VStr "onExposureWarning");
                 ("result", VArr [VStr "undefined WARNED"; VStr "Cafe2 PENDING"]);
                 ("emit", VStr "notifyRoom")])].
Proof.
  split; [exact I|].
  rewrite (proj1 (exposureWarning_per_room Scenario.bob_warns_two Scenario.cafe_open I)).
  vm_compute. reflexivity.
Defined.

(** X13. [exposureWarning] without a visitor does nothing at all.  Reading
    the visitor's name throws before the first room is looked at, and the
    handler's [catch] swallows it: nothing is stored, nothing is sent and the
    callback is never called. *)
Theorem exposureWarning_without_visitor (data : ExposureWarning.t) (ack : bool)
    (st : Server) (err : JsError) :
  get_prop (ExposureWarning.visitor data) "visitor" = Throw err ->
  onExposureWarning data ack st = (Ok tt, st).
Proof.
  intros E. unfold onExposureWarning, try_catch, lift.
  unfold mbind, M_bind, bind. by rewrite E.
Qed.

Lemma exposureWarning_without_visitor_witness :
  get_prop (ExposureWarning.visitor Scenario.anonymous_warning) "visitor" =
    Throw (TypeError "Cannot read property 'visitor' of undefined") ∧
  onExposureWarning Scenario.anonymous_warning true Scenario.cafe_closed =
    (Ok tt, Scenario.cafe_closed).
Proof.
  split; [reflexivity|].
  exact (exposureWarning_without_visitor Scenario.anonymous_warning true
           Scenario.cafe_closed _ eq_refl).
Defined.

(** X14. [alertVisitor] without a message or without a visitor is turned
    down: the callback, when there is one, is called once, and nothing is
    stored or sent, whoever is online. *)
Theorem alertVisitor_invalid (data : AlertVisitor.t) (ack : bool) (st : Server) :
  truthy (AlertVisitor.message data) = false ∨
  truthy_opt (AlertVisitor.visitor data) = false ->
  let st' := run (onAlertVisitor data ack) st in
  (onAlertVisitor data ack st).1 = Ok tt ∧
  pendingWarnings st' = pendingWarnings st ∧
  radarPending st' = radarPending st ∧
  emitted st' = emitted st ∧
  sockets st' = sockets st ∧ rooms st' = rooms st ∧
  length (acked st') = (length (acked st) + (if ack then 1 else 0))%nat.
Proof.
  intros H st'.
  assert (Hc : negb (truthy (AlertVisitor.message data)) ||
               negb (truthy_opt (AlertVisitor.visitor data)) = true).
  { destruct H as [-> | ->]; [done | by rewrite orb_true_r]. }
  unfold st', run, onAlertVisitor, try_catch. cbv zeta. rewrite Hc.
  unfold ack_if, ack_body, when, modify. destruct ack; simpl.
  - rewrite length_app. simpl. repeat split; lia.
  - repeat split; lia.
Qed.

Lemma alertVisitor_invalid_witness :
  (truthy (AlertVisitor.message Scenario.alert_nobody) = false ∨
   truthy_opt (AlertVisitor.visitor Scenario.alert_nobody) = false) ∧
  pendingWarnings (run (onAlertVisitor Scenario.alert_nobody true) Scenario.cafe_closed) =
    pendingWarnings Scenario.cafe_closed.
Proof.
  assert (H : truthy (AlertVisitor.message Scenario.alert_nobody) = false ∨
              truthy_opt (AlertVisitor.visitor Scenario.alert_nobody) = false)
    by (right; reflexivity).
  split; [exact H|].
  exact (proj1 (proj2 (alertVisitor_invalid Scenario.alert_nobody true
                         Scenario.cafe_closed H))).
Defined.

(** X15. Pending warnings are consumed when the Room connects, not only when
    it opens.  The connect of a Room under whose name something is pending
    runs the drain: when every entry can be read the cache is empty
    afterwards, while the groups are as they were unless the client reconnects
    in state 'Opened'. *)
Theorem room_connect_drains (socket : Socket) (st : Server) (k : string) :
  truthy_opt (Query.id (handshake_query socket)) = true ->
  Query.room (handshake_query socket) = Some k -> k ≠ "" ->
  Query.state (handshake_query socket) ≠ Some "Opened" ->
  JsMap.has k (pendingWarnings st) = true ->
  Forall readable (pendingWarnings st) ->
  (handle (Connect socket) st).1 = Ok tt ∧
  pendingWarnings (step st (Connect socket)) = [] ∧
  rooms (step st (Connect socket)) = rooms st ∧
  length (emitted (step st (Connect socket))) =
    (length (emitted st) + length (pendingWarnings st) + 1)%nat.
Proof.
  intros Hid Hroom Hne Hstate Hhas Hall.
  set (st1 := register socket st).
  destruct (forEach_flush_warning (handshake_query socket) (pendingWarnings st) st1
              eq_refl Hall) as (H1 & H2 & H3).
  destruct (handlePendings_frame (handshake_query socket) st1) as (_ & Hr & _ & _).
  assert (Hh : ∃ st2, handlePendings (handshake_query socket) st1 = (Ok VUndef, st2) ∧
                      pendingWarnings st2 = [] ∧
                      length (emitted st2) =
                        (length (emitted st) + length (pendingWarnings st))%nat).
  { unfold handlePendings. rewrite Hroom, (truthy_opt_Some k Hne).
    unfold forEach, mbind, M_bind, bind, gets. simpl. rewrite Hhas. simpl.
    unfold run in H2, H3. simpl in H1, H2, H3.
    destruct (forEach_from pendingWarnings (flush_warning (handshake_query socket))
                (pendingWarnings st) st1) as [[[]|e] st2]; simpl in *.
    - by exists st2.
    - discriminate H1. }
  destruct Hh as (st2 & Hh & Hp & He).
  unfold run in Hr. rewrite Hh in Hr. simpl in Hr.
  assert (E : handle (Connect socket) st =
              (Ok tt, push_emitted
                        {| dest := ToNamespace; event := VStr "openRoomsExposed";
                           body := Snapshot (ServerProxy.openRooms st2) |} st2)).
  { simpl. unfold mbind, M_bind, bind, modify, io_on_connection. fold st1.
    rewrite Hid, Hroom, (truthy_opt_Some k Hne). simpl.
    rewrite bool_decide_eq_false_2 by exact Hstate. simpl.
    unfold onConnection, mbind, M_bind, bind, when, ret. cbv beta iota.
    rewrite Hh. reflexivity. }
  unfold step, run. rewrite E. simpl.
  split; [done|]. split; [exact Hp|]. split; [exact Hr|].
  rewrite length_app. simpl. lia.
Qed.

Lemma room_connect_drains_witness :
  (truthy_opt (Query.id (handshake_query Scenario.cafe)) = true ∧
   Query.room (handshake_query Scenario.cafe) = Some "Cafe1" ∧ "Cafe1" ≠ "" ∧
   Query.state (handshake_query Scenario.cafe) ≠ Some "Opened" ∧
   JsMap.has "Cafe1" (pendingWarnings Scenario.two_pending) = true ∧
   Forall readable (pendingWarnings Scenario.two_pending)) ∧
  pendingWarnings (step Scenario.two_pending (Connect Scenario.cafe)) = [].
Proof.
  assert (Hne : "Cafe1" ≠ "") by discriminate.
  assert (Hstate : Query.state (handshake_query Scenario.cafe) ≠ Some "Opened")
    by discriminate.
  assert (Hhas : JsMap.has "Cafe1" (pendingWarnings Scenario.two_pending) = true)
    by (vm_compute; reflexivity).
  assert (Hall : Forall readable (pendingWarnings Scenario.two_pending))
    by (vm_compute; repeat constructor).
  split; [repeat split; try reflexivity; done|].
  exact (proj1 (proj2 (room_connect_drains Scenario.cafe Scenario.two_pending "Cafe1"
           eq_refl eq_refl Hne Hstate Hhas Hall))).
Defined.

(* ===================================================================== *)
(** ** Further properties: [sendOrPend] and the cache of radar.js *)
(* ===================================================================== *)

Lemma visitors_by_id st id :
  has_length (List.filter (fun v => String.eqb (v_id v) id) (ServerProxy.visitors st)) = true
  <-> visitor_id_online id st.
Proof.
  rewrite has_length_true. unfold visitor_id_online. split.
  - intros (v & Hv). apply filter_In in Hv as [Hv Hid].
    apply String.eqb_eq in Hid.
    unfold ServerProxy.visitors, ServerProxy.sockets in Hv.
    apply filter_In in Hv as [Hv Ht]. apply in_map_iff in Hv as (s & <- & Hs).
    simpl in *. exists s. split; [by apply list_elem_of_In | done].
  - intros (s & Hs & Hid & Ht).
    exists {| v_id := socket_id s;
              v_room := Query.room (handshake_query s);
              v_visitor := Query.visitor (handshake_query s);
              v_namespace := Query.nsp (handshake_query s);
              v_connected := true |}.
    apply filter_In. split; [|simpl; by apply String.eqb_eq].
    unfold ServerProxy.visitors, ServerProxy.sockets. apply filter_In. split; [|done].
    apply in_map_iff. exists s. split; [done | by apply list_elem_of_In].
Qed.

Lemma defined_value_set k v (m : JsMap.t) :
  defined_value (k, v) -> Forall defined_value m -> Forall defined_value (JsMap.set k v m).
Proof.
  intros Hv. induction m as [|[k' v'] m IH]; simpl; intros Hall.
  - by constructor.
  - apply Forall_cons in Hall as [H1 H2].
    destruct (String.eqb k k'); constructor; try done. by apply IH.
Qed.

Lemma has_set k v (m : JsMap.t) : JsMap.has k (JsMap.set k v m) = true.
Proof. unfold JsMap.has. by rewrite get_set_eq. Qed.

Lemma sendOrPend_alert_aux (d : SendOrPend.t) (st : Server) :
  SendOrPend.event d = "exposureAlert" ->
  (visitor_id_online (SendOrPend.visitor_id d) st ->
     ServerProxy.sendOrPend d st =
       (Ok (VStr "ALERTED"),
        push_emitted {| dest := ToGroup (VStr (SendOrPend.room d));
                        event := VStr "exposureAlert";
                        body := Json (SendOrPend.to_value d) |} st)) ∧
  (¬ visitor_id_online (SendOrPend.visitor_id d) st ->
     ServerProxy.sendOrPend d st =
       (Ok (VStr "PENDING"),
        set_radarPending
          (JsMap.set (SendOrPend.visitor_id d) (SendOrPend.to_value d) (radarPending st))
          st)).
Proof.
  intros Hev.
  assert (Heq : String.eqb (SendOrPend.event d) "exposureAlert" = true)
    by (by rewrite Hev).
  split; intros Hon.
  - apply visitors_by_id in Hon.
    unfold ServerProxy.sendOrPend. cbv zeta. rewrite Heq.
    unfold mbind, M_bind, bind, gets. rewrite Hon.
    unfold ServerProxy.privateMessage, lift, emit, modify, mbind, M_bind, bind.
    unfold SendOrPend.to_value. simpl. by rewrite Hev.
  - assert (Hoff : has_length (List.filter
               (fun v => String.eqb (v_id v) (SendOrPend.visitor_id d))
               (ServerProxy.visitors st)) = false).
    { apply not_true_is_false. intros H. by apply Hon, visitors_by_id. }
    unfold ServerProxy.sendOrPend. cbv zeta. rewrite Heq.
    unfold mbind, M_bind, bind, gets. by rewrite Hoff.
Qed.

(** X16. [sendOrPend] for an [exposureAlert].  The answer is 'ALERTED'
    exactly when a live connection presenting a Visitor identity has the
    visitor's id as its socket id; the alert is then emitted at once,
    addressed to the group the data names in [room].  Otherwise the answer is
    'PENDING', nothing is emitted and the data is stored under the visitor's
    id. *)
Theorem sendOrPend_alert (d : SendOrPend.t) (st : Server) :
  SendOrPend.event d = "exposureAlert" ->
  (visitor_id_online (SendOrPend.visitor_id d) st ->
     ServerProxy.sendOrPend d st =
       (Ok (VStr "ALERTED"),
        push_emitted {| dest := ToGroup (VStr (SendOrPend.room d));
                        event := VStr "exposureAlert";
                        body := Json (SendOrPend.to_value d) |} st)) ∧
  (¬ visitor_id_online (SendOrPend.visitor_id d) st ->
     ServerProxy.sendOrPend d st =
       (Ok (VStr "PENDING"),
        set_radarPending
          (JsMap.set (SendOrPend.visitor_id d) (SendOrPend.to_value d) (radarPending st))
          st)).
Proof.
  intros Hev. destruct (sendOrPend_alert_aux d st Hev) as [Hon Hoff].
  split; [exact Hon | exact Hoff].
Qed.

Lemma sendOrPend_alert_witness :
  (SendOrPend.event (Scenario.alert_bob "Cafe1") = "exposureAlert" ∧
   visitor_id_online (SendOrPend.visitor_id (Scenario.alert_bob "Cafe1")) Scenario.cafe_open) ∧
  (ServerProxy.sendOrPend (Scenario.alert_bob "Cafe1") Scenario.cafe_open).1 =
    Ok (VStr "ALERTED") ∧
  ((SendOrPend.event (Scenario.alert_bob "Cafe1") = "exposureAlert" ∧
    ¬ visitor_id_online (SendOrPend.visitor_id (Scenario.alert_bob "Cafe1")) initial) ∧
   (ServerProxy.sendOrPend (Scenario.alert_bob "Cafe1") initial).1 =
     Ok (VStr "PENDING")).
Proof.
  assert (Hon : visitor_id_online (SendOrPend.visitor_id (Scenario.alert_bob "Cafe1"))
                  Scenario.cafe_open).
  { exists Scenario.bob. split; [|split; reflexivity].
    assert (Hs : sockets Scenario.cafe_open = [Scenario.cafe; Scenario.bob])
      by (vm_compute; reflexivity).
    rewrite Hs. apply elem_of_cons. right. apply elem_of_cons. by left. }
  assert (Hoff : ¬ visitor_id_online (SendOrPend.visitor_id (Scenario.alert_bob "Cafe1"))
                     initial).
  { intros (s & Hs & _). simpl in Hs. by apply elem_of_nil in Hs. }
  split; [split; [reflexivity | exact Hon]|]. split.
  - by rewrite (proj1 (sendOrPend_alert (Scenario.alert_bob "Cafe1") Scenario.cafe_open
                         eq_refl) Hon).
  - split; [split; [reflexivity | exact Hoff]|].
    by rewrite (proj2 (sendOrPend_alert (Scenario.alert_bob "Cafe1") initial eq_refl) Hoff).
Defined.

(** X17. [sendOrPend] for a [notifyRoom], and the drain that follows.  If the
    room is open, the event goes to the room's group at once, with the room,
    the reason, the dates and the visitor, and the cache is not touched.  If
    it is not, the same fields are stored under the room name; the next
    [handlePendings] of [ServerProxy] for that room then sends every stored
    value, the new one included, as [notifyRoom] to the room the value names,
    in the order of the cache, and leaves the cache empty. *)
Theorem sendOrPend_notify_round_trip (d : SendOrPend.t) (st : Server)
    (query : Query.t) :
  SendOrPend.event d = "notifyRoom" ->
  SendOrPend.room d ≠ "" ->
  Query.room query = Some (SendOrPend.room d) ->
  Forall defined_value (radarPending st) ->
  (isOpen (SendOrPend.room d) st = true ->
     ServerProxy.sendOrPend d st =
       (Ok (VStr "WARNED"),
        push_emitted {| dest := ToGroup (VStr (SendOrPend.room d));
                        event := VStr "notifyRoom";
                        body := Json (notify_payload d) |} st)) ∧
  (isOpen (SendOrPend.room d) st = false ->
     let stored := JsMap.set (SendOrPend.room d) (notify_stored d) (radarPending st) in
     ServerProxy.sendOrPend d st = (Ok (VStr "PENDING"), set_radarPending stored st) ∧
     let st1 := run (ServerProxy.sendOrPend d) st in
     (ServerProxy.handlePendings query st1).1 = Ok VUndef ∧
     radarPending (run (ServerProxy.handlePendings query) st1) = [] ∧
     emitted (run (ServerProxy.handlePendings query) st1) =
       emitted st ++ map (flushed "notifyRoom") stored ∧
     flushed "notifyRoom" (SendOrPend.room d, notify_stored d) =
       {| dest := ToGroup (VStr (SendOrPend.room d)); event := VStr "notifyRoom";
          body := Json (notify_stored d) |}).
Proof.
  intros Hev Hne Hroom Hall.
  assert (Hnot : String.eqb (SendOrPend.event d) "exposureAlert" = false)
    by (by rewrite Hev).
  split; intros Hopen.
  - unfold ServerProxy.sendOrPend. cbv zeta. rewrite Hnot.
    rewrite Hev. simpl. unfold mbind, M_bind, bind, gets.
    unfold isOpen in Hopen. rewrite Hopen. reflexivity.
  - intros stored.
    assert (E : ServerProxy.sendOrPend d st = (Ok (VStr "PENDING"), set_radarPending stored st)).
    { unfold ServerProxy.sendOrPend. cbv zeta. rewrite Hnot.
      rewrite Hev. simpl. unfold mbind, M_bind, bind, gets.
      unfold isOpen in Hopen. rewrite Hopen. reflexivity. }
    split; [exact E|]. intros st1.
    assert (Est1 : st1 = set_radarPending stored st) by (unfold st1, run; by rewrite E).
    assert (Hall1 : Forall defined_value stored).
    { apply defined_value_set; [exact I | exact Hall]. }
    destruct (forEach_flush "notifyRoom" stored st1) as (H1 & H2 & H3);
      [by rewrite Est1 | exact Hall1 |].
    assert (Hhas : JsMap.has (SendOrPend.room d) (radarPending st1) = true).
    { rewrite Est1. simpl. apply has_set. }
    assert (Hrp : radarPending st1 = stored) by (by rewrite Est1).
    unfold run in *. unfold ServerProxy.handlePendings.
    rewrite Hroom, (truthy_opt_Some _ Hne).
    unfold forEach, mbind, M_bind, bind, gets. rewrite Hhas. simpl. rewrite Hrp.
    destruct (forEach_from radarPending (ServerProxy.flush "notifyRoom") stored st1)
      as [[[]|e] st2]; simpl in *; [|discriminate H1].
    split; [done|]. split; [exact H2|]. split; [|reflexivity].
    rewrite H3, Est1. reflexivity.
Qed.

Lemma sendOrPend_notify_round_trip_witness :
  (SendOrPend.event (Scenario.notify "Cafe1") = "notifyRoom" ∧
   SendOrPend.room (Scenario.notify "Cafe1") ≠ "" ∧
   Query.room (handshake_query Scenario.cafe) =
     Some (SendOrPend.room (Scenario.notify "Cafe1")) ∧
   Forall defined_value (radarPending Scenario.cafe_closed) ∧
   isOpen (SendOrPend.room (Scenario.notify "Cafe1")) Scenario.cafe_closed = false) ∧
  emitted (run (ServerProxy.handlePendings (handshake_query Scenario.cafe))
             (run (ServerProxy.sendOrPend (Scenario.notify "Cafe1")) Scenario.cafe_closed)) =
    emitted Scenario.cafe_closed ++
    [{| dest := ToGroup (VStr "Cafe1"); event := VStr "notifyRoom";
        body := Json (notify_stored (Scenario.notify "Cafe1")) |}].
Proof.
  assert (Hne : SendOrPend.room (Scenario.notify "Cafe1") ≠ "") by discriminate.
  assert (Hall : Forall defined_value (radarPending Scenario.cafe_closed))
    by (vm_compute; constructor).
  assert (Hc : isOpen (SendOrPend.room (Scenario.notify "Cafe1")) Scenario.cafe_closed
               = false) by (vm_compute; reflexivity).
  split; [repeat split; try reflexivity; done|].
  rewrite (proj1 (proj2 (proj2 (proj2 (proj2 (sendOrPend_notify_round_trip
             (Scenario.notify "Cafe1") Scenario.cafe_closed
             (handshake_query Scenario.cafe) eq_refl Hne eq_refl Hall) Hc))))).
  vm_compute. reflexivity.
Defined.

(** X18. An alert stored by [sendOrPend] and the drain that follows.  When
    the visitor is offline the data is stored under the visitor's id; the next
    [handlePendings] of [ServerProxy] for a Visitor or Admin connection whose
    query carries that id sends every stored value, the new one included, as
    [exposureAlert] to the group the value names in [room], in the order of
    the cache, and leaves the cache empty. *)
Theorem sendOrPend_alert_round_trip (d : SendOrPend.t) (st : Server)
    (query : Query.t) :
  SendOrPend.event d = "exposureAlert" ->
  ¬ visitor_id_online (SendOrPend.visitor_id d) st ->
  truthy_opt (Query.room query) = false ->
  truthy_opt (Query.visitor query) || truthy_opt (Query.admin query) = true ->
  Query.id query = Some (SendOrPend.visitor_id d) ->
  Forall defined_value (radarPending st) ->
  let stored :=
    JsMap.set (SendOrPend.visitor_id d) (SendOrPend.to_value d) (radarPending st) in
  let st1 := run (ServerProxy.sendOrPend d) st in
  radarPending st1 = stored ∧
  (ServerProxy.handlePendings query st1).1 = Ok VUndef ∧
  radarPending (run (ServerProxy.handlePendings query) st1) = [] ∧
  emitted (run (ServerProxy.handlePendings query) st1) =
    emitted st ++ map (flushed "exposureAlert") stored ∧
  flushed "exposureAlert" (SendOrPend.visitor_id d, SendOrPend.to_value d) =
    {| dest := ToGroup (VStr (SendOrPend.room d)); event := VStr "exposureAlert";
       body := Json (SendOrPend.to_value d) |}.
Proof.
  intros Hev Hoff Hroom Hvis Hid Hall stored st1.
  assert (Est1 : st1 = set_radarPending stored st).
  { unfold st1, run. by rewrite (proj2 (sendOrPend_alert_aux d st Hev) Hoff). }
  assert (Hall1 : Forall defined_value stored).
  { apply defined_value_set; [exact I | exact Hall]. }
  destruct (forEach_flush "exposureAlert" stored st1) as (H1 & H2 & H3);
    [by rewrite Est1 | exact Hall1 |].
  assert (Hrp : radarPending st1 = stored) by (by rewrite Est1).
  assert (Hhas : JsMap.has (SendOrPend.visitor_id d) stored = true) by apply has_set.
  assert (Hsize : Nat.eqb (JsMap.size stored) 0 = false).
  { destruct stored as [|x l] eqn:E; [discriminate Hhas | done]. }
  split; [exact Hrp|].
  unfold run in *. unfold ServerProxy.handlePendings.
  rewrite Hroom, Hvis, Hid.
  unfold forEach, mbind, M_bind, bind, gets. rewrite Hrp, Hsize, Hhas. simpl.
  rewrite Hrp.
  destruct (forEach_from radarPending (ServerProxy.flush "exposureAlert") stored st1)
    as [[[]|e] st2]; simpl in *; [|discriminate H1].
  split; [done|]. split; [exact H2|]. split; [|reflexivity].
  rewrite H3, Est1. reflexivity.
Qed.

Lemma sendOrPend_alert_round_trip_witness :
  (SendOrPend.event (Scenario.alert_bob "Cafe1") = "exposureAlert" ∧
   ¬ visitor_id_online (SendOrPend.visitor_id (Scenario.alert_bob "Cafe1")) initial ∧
   truthy_opt (Query.room (handshake_query Scenario.bob)) = false ∧
   truthy_opt (Query.visitor (handshake_query Scenario.bob)) ||
     truthy_opt (Query.admin (handshake_query Scenario.bob)) = true ∧
   Query.id (handshake_query Scenario.bob) =
     Some (SendOrPend.visitor_id (Scenario.alert_bob "Cafe1")) ∧
   Forall defined_value (radarPending initial)) ∧
  emitted (run (ServerProxy.handlePendings (handshake_query Scenario.bob))
             (run (ServerProxy.sendOrPend (Scenario.alert_bob "Cafe1")) initial)) =
    [{| dest := ToGroup (VStr "Cafe1"); event := VStr "exposureAlert";
        body := Json (SendOrPend.to_value (Scenario.alert_bob "Cafe1")) |}].
Proof.
  assert (Hoff : ¬ visitor_id_online
                     (SendOrPend.visitor_id (Scenario.alert_bob "Cafe1")) initial).
  { intros (s & Hs & _). simpl in Hs. by apply elem_of_nil in Hs. }
  assert (Hall : Forall defined_value (radarPending initial)) by constructor.
  split; [repeat split; try reflexivity; done|].
  rewrite (proj1 (proj2 (proj2 (proj2 (sendOrPend_alert_round_trip
             (Scenario.alert_bob "Cafe1") initial (handshake_query Scenario.bob)
             eq_refl Hoff eq_refl eq_refl eq_refl Hall))))).
  vm_compute. reflexivity.
Defined.

(* ===================================================================== *)
(** ** One entry per key, whatever is enqueued *)
(* ===================================================================== *)

(** The entries stored under [k]. *)
Lemma entries_under k (m : JsMap.t) v :
  JsMap.get k m = Some v -> NoDup (JsMap.keys m) ->
  List.filter (fun e => String.eqb k e.1) m = [(k, v)].
Proof.
  induction m as [|[k' v'] m IH]; simpl; [done|].
  intros Hget Hnd. apply NoDup_cons in Hnd as [Hnotin Hnd].
  destruct (String.eqb k k') eqn:E.
  - apply String.eqb_eq in E. subst k'. inversion Hget; subst v'.
    pose proof (count_key_not_in k m Hnotin) as H0. unfold count_key in H0.
    destruct (List.filter (fun e => String.eqb k e.1) m); [done | discriminate H0].
  - by apply IH.
Qed.

Lemma count_key_one k (m : JsMap.t) v :
  JsMap.get k m = Some v -> NoDup (JsMap.keys m) -> count_key k m = 1%nat.
Proof.
  intros Hget Hnd. unfold count_key. by rewrite (entries_under k m v Hget Hnd).
Qed.





(* ===================================================================== *)
(** ** Further properties: the events for Room managers *)
(* ===================================================================== *)

(** X19. The events for Room managers are read-only.  Whatever is asked,
    the registry, the groups and both caches stay as they are; without a
    callback nothing happens at all; with one, the callback is called exactly
    once, and only [exposeOpenRooms] also broadcasts, the snapshot of open
    rooms to everyone. *)
Theorem admin_queries_read_only (q : AdminQuery) (ack : bool) (st : Server) :
  let st' := run (onAdmin q ack) st in
  (onAdmin q ack st).1 = Ok tt ∧
  sockets st' = sockets st ∧ rooms st' = rooms st ∧
  pendingWarnings st' = pendingWarnings st ∧ radarPending st' = radarPending st ∧
  length (acked st') = (length (acked st) + (if ack then 1 else 0))%nat ∧
  emitted st' =
    emitted st ++
    match q with
    | ExposeOpenRooms =>
        if ack then [{| dest := ToNamespace; event := VStr "openRoomsExposed";
                        body := Snapshot (ServerProxy.openRooms st) |}]
        else []
    | _ => []
    end.
Proof.
  intros st'. unfold st', run.
  destruct q, ack; simpl; rewrite ?length_app, ?app_nil_r; simpl;
    repeat split; lia.
Qed.

(* ===================================================================== *)
(** ** Further properties: [logResults] *)
(* ===================================================================== *)

(** A message [entry] can read. *)
Lemma entry_defined now e :
  is_ok (get_prop e "text") -> ∃ en, LogResults.entry now e = Ok en.
Proof.
  unfold LogResults.entry. destruct e; simpl; try done; intros _; by eexists.
Qed.

Lemma add_all_log now es :
  ∀ s, Forall (fun e => is_ok (get_prop e "text")) es ->
    ∃ ens, Forall2 (fun e en => LogResults.entry now e = Ok en) es ens ∧
           LogResults.logResults (LogResults.add_all now es s) =
             LogResults.logResults s ++ ens ∧
           LogResults.title (LogResults.add_all now es s) = LogResults.title s ∧
           LogResults.this_collapsed (LogResults.add_all now es s) =
             LogResults.this_collapsed s ∧
           LogResults.console (LogResults.add_all now es s) = LogResults.console s.
Proof.
  induction es as [|e es IH]; intros s Hall.
  - exists []. simpl. rewrite app_nil_r. by repeat split.
  - apply Forall_cons in Hall as [He Hall].
    destruct (entry_defined now e He) as (en & Hen).
    set (s1 := {| LogResults.logResults := LogResults.logResults s ++ [en];
                  LogResults.title := LogResults.title s;
                  LogResults.collapsed := LogResults.collapsed s;
                  LogResults.this_collapsed := LogResults.this_collapsed s;
                  LogResults.console := LogResults.console s |}).
    assert (Hstep : LogResults.add_all now (e :: es) s = LogResults.add_all now es s1).
    { unfold LogResults.add_all. simpl. unfold LogResults.add at 2. by rewrite Hen. }
    destruct (IH s1 Hall) as (ens & HF & Hl & Ht & Hc & Hco).
    exists (en :: ens). rewrite Hstep, Hl, Ht, Hc, Hco. unfold s1. simpl.
    rewrite <- app_assoc. split; [by constructor | done].
Qed.

(** X20. The title of the log is settled by the first [entitle] on an empty
    log.  Once messages have been added, a later [entitle] leaves the title
    alone and only sets whether the group is shown collapsed, [true] when the
    argument is left out. *)
Theorem entitle_keeps_first_title (s : LogResults.t) (now : string)
    (caption1 caption2 c1 c2 : value) (es : list value) :
  LogResults.hasData s = 0%nat ->
  es ≠ [] ->
  Forall (fun e => is_ok (get_prop e "text")) es ->
  let s' := LogResults.entitle caption2 c2
              (LogResults.add_all now es (LogResults.entitle caption1 c1 s)) in
  LogResults.title s' = caption1 ∧
  LogResults.this_collapsed s' = or_default c2 (VBool true) ∧
  LogResults.hasData s' = length es.
Proof.
  intros Hempty Hne Hall s'.
  set (s0 := LogResults.entitle caption1 c1 s) in *.
  assert (Ht0 : LogResults.title s0 = caption1).
  { unfold s0. simpl. by rewrite Hempty. }
  assert (Hlog : LogResults.logResults s0 = []).
  { unfold s0. simpl. unfold LogResults.hasData in Hempty.
    by destruct (LogResults.logResults s). }
  destruct (add_all_log now es s0 Hall) as (ens & HF & Hl & Ht & _ & _).
  assert (Hlen : length ens = length es) by (symmetry; by eapply Forall2_length).
  set (s1 := LogResults.add_all now es s0) in *.
  assert (Hn : LogResults.hasData s1 = length es).
  { unfold LogResults.hasData. by rewrite Hl, Hlog. }
  clearbody s1 s0.
  unfold s', LogResults.entitle, LogResults.hasData in *. simpl.
  rewrite Hn, Ht, Ht0.
  destruct es as [|e es']; [done|]. simpl. done.
Qed.

Lemma entitle_keeps_first_title_witness :
  (LogResults.hasData LogResults.init = 0%nat ∧
   [VObj [("text", VStr "started")]] ≠ [] ∧
   Forall (fun e => is_ok (get_prop e "text")) [VObj [("text", VStr "started")]]) ∧
  LogResults.title
    (LogResults.entitle (VStr "Second") VUndef
       (LogResults.add_all "12:00:00" [VObj [("text", VStr "started")]]
          (LogResults.entitle (VStr "First") VUndef LogResults.init))) = VStr "First".
Proof.
  assert (Hall : Forall (fun e => is_ok (get_prop e "text"))
                   [VObj [("text", VStr "started")]]) by (repeat constructor).
  assert (Hne : [VObj [("text", VStr "started")]] ≠ []) by discriminate.
  split; [repeat split; done|].
  exact (proj1 (entitle_keeps_first_title LogResults.init "12:00:00"
           (VStr "First") (VStr "Second") VUndef VUndef _ eq_refl Hne Hall)).
Defined.

(** X21. [show] prints what was added, in the order it was added, between
    the opening of a group under the title and its end, and unless it is
    called with a falsy argument it empties the log.  After [show(false)] the
    log is as it was, so that a second [show] prints the same table again;
    after a plain [show()] there is no data left. *)
Theorem show_prints_and_clears (s : LogResults.t) (now : string) (es : list value) :
  Forall (fun e => is_ok (get_prop e "text")) es ->
  ∃ ens,
    Forall2 (fun e en => LogResults.entry now e = Ok en) es ens ∧
    let s1 := LogResults.add_all now es s in
    let opening := if truthy (LogResults.this_collapsed s)
                   then LogResults.GroupCollapsed (LogResults.title s)
                   else LogResults.Group (LogResults.title s) in
    let printed := [opening; LogResults.Table (LogResults.logResults s ++ ens);
                    LogResults.GroupEnd] in
    LogResults.console (LogResults.show VUndef s1) = LogResults.console s ++ printed ∧
    LogResults.hasData (LogResults.show VUndef s1) = 0%nat ∧
    LogResults.hasData (LogResults.show (VBool false) s1) =
      (LogResults.hasData s + length es)%nat ∧
    LogResults.console (LogResults.show VUndef (LogResults.show (VBool false) s1)) =
      LogResults.console s ++ printed ++ printed.
Proof.
  intros Hall.
  destruct (add_all_log now es s Hall) as (ens & HF & Hl & Ht & Hc & Hco).
  assert (Hlen : length ens = length es) by (symmetry; by eapply Forall2_length).
  exists ens. split; [exact HF|]. cbv zeta.
  unfold LogResults.show, LogResults.hasData. simpl.
  rewrite Hl, Ht, Hc, Hco. rewrite length_app, Hlen.
  split; [done|]. split; [done|]. split; [done|].
  by rewrite <- app_assoc.
Qed.

Lemma show_prints_and_clears_witness :
  Forall (fun e => is_ok (get_prop e "text"))
    [VObj [("text", VStr "started")]; VObj [("text", VStr "done"); ("level", VNum 2)]] ∧
  LogResults.console
    (LogResults.show VUndef
       (LogResults.add_all "12:00:00"
          [VObj [("text", VStr "started")]; VObj [("text", VStr "done"); ("level", VNum 2)]]
          LogResults.init)) =
    [LogResults.Group (VStr "Log Results");
     LogResults.Table
       [LogResults.mkEntry "12:00:00" (VStr "started") (VNum 0) (VStr "output");
        LogResults.mkEntry "12:00:00" (VStr "done") (VNum 2) (VStr "output")];
     LogResults.GroupEnd].
Proof.
  assert (Hall : Forall (fun e => is_ok (get_prop e "text"))
    [VObj [("text", VStr "started")]; VObj [("text", VStr "done"); ("level", VNum 2)]])
    by (repeat constructor).
  split; [exact Hall|].
  destruct (show_prints_and_clears LogResults.init "12:00:00" _ Hall)
    as (ens & HF & Hshow & _).
  rewrite Hshow. simpl.
  apply Forall2_cons_inv_l in HF as (en1 & ens1 & H1 & HF & ->).
  apply Forall2_cons_inv_l in HF as (en2 & ens2 & H2 & HF & ->).
  apply Forall2_nil_inv_l in HF as ->.
  vm_compute in H1, H2. inversion H1. inversion H2. reflexivity.
Defined.

(* ===================================================================== *)
(** ** Further properties: the earlier server *)
(* ===================================================================== *)

Lemma arrays_only_get m k x :
  Early.arrays_only m -> JsMap.get k m = Some x -> ∃ items, x = VArr items.
Proof.
  unfold Early.arrays_only. induction m as [|[k' v'] m IH]; simpl; [done|].
  intros Hall. apply Forall_cons in Hall as [H1 H2].
  destruct (String.eqb k k'); [|by apply IH].
  intros [= <-]. exact H1.
Qed.

Lemma arrays_only_set m k items :
  Early.arrays_only m -> Early.arrays_only (JsMap.set k (VArr items) m).
Proof.
  unfold Early.arrays_only. induction m as [|[k' v'] m IH]; simpl; intros Hall.
  - constructor; [by eexists | done].
  - apply Forall_cons in Hall as [H1 H2].
    destruct (String.eqb k k'); constructor; try done; [by eexists | by apply IH].
Qed.

Lemma updateAlertMap_history data st :
  Early.arrays_only (Early.alertMap st) ->
  (Early.updateAlertMap data st).1 = Ok tt ∧
  let st' := (Early.updateAlertMap data st).2 in
  Early.history (Early.visitor data) st' =
    Early.history (Early.visitor data) st ++ [Early.visit data] ∧
  (∀ v, v ≠ Early.visitor data -> Early.history v st' = Early.history v st) ∧
  Early.arrays_only (Early.alertMap st') ∧
  Early.visitorMap st' = Early.visitorMap st ∧
  Early.roomMap st' = Early.roomMap st ∧
  Early.io st' = Early.io st.
Proof.
  intros Harr. unfold Early.updateAlertMap, Early.history, JsMap.has.
  destruct (JsMap.get (Early.visitor data) (Early.alertMap st)) as [x|] eqn:E; simpl.
  - destruct (arrays_only_get _ _ _ Harr E) as (items & ->).
    rewrite E. simpl. rewrite get_set_eq.
    split; [done|]. split; [done|]. split; [|split; [by apply arrays_only_set | done]].
    intros v Hv. by rewrite get_set_ne.
  - rewrite get_set_eq. simpl. rewrite get_set_eq.
    split; [done|]. split; [done|].
    split; [|split; [by apply arrays_only_set, arrays_only_set | done]].
    intros v Hv. by rewrite !get_set_ne.
Qed.

Lemma enterRoom_history sid data st :
  Early.arrays_only (Early.alertMap st) ->
  (Early.enterRoom sid data true st).1 = Ok tt ∧
  let st' := (Early.enterRoom sid data true st).2 in
  Early.history (Early.visitor data) st' =
    Early.history (Early.visitor data) st ++ [Early.visit data] ∧
  (∀ v, v ≠ Early.visitor data -> Early.history v st' = Early.history v st) ∧
  Early.arrays_only (Early.alertMap st').
Proof.
  intros Harr. unfold Early.enterRoom, Early.call_cb. cbv zeta.
  set (st3 := Early.set_io _ _).
  assert (Harr3 : Early.arrays_only (Early.alertMap st3)) by exact Harr.
  destruct (updateAlertMap_history data st3 Harr3) as (Hok & Hh & Ho & Ha & _).
  destruct (Early.updateAlertMap data st3) as [[[]|e] st4]; simpl in *;
    [|discriminate Hok].
  split; [done|]. split; [exact Hh|]. split; [exact Ho | exact Ha].
Qed.

(** X22. [alertMap] keeps, for every visitor, all the visits of that
    visitor in the order of the [enterRoom] events: every event adds its room
    and date at the end of the visitor's array, and the arrays of the other
    visitors are not touched.  Nothing is overwritten. *)
Theorem alertMap_keeps_every_visit (es : list (string * Early.Data))
    (st : Early.State) (v : string) :
  Early.arrays_only (Early.alertMap st) ->
  Early.history v (Early.enter_all es st) =
    Early.history v st ++
    map (fun e => Early.visit e.2)
        (List.filter (fun e => String.eqb (Early.visitor e.2) v) es) ∧
  Early.arrays_only (Early.alertMap (Early.enter_all es st)).
Proof.
  revert st. induction es as [|[sid d] es IH]; intros st Harr.
  - simpl. by rewrite app_nil_r.
  - destruct (enterRoom_history sid d st Harr) as (_ & Hh & Ho & Ha).
    cbv zeta in Hh, Ho, Ha.
    unfold Early.enter_all in *. simpl.
    destruct (IH _ Ha) as [IH1 IH2]. split; [|exact IH2].
    rewrite IH1. destruct (String.eqb (Early.visitor d) v) eqn:E.
    + apply String.eqb_eq in E. subst v. rewrite Hh. simpl. by rewrite <- app_assoc.
    + rewrite Ho; [done|]. intros ->. by rewrite eqb_refl_true in E.
Qed.

Lemma alertMap_keeps_every_visit_witness :
  Early.arrays_only (Early.alertMap Early.init) ∧
  Early.history "Ann"
    (Early.enter_all
       [("V1", Early.mkData "Ann" "Cafe1" (VStr "Mon") VUndef);
        ("V2", Early.mkData "Bob" "Cafe1" (VStr "Mon") VUndef);
        ("V1", Early.mkData "Ann" "Cafe2" (VStr "Tue") VUndef)] Early.init) =
    [VObj [("room", VStr "Cafe1"); ("date", VStr "Mon")];
     VObj [("room", VStr "Cafe2"); ("date", VStr "Tue")]].
Proof.
  assert (Harr : Early.arrays_only (Early.alertMap Early.init)) by constructor.
  split; [exact Harr|].
  rewrite (proj1 (alertMap_keeps_every_visit _ Early.init "Ann" Harr)).
  reflexivity.
Defined.

Lemma alertVisitor_fold m :
  ∀ st, emitted (Early.io (fold_left Early.alertVisitor m st)) =
          emitted (Early.io st) ++ map Early.personal_alert m ∧
        Early.visitorMap (fold_left Early.alertVisitor m st) = Early.visitorMap st ∧
        Early.alertMap (fold_left Early.alertVisitor m st) = Early.alertMap st ∧
        Early.roomMap (fold_left Early.alertVisitor m st) = Early.roomMap st.
Proof.
  induction m as [|e m IH]; intros st; simpl.
  - by rewrite app_nil_r.
  - destruct (IH (Early.alertVisitor st e)) as (H1 & H2 & H3 & H4).
    rewrite H1, H2, H3, H4. simpl. by rewrite <- app_assoc.
Qed.

Lemma get_Some_In k v (m : JsMap.t) : JsMap.get k m = Some v -> (k, v) ∈ m.
Proof.
  induction m as [|[k' v'] m IH]; simpl; [done|].
  destruct (String.eqb k k') eqn:E.
  - apply String.eqb_eq in E. subst k'. intros [= ->]. apply elem_of_cons. by left.
  - intros H. apply elem_of_cons. right. by apply IH.
Qed.

Lemma alertRooms_emitted sid data st :
  (Early.alertRooms sid data true st).1 = Ok tt ∧
  let st' := (Early.alertRooms sid data true st).2 in
  emitted (Early.io st') =
    emitted (Early.io st) ++
    {| dest := ToGroup (VStr (Early.room data)); event := VStr "exposureAlert";
       body := Json (VObj [("room", VStr (Early.room data));
                           ("message", Early.message data);
                           ("sentTime", Early.sentTime data);
                           ("socketId", VStr sid)]) |} ::
    map Early.personal_alert (Early.visitorMap st) ∧
  Early.visitorMap st' = Early.visitorMap st ∧
  Early.alertMap st' = Early.alertMap st ∧
  Early.roomMap st' = Early.roomMap st.
Proof.
  unfold Early.alertRooms, Early.call_cb. cbv zeta. simpl.
  set (st3 := Early.emit_to _ _ _ _).
  destruct (alertVisitor_fold (Early.visitorMap st) st3) as (H1 & H2 & H3 & H4).
  split; [done|]. rewrite H1, H2, H3, H4. unfold st3. simpl.
  destruct (join_frame sid (Early.room data) (push_acked
    (Json (VObj [("msg", VStr "Notifying all rooms you occupied in last 14 days");
                 ("socketId", VStr sid)])) (Early.io st))) as (_ & _ & _ & He & _).
  rewrite He. simpl. by rewrite <- app_assoc.
Qed.

Lemma updateAlertMap_visitorMap data st :
  Early.visitorMap (Early.updateAlertMap data st).2 = Early.visitorMap st.
Proof.
  unfold Early.updateAlertMap. cbv zeta.
  destruct (negb (JsMap.has (Early.visitor data) (Early.alertMap st))); simpl.
  - destruct (JsMap.get _ _) as [[]|]; reflexivity.
  - destruct (JsMap.get _ _) as [[]|]; reflexivity.
Qed.

Lemma enterRoom_visitorMap sid data st :
  Early.visitorMap (Early.enterRoom sid data true st).2 =
    JsMap.set sid (VStr (Early.visitor data)) (Early.visitorMap st).
Proof.
  unfold Early.enterRoom, Early.call_cb. cbv zeta.
  set (st3 := Early.set_io _ _).
  pose proof (updateAlertMap_visitorMap data st3) as H.
  destruct (Early.updateAlertMap data st3) as [[[]|e] st4]; simpl in *; exact H.
Qed.

(** X23. [alertRooms] alerts everybody, not the room.  After the alert to the
    group of the room it names, it sends a personal [exposureAlert] to every
    socket recorded in [visitorMap], in the order they were recorded.  So a
    visitor who entered any room, on any socket, is told 'you may have been
    exposed' by the [alertRooms] that follows, whatever room that one names,
    under the name of the socket's latest [enterRoom]. *)
Theorem alertRooms_alerts_everybody (st : Early.State) (sid : string)
    (d : Early.Data) (sender : string) (data : Early.Data) :
  let st1 := (Early.enterRoom sid d true st).2 in
  let st2 := (Early.alertRooms sender data true st1).2 in
  emitted (Early.io st2) =
    emitted (Early.io st1) ++
    {| dest := ToGroup (VStr (Early.room data)); event := VStr "exposureAlert";
       body := Json (VObj [("room", VStr (Early.room data));
                           ("message", Early.message data);
                           ("sentTime", Early.sentTime data);
                           ("socketId", VStr sender)]) |} ::
    map Early.personal_alert (Early.visitorMap st1) ∧
  {| dest := ToGroup (VStr sid); event := VStr "exposureAlert";
     body := Json (VStr (Early.visitor d ^ ", you may have been exposed.")) |}
    ∈ emitted (Early.io st2).
Proof.
  intros st1 st2.
  destruct (alertRooms_emitted sender data st1) as (_ & He & _).
  cbv zeta in He. fold st2 in He. split; [exact He|].
  assert (Hget : JsMap.get sid (Early.visitorMap st1) = Some (VStr (Early.visitor d))).
  { unfold st1. rewrite enterRoom_visitorMap. apply get_set_eq. }
  apply get_Some_In in Hget.
  rewrite He. apply elem_of_app. right. apply elem_of_cons. right.
  exact (list_elem_of_fmap_2 Early.personal_alert _ _ Hget).
Qed.

Lemma delete_not_in k (m : JsMap.t) :
  NoDup (JsMap.keys m) -> k ∉ JsMap.keys (JsMap.delete k m).
Proof.
  induction m as [|[k' v'] m IH]; simpl; intros Hnd.
  - apply not_elem_of_nil.
  - apply NoDup_cons in Hnd as [Hnotin Hnd].
    destruct (String.eqb k k') eqn:E; simpl.
    + apply String.eqb_eq in E. by subst k'.
    + apply not_elem_of_cons. split; [|by apply IH].
      intros ->. by rewrite eqb_refl_true in E.
Qed.

(** X24. [removeVisitor] takes the socket off the list of those to alert.
    As long as no socket is recorded twice in [visitorMap], the next
    [alertRooms] sends its personal alerts to the sockets that remain, in
    their order, and none of them is addressed to the socket removed. *)
Theorem removed_visitor_not_alerted (st : Early.State) (sid sender : string)
    (data : Early.Data) :
  NoDup (JsMap.keys (Early.visitorMap st)) ->
  let st1 := Early.removeVisitor sid st in
  let st2 := (Early.alertRooms sender data true st1).2 in
  emitted (Early.io st2) =
    emitted (Early.io st) ++
    {| dest := ToGroup (VStr (Early.room data)); event := VStr "exposureAlert";
       body := Json (VObj [("room", VStr (Early.room data));
                           ("message", Early.message data);
                           ("sentTime", Early.sentTime data);
                           ("socketId", VStr sender)]) |} ::
    map Early.personal_alert (JsMap.delete sid (Early.visitorMap st)) ∧
  Forall (fun e => dest e ≠ ToGroup (VStr sid))
    (map Early.personal_alert (JsMap.delete sid (Early.visitorMap st))).
Proof.
  intros Hnd st1 st2.
  destruct (alertRooms_emitted sender data st1) as (_ & He & _).
  cbv zeta in He. fold st2 in He. split; [exact He|].
  apply Forall_forall. intros e He'.
  apply list_elem_of_fmap in He' as ([k v] & -> & Hin). simpl.
  intros [= ->]. apply (delete_not_in sid _ Hnd).
  apply list_elem_of_fmap. by exists (sid, v).
Qed.

Lemma removed_visitor_not_alerted_witness :
  NoDup (JsMap.keys (Early.visitorMap Early.two_visitors)) ∧
  emitted (Early.io
    (Early.alertRooms "V2" (Early.mkData "Bob" "Cafe1" (VStr "Wed") (VStr "positive")) true
       (Early.removeVisitor "V1" Early.two_visitors)).2) =
    emitted (Early.io Early.two_visitors) ++
    [{| dest := ToGroup (VStr "Cafe1"); event := VStr "exposureAlert";
        body := Json (VObj [("room", VStr "Cafe1"); ("message", VStr "positive");
                            ("sentTime", VStr "Wed"); ("socketId", VStr "V2")]) |};
     {| dest := ToGroup (VStr "V2"); event := VStr "exposureAlert";
        body := Json (VStr "Bob, you may have been exposed.") |}].
Proof.
  assert (Hnd : NoDup (JsMap.keys (Early.visitorMap Early.two_visitors))).
  { assert (E : JsMap.keys (Early.visitorMap Early.two_visitors) = ["V1"; "V2"])
      by (vm_compute; reflexivity).
    rewrite E. apply NoDup_cons. split.
    - intros H. apply list_elem_of_singleton in H. discriminate H.
    - apply NoDup_singleton. }
  split; [exact Hnd|].
  rewrite (proj1 (removed_visitor_not_alerted Early.two_visitors "V1" "V2"
             (Early.mkData "Bob" "Cafe1" (VStr "Wed") (VStr "positive")) Hnd)).
  vm_compute. reflexivity.
Defined.

(** X25. An event sent without a callback changes nothing.  Each of the five
    handlers that answer through [cb] calls it first, so that a client that
    passed none makes the handler throw before anything is recorded, joined
    or emitted. *)
Theorem early_events_need_callback (sid : string) (data : Early.Data)
    (st : Early.State) :
  Early.enterRoom sid data false st = (Throw (TypeError "cb is not a function"), st) ∧
  Early.alertRooms sid data false st = (Throw (TypeError "cb is not a function"), st) ∧
  Early.open_room sid data false st = (Throw (TypeError "cb is not a function"), st) ∧
  Early.close_room sid data false st = (Throw (TypeError "cb is not a function"), st) ∧
  Early.leaveRoom sid data false st = (Throw (TypeError "cb is not a function"), st).
Proof.
  unfold Early.enterRoom, Early.alertRooms, Early.open_room, Early.close_room,
    Early.leaveRoom, Early.call_cb.
  repeat split.
Qed.
